(** * naver-estate-bot: price parsing and the daily delta summary

    A shallow embedding of the domain logic of the pipeline,

    - [scraper._parse_korean_price] and [scraper._parse_price_field]
      (price strings such as "15억 5000" or "5,000/50"),
    - [main.compute_summary] (today's listings against yesterday's
      spreadsheet rows),
    - the settings of [config], the worksheet rows of [sheets_handler],
      the scraper ([parse_article], [fetch_articles_page],
      [scrape_complex], [run_scraper]) and the steps of [main.run],

    together with the Python built-ins they call ([str.strip],
    [str.replace], [str.split], [str.isdigit], [int], [float], [str],
    true division, float arithmetic, [round], [set] difference), and the
    properties the specification states about them.

    Conventions.
    - A Python [str] is a list of Unicode code points ([N]).  Character
      classes follow CPython 3.11 (Unicode 14.0).
    - A Python [int] is a [Z]; the optional limit on the length of
      int/str conversions ([sys.set_int_max_str_digits]) is taken as
      switched off.
    - A Python [float] is a binary64 value, [spec_float] with precision 53
      and maximal exponent 1024, always in canonical form.
    - Exceptions are values: a computation returns [Ok v] or [Raise e].
    - [date.today()] reads the system clock; the clock's reading is an
      explicit argument of [compute_summary].
    - The browser is an explicit argument of the scraper: the answer to
      each of its calls; what the scraper does to it is kept as a trace. *)

From Stdlib Require Import ZArith NArith List Bool Ascii String Lia.
From Stdlib Require Import DecimalString DecimalPos.
From Stdlib Require Import Floats.SpecFloat.
From stdpp Require Import base option list gmap fin_sets.

Local Open Scope Z_scope.

(* ===================================================================== *)
(** * Exceptions *)
(* ===================================================================== *)

Inductive exn : Set :=
  | ValueError
  | TypeError
  | IndexError
  | KeyError
  | OverflowError
  | ZeroDivisionError
  | AttributeError.

Inductive result (A : Type) : Type :=
  | Ok (a : A)
  | Raise (e : exn).

Arguments Ok {A} a.
Arguments Raise {A} e.

#[global] Instance result_ret : MRet result := λ A a, Ok a.

#[global] Instance result_bind : MBind result := λ A B k c,
  match c with
  | Ok a => k a
  | Raise e => Raise e
  end.

#[global] Instance result_fmap : FMap result := λ A B f c,
  match c with
  | Ok a => Ok (f a)
  | Raise e => Raise e
  end.

(** [try: c except ValueError: h] *)
Definition try_except_ValueError {A} (c : result A) (h : result A) : result A :=
  match c with
  | Raise ValueError => h
  | other => other
  end.

Definition returns {A} (c : result A) : Prop := ∃ a, c = Ok a.

(* ===================================================================== *)
(** * Python strings *)
(* ===================================================================== *)

Abbreviation char := N (only parsing).
Abbreviation str := (list N) (only parsing).

(** ** Literals: UTF-8 text of the development read as code points *)

Fixpoint bytes_of_string (s : string) : list N :=
  match s with
  | EmptyString => []
  | String a t => N_of_ascii a :: bytes_of_string t
  end.

Definition cont (b : N) : N := N.land b 63.

Fixpoint utf8_decode (bs : list N) : str :=
  match bs with
  | [] => []
  | b0 :: t0 =>
    if (b0 <? 128)%N then b0 :: utf8_decode t0
    else
      match t0 with
      | [] => []
      | b1 :: t1 =>
        if (b0 <? 224)%N
        then (N.shiftl (N.land b0 31) 6 + cont b1)%N :: utf8_decode t1
        else
          match t1 with
          | [] => []
          | b2 :: t2 =>
            if (b0 <? 240)%N
            then (N.shiftl (N.land b0 15) 12 + N.shiftl (cont b1) 6
                  + cont b2)%N :: utf8_decode t2
            else
              match t2 with
              | [] => []
              | b3 :: t3 =>
                (N.shiftl (N.land b0 7) 18 + N.shiftl (cont b1) 12
                 + N.shiftl (cont b2) 6 + cont b3)%N :: utf8_decode t3
              end
          end
      end
  end.

Definition py (s : string) : str := utf8_decode (bytes_of_string s).
Arguments py s%_string.

Definition comma : char := 44%N.
Definition space : char := 32%N.
Definition plus : char := 43%N.
Definition minus : char := 45%N.
Definition slash : char := 47%N.
Definition underscore : char := 95%N.
(** U+C5B5, the large-unit marker: one 억 is 10000 만원. *)
Definition eok : char := 50613%N.

(** ** Character classes *)

Definition in_range (c : char) (r : N * N) : bool :=
  ((fst r <=? c) && (c <=? snd r))%N.

Definition in_ranges (c : char) (rs : list (N * N)) : bool :=
  existsb (in_range c) rs.

(** [Py_UNICODE_ISSPACE]: what [str.strip] removes. *)
Definition space_ranges : list (N * N) :=
  [ (9, 13); (28, 32); (133, 133); (160, 160); (5760, 5760);
    (8192, 8202); (8232, 8233); (8239, 8239); (8287, 8287);
    (12288, 12288) ]%N.

Definition isspace (c : char) : bool := in_ranges c space_ranges.

(** General category Nd.  Every block starts at a digit zero and its
    length is a multiple of ten, so the value of a digit is its offset
    in the block modulo ten. *)
Definition decimal_ranges : list (N * N) :=
  [ (48, 57); (1632, 1641); (1776, 1785); (1984, 1993); (2406, 2415);
    (2534, 2543); (2662, 2671); (2790, 2799); (2918, 2927); (3046, 3055);
    (3174, 3183); (3302, 3311); (3430, 3439); (3558, 3567); (3664, 3673);
    (3792, 3801); (3872, 3881); (4160, 4169); (4240, 4249); (6112, 6121);
    (6160, 6169); (6470, 6479); (6608, 6617); (6784, 6793); (6800, 6809);
    (6992, 7001); (7088, 7097); (7232, 7241); (7248, 7257);
    (42528, 42537); (43216, 43225); (43264, 43273); (43472, 43481);
    (43504, 43513); (43600, 43609); (44016, 44025); (65296, 65305);
    (66720, 66729); (68912, 68921); (69734, 69743); (69872, 69881);
    (69942, 69951); (70096, 70105); (70384, 70393); (70736, 70745);
    (70864, 70873); (71248, 71257); (71360, 71369); (71472, 71481);
    (71904, 71913); (72016, 72025); (72784, 72793); (73040, 73049);
    (73120, 73129); (92768, 92777); (92864, 92873); (93008, 93017);
    (120782, 120831); (123200, 123209); (123632, 123641);
    (125264, 125273); (130032, 130041) ]%N.

(** Numeric_Type=Digit without being decimal: superscripts, subscripts,
    circled and parenthesised digits and the like.  [str.isdigit] accepts
    them, [int] does not. *)
Definition digit_only_ranges : list (N * N) :=
  [ (178, 179); (185, 185); (4969, 4977); (6618, 6618); (8304, 8304);
    (8308, 8313); (8320, 8329); (9312, 9320); (9332, 9340); (9352, 9360);
    (9450, 9450); (9461, 9469); (9471, 9471); (10102, 10110);
    (10112, 10120); (10122, 10130); (68160, 68163); (69216, 69224);
    (69714, 69722); (127232, 127242) ]%N.

(** [Py_UNICODE_TODECIMAL] *)
Definition decimal_value (c : char) : option N :=
  match List.find (in_range c) decimal_ranges with
  | Some (lo, _) => Some ((c - lo) mod 10)%N
  | None => None
  end.

Definition isdecimal_char (c : char) : bool := in_ranges c decimal_ranges.

Definition isdigit_char (c : char) : bool :=
  isdecimal_char c || in_ranges c digit_only_ranges.

(** ** Methods of [str] *)

(** [not s], for a string or a list *)
Definition is_empty {A} (s : list A) : bool :=
  match s with [] => true | _ => false end.

(** [c in s] *)
Definition contains (c : char) (s : str) : bool := existsb (N.eqb c) s.

Definition str_eqb (a b : str) : bool := bool_decide (a = b).

Fixpoint lstrip_with (p : char → bool) (s : str) : str :=
  match s with
  | c :: t => if p c then lstrip_with p t else s
  | [] => []
  end.

Definition rstrip_with (p : char → bool) (s : str) : str :=
  rev (lstrip_with p (rev s)).

(** [s.strip()] *)
Definition strip (s : str) : str := rstrip_with isspace (lstrip_with isspace s).

(** [s.replace(c, "")] *)
Definition remove_char (c : char) (s : str) : str :=
  List.filter (λ x, negb (x =? c)%N) s.

(** [s.split(sep)] for a one-character separator *)
Fixpoint split_on (sep : char) (s : str) : list str :=
  match s with
  | [] => [[]]
  | c :: t =>
    if (c =? sep)%N then [] :: split_on sep t
    else match split_on sep t with
         | seg :: segs => (c :: seg) :: segs
         | [] => [[c]]
         end
  end.

(** [s.split(sep, 1)] *)
Fixpoint split1 (sep : char) (s : str) : list str :=
  match s with
  | [] => [[]]
  | c :: t =>
    if (c =? sep)%N then [[]; t]
    else match split1 sep t with
         | seg :: segs => (c :: seg) :: segs
         | [] => [[c]]
         end
  end.

(** [parts[i]] *)
Definition index {A} (parts : list A) (i : nat) : result A :=
  match parts !! i with
  | Some x => Ok x
  | None => Raise IndexError
  end.

(** [s.isdigit()]: at least one character and every character a digit *)
Definition isdigit (s : str) : bool :=
  negb (is_empty s) && forallb isdigit_char s.

(** ** [int(s)] for a string

    CPython first maps every non-ASCII space to a blank and every
    non-ASCII decimal digit to its ASCII digit, then reads blanks, an
    optional sign, digits with single underscores between them, blanks,
    and the end of the string.  The ASCII separators 28..31 are spaces
    for [strip] but not for [int]. *)

Definition int_isspace (c : char) : bool :=
  if (c <? 127)%N then ((9 <=? c) && (c <=? 13) || (c =? 32))%N
  else isspace c.

Fixpoint scan_digits (s : str) (prev_underscore : bool) (ndigits : nat)
    (acc : N) : option (N * nat * str) :=
  match s with
  | [] => if prev_underscore then None else Some (acc, ndigits, [])
  | c :: t =>
    if (c =? underscore)%N then
      if prev_underscore then None else scan_digits t true ndigits acc
    else
      match decimal_value c with
      | Some d => scan_digits t false (S ndigits) (acc * 10 + d)%N
      | None => if prev_underscore then None else Some (acc, ndigits, s)
      end
  end.

Definition read_sign (s : str) : bool * str :=
  match s with
  | c :: t =>
    if (c =? plus)%N then (false, t)
    else if (c =? minus)%N then (true, t)
    else (false, s)
  | [] => (false, s)
  end.

Definition py_int (s : str) : result Z :=
  let '(negative, body) := read_sign (lstrip_with int_isspace s) in
  if contains underscore (firstn 1 body) then Raise ValueError
  else
    match scan_digits body false 0 0 with
    | Some (n, S _, rest) =>
      if is_empty (lstrip_with int_isspace rest)
      then Ok (if negative then - Z.of_N n else Z.of_N n)
      else Raise ValueError
    | _ => Raise ValueError
    end.

(* ===================================================================== *)
(** * scraper.py: price parsing *)
(* ===================================================================== *)

(** [_parse_korean_price(s)]: a price string to an integer in 만원. *)
Definition _parse_korean_price (s : str) : result Z :=
  let s := remove_char space (remove_char comma (strip s)) in
  if is_empty s then Ok 0
  else if contains eok s then
    let parts := split_on eok s in
    p0 ← index parts 0;
    n0 ← py_int p0;
    let eok_part := n0 * 10000 in
    p1 ← index parts 1;
    remainder ← (if isdigit p1 && negb (is_empty p1) then py_int p1 else Ok 0);
    Ok (eok_part + remainder)
  else
    try_except_ValueError (py_int s) (Ok 0).

(** [raw or ""] *)
Definition or_empty (raw : str) : str := if is_empty raw then [] else raw.

Definition B2 : str := py "B2".

(** [_parse_price_field(raw, trade_type)]: (price, monthly rent). *)
Definition _parse_price_field (raw trade_type : str) : result (Z * Z) :=
  let raw := strip (or_empty raw) in
  if str_eqb trade_type B2 && contains slash raw then
    let parts := split1 slash raw in
    p0 ← index parts 0;
    deposit ← _parse_korean_price p0;
    p1 ← index parts 1;
    monthly ← _parse_korean_price p1;
    Ok (deposit, monthly)
  else
    price ← _parse_korean_price raw;
    Ok (price, 0).

(* ===================================================================== *)
(** * Python numbers *)
(* ===================================================================== *)

(** ** [str(n)] for an integer *)

Definition str_of_int (z : Z) : str :=
  bytes_of_string (NilZero.string_of_int (Z.to_int z)).

(** ** Floats: IEEE 754 binary64 *)

Abbreviation float := spec_float (only parsing).

Definition prec : Z := 53.
Definition emax : Z := 1024.

Definition float_zero : float := S754_zero false.

(** Identity of representation, not Python's [==]. *)
#[global] Instance float_eq_dec : EqDecision spec_float.
Proof. solve_decision. Defined.

Definition float_sub : float → float → float := SFsub prec emax.
Definition float_mul : float → float → float := SFmul prec emax.
Definition float_leb : float → float → bool := SFleb.
Definition float_eqb : float → float → bool := SFeqb.

(** [bool(x)]: every float but the two zeros is true *)
Definition float_bool (x : float) : bool := negb (float_eqb x float_zero).

Definition is_zero (x : float) : Prop := float_bool x = false.

Definition or_overflow (x : float) : result float :=
  match x with
  | S754_infinity _ => Raise OverflowError
  | _ => Ok x
  end.

(** [float(n)] for an integer, also the implicit conversion of an integer
    operand in mixed arithmetic *)
Definition float_of_int (z : Z) : result float :=
  or_overflow (binary_normalize prec emax z 0 false).

(** The integer [n] as an unrounded binary number; [n] is not zero. *)
Definition raw_of_int (n : Z) : float :=
  S754_finite (n <? 0) (Z.to_pos (Z.abs n)) 0.

(** [a / b] for two integers: the exact quotient, rounded once *)
Definition int_truediv (a b : Z) : result float :=
  if b =? 0 then Raise ZeroDivisionError
  else if a =? 0 then Ok (S754_zero (b <? 0))
  else or_overflow (SFdiv prec emax (raw_of_int a) (raw_of_int b)).

(** [x / y] for two floats *)
Definition float_truediv (x y : float) : result float :=
  if float_bool y then Ok (SFdiv prec emax x y) else Raise ZeroDivisionError.

(** [x * n] for a float and an integer *)
Definition float_mul_int (x : float) (n : Z) : result float :=
  y ← float_of_int n;
  Ok (float_mul x y).

(** Nearest integer to [num / den], ties to even; [den] is positive. *)
Definition round_half_even (num den : Z) : Z :=
  let q := num / den in
  match 2 * (num mod den) ?= den with
  | Lt => q
  | Gt => q + 1
  | Eq => if Z.even q then q else q + 1
  end.

(** [round(x, 1)]: the exact value of [x] goes to the nearest multiple of
    one tenth, ties to even, and that decimal to the nearest float. *)
Definition round1 (x : float) : float :=
  match x with
  | S754_finite s m e =>
    let tenths :=
      if 0 <=? e then Zpos m * 2 ^ e * 10
      else round_half_even (Zpos m * 10) (2 ^ (- e)) in
    if tenths =? 0 then S754_zero s
    else SFdiv prec emax (S754_finite s (Z.to_pos tenths) 0) (raw_of_int 10)
  | _ => x
  end.

(** [int(x)] for a float: towards zero *)
Definition int_of_float (x : float) : result Z :=
  match x with
  | S754_zero _ => Ok 0
  | S754_nan => Raise ValueError
  | S754_infinity _ => Raise OverflowError
  | S754_finite s m e =>
    let n := if 0 <=? e then Zpos m * 2 ^ e else Zpos m / 2 ^ (- e) in
    Ok (if s then - n else n)
  end.

(** ** [repr(x)] for a float: the shortest decimal that reads back as [x] *)

(** [n * 10^q] as a float, for a positive [n]. *)
Definition float_of_decimal (n q : Z) : float :=
  if 0 <=? q then binary_normalize prec emax (n * 10 ^ q) 0 false
  else SFdiv prec emax (raw_of_int n) (raw_of_int (10 ^ (- q))).

(** Is [10^k <= num / den]? *)
Definition pow10_le (k num den : Z) : bool :=
  if 0 <=? k then 10 ^ k * den <=? num else den <=? num * 10 ^ (- k).

Fixpoint raise_exponent (fuel : nat) (p num den : Z) : Z :=
  match fuel with
  | O => p
  | S fuel' =>
    if pow10_le (p + 1) num den then raise_exponent fuel' (p + 1) num den
    else p
  end.

(** The [p] with [10^p <= num / den < 10^(p+1)]. *)
Definition decimal_exponent (num den : Z) : Z :=
  let b := Z.log2 num - Z.log2 den in
  raise_exponent 4 ((b - 1) * 30103 / 100000 - 1) num den.

(** The [n]-digit decimal nearest to [num / den] that reads back as [x],
    as mantissa and exponent. *)
Definition shortest_candidate (x : float) (num den p : Z) (n : nat)
    : option (Z * Z) :=
  let q := p - Z.of_nat n + 1 in
  let '(snum, sden) :=
    if 0 <=? q then (num, den * 10 ^ q) else (num * 10 ^ (- q), den) in
  let lo := snum / sden in
  let r := snum mod sden in
  let back c := bool_decide (float_of_decimal c q = x) in
  if r =? 0 then (if back lo then Some (lo, q) else None)
  else
    match back lo, back (lo + 1) with
    | true, true =>
      match 2 * r ?= sden with
      | Lt => Some (lo, q)
      | Gt => Some (lo + 1, q)
      | Eq => Some (if Z.even lo then lo else lo + 1, q)
      end
    | true, false => Some (lo, q)
    | false, true => Some (lo + 1, q)
    | false, false => None
    end.

Fixpoint shortest_from (x : float) (num den p : Z) (n fuel : nat) : Z * Z :=
  match fuel with
  | O => (num / den, 0)
  | S fuel' =>
    match shortest_candidate x num den p n with
    | Some c => c
    | None => shortest_from x num den p (S n) fuel'
    end
  end.

Fixpoint strip_zeros (fuel : nat) (c q : Z) : Z * Z :=
  match fuel with
  | O => (c, q)
  | S fuel' =>
    if (c mod 10 =? 0) && negb (c =? 0) then strip_zeros fuel' (c / 10) (q + 1)
    else (c, q)
  end.

Definition zeros (n : Z) : str := repeat 48%N (Z.to_nat n).

(** Digits [ds] with the decimal point [decpt] places after the first. *)
Definition format_repr (ds : str) (decpt : Z) : str :=
  let k := Z.of_nat (length ds) in
  if (decpt <=? -4) || (16 <? decpt) then
    let ex := decpt - 1 in
    let mant :=
      match ds with
      | d :: (_ :: _) as rest => d :: 46%N :: rest
      | _ => ds
      end in
    let exs := str_of_int (Z.abs ex) in
    mant ++ [101%N; if ex <? 0 then minus else plus]
         ++ (if Z.abs ex <? 10 then [48%N] else []) ++ exs
  else if decpt <=? 0 then
    [48%N; 46%N] ++ zeros (- decpt) ++ ds
  else if k <=? decpt then
    ds ++ zeros (decpt - k) ++ [46%N; 48%N]
  else
    firstn (Z.to_nat decpt) ds ++ [46%N] ++ skipn (Z.to_nat decpt) ds.

Definition float_repr (x : float) : str :=
  match x with
  | S754_nan => py "nan"
  | S754_infinity s => if s then py "-inf" else py "inf"
  | S754_zero s => if s then py "-0.0" else py "0.0"
  | S754_finite s m e =>
    let num := if 0 <=? e then Zpos m * 2 ^ e else Zpos m in
    let den := if 0 <=? e then 1 else 2 ^ (- e) in
    let p := decimal_exponent num den in
    let '(c, q) := shortest_from (S754_finite false m e) num den p 1 17 in
    let '(c, q) := strip_zeros 400 c q in
    let ds := str_of_int c in
    (if s then [minus] else []) ++ format_repr ds (Z.of_nat (length ds) + q)
  end.

(* ===================================================================== *)
(** * models.py *)
(* ===================================================================== *)

Module Listing.
(** A single apartment listing; prices are in 만원. *)
Record t : Type := mk {
  listing_id : str;
  complex_id : str;
  trade_type : str;
  date : str;
  price : Z;
  monthly_rent : Z;
  area_m2 : float;
  floor : Z;
  total_floors : Z;
  direction : str;
  article_name : str;
  agent_name : str;
  confirmed_type : str;
  description : str;
  tags : str;
}.
End Listing.

Module ComplexSummary.
(** The daily summary of one complex and trade type. *)
Record t : Type := mk {
  complex_id : str;
  date : str;
  trade_type : str;
  total_listings : Z;
  new_listings : Z;
  removed_listings : Z;
  avg_price : float;
  avg_price_change : float;
  avg_price_change_pct : float;
  min_price : Z;
  min_price_change : Z;
  lowest_listing : str;
}.
End ComplexSummary.

(* ===================================================================== *)
(** * Rows read back from the spreadsheet *)
(* ===================================================================== *)

(** The scalars a cell of yesterday's worksheet can hold. *)
Inductive pyval : Type :=
  | VNone
  | VBool (b : bool)
  | VInt (z : Z)
  | VFloat (x : float)
  | VStr (s : str).

(** A row is a [dict] from column name to cell. *)
Abbreviation row := (gmap (list N) pyval) (only parsing).

(** [bool(v)] *)
Definition truthy (v : pyval) : bool :=
  match v with
  | VNone => false
  | VBool b => b
  | VInt z => negb (z =? 0)
  | VFloat x => float_bool x
  | VStr s => negb (is_empty s)
  end.

(** [str(v)] *)
Definition py_str (v : pyval) : str :=
  match v with
  | VNone => py "None"
  | VBool b => if b then py "True" else py "False"
  | VInt z => str_of_int z
  | VFloat x => float_repr x
  | VStr s => s
  end.

(** [int(v)] *)
Definition int_of (v : pyval) : result Z :=
  match v with
  | VNone => Raise TypeError
  | VBool b => Ok (if b then 1 else 0)
  | VInt z => Ok z
  | VFloat x => int_of_float x
  | VStr s => py_int s
  end.

(** [r.get(key, default)] *)
Definition dict_get (r : row) (key : str) (default : pyval) : pyval :=
  match r !! key with
  | Some v => v
  | None => default
  end.

(** [r[key]] *)
Definition getitem (r : row) (key : str) : result pyval :=
  match r !! key with
  | Some v => Ok v
  | None => Raise KeyError
  end.

(* ===================================================================== *)
(** * main.py: the delta summary *)
(* ===================================================================== *)

(** [{l.listing_id for l in today_listings}] *)
Definition today_ids (today_listings : list Listing.t) : gset (list N) :=
  list_to_set (map Listing.listing_id today_listings).

(** [{str(r.get("listing_id", "")) for r in yesterday_rows
      if r.get("listing_id")}] *)
Definition yesterday_ids (yesterday_rows : list row) : gset (list N) :=
  list_to_set
    (map (λ r, py_str (dict_get r (py "listing_id") (VStr [])))
       (List.filter (λ r, truthy (dict_get r (py "listing_id") VNone))
          yesterday_rows)).

(** [[l.price for l in today_listings if l.price > 0]] *)
Definition today_prices (today_listings : list Listing.t) : list Z :=
  map Listing.price (List.filter (λ l, 0 <? Listing.price l) today_listings).

(** One round of the comprehension that collects yesterday's prices:
    the filter [r.get("price") and str(r["price"]).isdigit() and
    int(r["price"]) > 0], then the element [int(r.get("price", 0))]. *)
Definition y_price (r : row) : result (option Z) :=
  if truthy (dict_get r (py "price") VNone) then
    v ← getitem r (py "price");
    if isdigit (py_str v) then
      v ← getitem r (py "price");
      n ← int_of v;
      if 0 <? n then
        n ← int_of (dict_get r (py "price") (VInt 0));
        Ok (Some n)
      else Ok None
    else Ok None
  else Ok None.

Fixpoint y_prices (yesterday_rows : list row) : result (list Z) :=
  match yesterday_rows with
  | [] => Ok []
  | r :: rows =>
    p ← y_price r;
    ps ← y_prices rows;
    Ok (match p with Some n => n :: ps | None => ps end)
  end.

(** [sum(prices)] and [len(prices)] *)
Definition sum (prices : list Z) : Z := fold_left Z.add prices 0.
Definition len {A} (l : list A) : Z := Z.of_nat (length l).

(** [min(prices)] *)
Definition py_min (prices : list Z) : result Z :=
  match prices with
  | [] => Raise ValueError
  | p :: ps => Ok (fold_left Z.min ps p)
  end.

(** [sum(prices) / len(prices) if prices else 0.0] *)
Definition average (prices : list Z) : result float :=
  if is_empty prices then Ok float_zero
  else int_truediv (sum prices) (len prices).

(** [min(prices) if prices else 0] *)
Definition minimum (prices : list Z) : result Z :=
  if is_empty prices then Ok 0 else py_min prices.

(** One round of the loop that looks for the cheapest listing. *)
Definition lowest_step (lowest : option Listing.t) (l : Listing.t)
    : option Listing.t :=
  if (0 <? Listing.price l)
     && match lowest with
        | None => true
        | Some lo => Listing.price l <? Listing.price lo
        end
  then Some l
  else lowest.

Definition find_lowest (today_listings : list Listing.t) : option Listing.t :=
  fold_left lowest_step today_listings None.

(** The one-line description of the cheapest listing. *)
Definition describe (trade_type : str) (lowest : Listing.t) : str :=
  let price_label :=
    if str_eqb trade_type B2
    then str_of_int (Listing.price lowest) ++ py "만원/"
         ++ str_of_int (Listing.monthly_rent lowest) ++ py "만원"
    else str_of_int (Listing.price lowest) ++ py "만원" in
  str_of_int (Listing.floor lowest) ++ py "층 / "
  ++ float_repr (Listing.area_m2 lowest) ++ py "㎡ / "
  ++ price_label ++ py " / " ++ Listing.agent_name lowest.

Definition lowest_str (trade_type : str) (lowest : option Listing.t) : str :=
  match lowest with
  | Some lo => describe trade_type lo
  | None => []
  end.

(** [(avg_change / y_avg * 100) if y_avg else 0.0] *)
Definition change_pct (avg_change y_avg : float) : result float :=
  if float_bool y_avg then
    ratio ← float_truediv avg_change y_avg;
    float_mul_int ratio 100
  else Ok float_zero.

(** [compute_summary(complex_id, trade_type, today_listings,
    yesterday_rows)], run when [date.today().isoformat()] is [clock]. *)
Definition compute_summary (clock : str) (complex_id trade_type : str)
    (today_listings : list Listing.t) (yesterday_rows : list row)
    : result ComplexSummary.t :=
  let today := clock in
  let today_ids := today_ids today_listings in
  let yesterday_ids := yesterday_ids yesterday_rows in
  let new_listings := Z.of_nat (size (today_ids ∖ yesterday_ids)) in
  let removed_listings := Z.of_nat (size (yesterday_ids ∖ today_ids)) in
  let today_prices := today_prices today_listings in
  avg_price ← average today_prices;
  min_price ← minimum today_prices;
  y_prices ← y_prices yesterday_rows;
  y_avg ← average y_prices;
  y_min ← minimum y_prices;
  let avg_change := float_sub avg_price y_avg in
  avg_change_pct ← change_pct avg_change y_avg;
  let min_change := min_price - y_min in
  let lowest := find_lowest today_listings in
  let lowest_str := lowest_str trade_type lowest in
  Ok {| ComplexSummary.complex_id := complex_id;
        ComplexSummary.date := today;
        ComplexSummary.trade_type := trade_type;
        ComplexSummary.total_listings := len today_listings;
        ComplexSummary.new_listings := new_listings;
        ComplexSummary.removed_listings := removed_listings;
        ComplexSummary.avg_price := avg_price;
        ComplexSummary.avg_price_change := avg_change;
        ComplexSummary.avg_price_change_pct := round1 avg_change_pct;
        ComplexSummary.min_price := min_price;
        ComplexSummary.min_price_change := min_change;
        ComplexSummary.lowest_listing := lowest_str |}.

(* ===================================================================== *)
(** * config.py: settings read from the environment *)
(* ===================================================================== *)

(** [os.environ]: the variables that are set, with their values. *)
Abbreviation environ := (gmap (list N) (list N)) (only parsing).

(** [_get(key, default)]: [os.environ.get(key, default).strip()] *)
Definition _get (env : environ) (key default : str) : str :=
  strip (match env !! key with
         | Some value => value
         | None => default
         end).

(** [_get_int(key, default)] *)
Definition _get_int (env : environ) (key : str) (default : Z) : result Z :=
  try_except_ValueError (py_int (_get env key (str_of_int default)))
    (Ok default).

(** [_get_list(key, default)]:
    [[x.strip() for x in raw.split(",") if x.strip()]] *)
Definition _get_list (env : environ) (key default : str) : list str :=
  let raw := _get env key default in
  map strip
    (List.filter (λ x, negb (is_empty (strip x))) (split_on comma raw)).

Definition COMPLEX_IDS (env : environ) : list str :=
  _get_list env (py "COMPLEX_IDS") (py "8928").

Definition TRADE_TYPES (env : environ) : list str :=
  _get_list env (py "TRADE_TYPES") (py "A1,B1,B2").

Definition MAX_LISTINGS_PER_COMPLEX (env : environ) : result Z :=
  _get_int env (py "MAX_LISTINGS_PER_COMPLEX") 200.

(** The names that [config.py] binds: its imports, its functions and its
    settings.  (The module also has the names that every module has, such
    as [__name__].) *)
Definition config_names : list str :=
  [ py "os"; py "Path"; py "load_dotenv";
    py "_get"; py "_get_int"; py "_get_float"; py "_get_list";
    py "GOOGLE_SERVICE_ACCOUNT_JSON";
    py "GOOGLE_SERVICE_ACCOUNT_JSON_CONTENT";
    py "GOOGLE_SHARE_EMAIL"; py "GOOGLE_SPREADSHEET_ID";
    py "NOTION_TOKEN"; py "NOTION_PARENT_PAGE_ID"; py "NOTION_DATABASE_ID";
    py "COMPLEX_IDS"; py "TRADE_TYPES"; py "MAX_LISTINGS_PER_COMPLEX";
    py "SLEEP_MIN"; py "SLEEP_MAX"; py "HEADLESS" ].

(** [config.name] in another module, for its exception only: reading an
    attribute that the module does not bind raises AttributeError. *)
Definition config_attribute (name : str) : result () :=
  if bool_decide (name ∈ config_names) then Ok () else Raise AttributeError.

(* ===================================================================== *)
(** * sheets_handler.py: the worksheet of a day *)
(* ===================================================================== *)

Definition _HEADERS : list str :=
  [ py "listing_id"; py "complex_id"; py "trade_type"; py "date";
    py "price"; py "monthly_rent"; py "area_m2"; py "floor";
    py "total_floors"; py "direction"; py "article_name"; py "agent_name";
    py "confirmed_type"; py "description"; py "tags" ].

(** [_listing_to_row(listing)]: the cells of one row, as they are handed
    to the worksheet. *)
Definition _listing_to_row (listing : Listing.t) : list pyval :=
  [ VStr (Listing.listing_id listing);
    VStr (Listing.complex_id listing);
    VStr (Listing.trade_type listing);
    VStr (Listing.date listing);
    VInt (Listing.price listing);
    VInt (Listing.monthly_rent listing);
    VFloat (Listing.area_m2 listing);
    VInt (Listing.floor listing);
    VInt (Listing.total_floors listing);
    VStr (Listing.direction listing);
    VStr (Listing.article_name listing);
    VStr (Listing.agent_name listing);
    VStr (Listing.confirmed_type listing);
    VStr (Listing.description listing);
    VStr (Listing.tags listing) ].

(** [v == s] for a cell [v] and a string [s]: only a string equals a
    string. *)
Definition eq_str (v : pyval) (s : str) : bool :=
  match v with
  | VStr t => str_eqb t s
  | _ => false
  end.

(* ===================================================================== *)
(** * main.py: the summaries of a run *)
(* ===================================================================== *)

(** Step 3 of [run], for one complex and trade type.  [results] is what
    the scraper returned, [rows] what [read_worksheet] returns for
    yesterday's tab and [clock] the day; neither is taken to change while
    the loops run. *)

(** [[l for l in complex_listings if l.trade_type == trade_type]] *)
Definition type_listings (complex_listings : list Listing.t)
    (trade_type : str) : list Listing.t :=
  List.filter (λ l, str_eqb (Listing.trade_type l) trade_type)
    complex_listings.

(** [[r for r in yesterday_rows
      if str(r.get("complex_id")) == complex_id
      and r.get("trade_type") == trade_type]] *)
Definition rows_of (rows : list row) (complex_id trade_type : str)
    : list row :=
  List.filter
    (λ r, str_eqb (py_str (dict_get r (py "complex_id") VNone)) complex_id
          && eq_str (dict_get r (py "trade_type") VNone) trade_type)
    rows.

(** The body of the two loops. *)
Definition summary_of (clock : str) (results : gmap (list N) (list Listing.t))
    (rows : list row) (complex_id trade_type : str)
    : result ComplexSummary.t :=
  let complex_listings := default [] (results !! complex_id) in
  compute_summary clock complex_id trade_type
    (type_listings complex_listings trade_type)
    (rows_of rows complex_id trade_type).

(** [for trade_type in trade_types: ... summaries.append(summary)] *)
Fixpoint summaries_of_complex (clock : str)
    (results : gmap (list N) (list Listing.t)) (rows : list row)
    (complex_id : str) (trade_types : list str)
    : result (list ComplexSummary.t) :=
  match trade_types with
  | [] => Ok []
  | trade_type :: rest =>
    s ← summary_of clock results rows complex_id trade_type;
    ss ← summaries_of_complex clock results rows complex_id rest;
    Ok (s :: ss)
  end.

(** [for complex_id in complex_ids: for trade_type in trade_types: ...]:
    the list [summaries] that [run] hands to [write_summaries]; an
    exception of [compute_summary] leaves the loops. *)
Fixpoint summaries (clock : str) (results : gmap (list N) (list Listing.t))
    (rows : list row) (complex_ids trade_types : list str)
    : result (list ComplexSummary.t) :=
  match complex_ids with
  | [] => Ok []
  | complex_id :: rest =>
    ss ← summaries_of_complex clock results rows complex_id trade_types;
    more ← summaries clock results rows rest trade_types;
    Ok (ss ++ more)
  end.

(* ===================================================================== *)
(** * Python numbers: [float(s)] for a string *)
(* ===================================================================== *)

(** CPython maps the string as for [int], checks that every underscore
    stands between two digits and drops them, strips blanks at both ends,
    and reads a sign, digits with at most one point and at least one
    digit, and an exponent; or a sign and [inf], [infinity] or [nan] in
    any case.  The decimal is rounded once, to the nearest float; a value
    too large gives an infinity.  Strings are taken to be shorter than
    [10^9] characters. *)

Definition point : char := 46%N.

Fixpoint remove_underscores (s : str) (prev_digit prev_underscore : bool)
    : option str :=
  match s with
  | [] => if prev_underscore then None else Some []
  | c :: t =>
    if (c =? underscore)%N then
      if prev_digit then remove_underscores t false true else None
    else
      let digit := bool_decide (is_Some (decimal_value c)) in
      if prev_underscore && negb digit then None
      else cons c <$> remove_underscores t digit false
  end.

(** The digits at the head of [s], as their number and value, and the
    rest. *)
Fixpoint read_digits (s : str) (ndigits : nat) (acc : N) : nat * N * str :=
  match s with
  | c :: t =>
    match decimal_value c with
    | Some d => read_digits t (S ndigits) (acc * 10 + d)%N
    | None => (ndigits, acc, s)
    end
  | [] => (ndigits, acc, s)
  end.

Definition is_e (c : char) : bool := ((c =? 101) || (c =? 69))%N.

(** The exponent at the head of [s], if there is one with a digit. *)
Definition read_exponent (s : str) : Z * str :=
  match s with
  | c :: t =>
    if is_e c then
      let '(negative, body) := read_sign t in
      match read_digits body 0 0 with
      | (S _, n, rest) => (if negative then - Z.of_N n else Z.of_N n, rest)
      | _ => (0, s)
      end
    else (0, s)
  | [] => (0, s)
  end.

(** [Py_TOLOWER] *)
Definition ascii_lower (c : char) : char :=
  if ((65 <=? c) && (c <=? 90))%N then (c + 32)%N else c.

(** Does [s] start with the lower-case word [word], in any case?  Gives
    the rest. *)
Fixpoint match_word (word s : str) : option str :=
  match word, s with
  | [], _ => Some s
  | w :: word', c :: t =>
    if (ascii_lower c =? w)%N then match_word word' t else None
  | _ :: _, [] => None
  end.

(** [_Py_parse_inf_or_nan] *)
Definition parse_inf_or_nan (s : str) : option (float * str) :=
  let '(negative, body) := read_sign s in
  match match_word (py "inf") body with
  | Some rest =>
    Some (S754_infinity negative,
          match match_word (py "inity") rest with
          | Some rest' => rest'
          | None => rest
          end)
  | None =>
    match match_word (py "nan") body with
    | Some rest => Some (S754_nan, rest)
    | None => None
    end
  end.

(** [_Py_dg_strtod]: the decimal number at the head of [s] and the rest,
    or nothing when there is no digit. *)
Definition strtod (s : str) : option (float * str) :=
  let '(negative, body) := read_sign s in
  let '(nint, ipart, rest) := read_digits body 0 0 in
  let '(nfrac, digits, rest) :=
    match rest with
    | c :: t =>
      if (c =? point)%N then
        let '(n, digits, rest') := read_digits t nint ipart in
        ((n - nint)%nat, digits, rest')
      else (O, ipart, rest)
    | [] => (O, ipart, rest)
    end in
  if (nint + nfrac =? 0)%nat then None
  else
    let '(e, rest) := read_exponent rest in
    let magnitude :=
      if (digits =? 0)%N then float_zero
      else float_of_decimal (Z.of_N digits) (e - Z.of_nat nfrac) in
    Some (if negative then SFopp magnitude else magnitude, rest).

Definition py_float (s : str) : result float :=
  match (if contains underscore s then remove_underscores s false false
         else Some s) with
  | None => Raise ValueError
  | Some s =>
    let s := rstrip_with int_isspace (lstrip_with int_isspace s) in
    match (match strtod s with
           | Some r => Some r
           | None => parse_inf_or_nan s
           end) with
    | Some (x, []) => Ok x
    | _ => Raise ValueError
    end
  end.

(* ===================================================================== *)
(** * scraper.py: from an article to a listing *)
(* ===================================================================== *)

(** The value of [tagList]: a list, or anything else. *)
Inductive tags :=
  | TagList (l : list pyval)
  | TagValue (v : pyval).

(** An article of the API, by the keys that [parse_article] reads; a key
    that the dict does not have is [None] here.  The fields that go to
    the text fields of the listing as they are hold texts. *)
Module Article.
Record t := mk {
  articleNo : option pyval;
  dealOrWarrantPrc : option pyval;
  rentPrc : option pyval;
  area2 : option pyval;
  area1 : option pyval;
  floorInfo : option pyval;
  tagList : option tags;
  direction : option str;
  articleName : option str;
  realtorName : option str;
  articleConfirmYmd : option str;
  articleFeatureDesc : option str;
}.
End Article.

(** U+33A1, the square metre sign. *)
Definition square_metre : char := 13217%N.

(** [a or b] *)
Definition py_or (a b : pyval) : pyval := if truthy a then a else b.

(** [sep.join(items)] *)
Fixpoint join (sep : char) (items : list pyval) : result str :=
  match items with
  | [] => Ok []
  | VStr s :: rest =>
    match rest with
    | [] => Ok s
    | _ => t ← join sep rest; Ok (s ++ sep :: t)
    end
  | _ => Raise TypeError
  end.

(** The body of the [try] of [parse_article]. *)
Definition parse_article_body (article : Article.t)
    (complex_id today trade_type : str) : result (option Listing.t) :=
  let listing_id := py_str (default (VStr []) (Article.articleNo article)) in
  if is_empty listing_id then Ok None
  else
    let price_raw :=
      py_or (default (VStr []) (Article.dealOrWarrantPrc article))
            (default (VStr []) (Article.rentPrc article)) in
    '(price, monthly) ← _parse_price_field (py_str price_raw) trade_type;
    let area_str :=
      strip (remove_char square_metre
               (py_str (default (default (VStr (py "0"))
                                   (Article.area1 article))
                          (Article.area2 article)))) in
    area_m2 ← try_except_ValueError (py_float area_str) (Ok float_zero);
    let floor_str :=
      py_str (default (VStr (py "0/0")) (Article.floorInfo article)) in
    let floor_parts := split_on slash floor_str in
    floor ← try_except_ValueError
              (part ← index floor_parts 0; py_int (strip part)) (Ok 0);
    total_floors ← try_except_ValueError
                     (if 1 <? len floor_parts
                      then part ← index floor_parts 1; py_int (strip part)
                      else Ok 0)
                     (Ok 0);
    tags_str ← match default (TagList []) (Article.tagList article) with
               | TagList l => join comma l
               | TagValue v => Ok (py_str v)
               end;
    Ok (Some {| Listing.listing_id := listing_id;
                Listing.complex_id := complex_id;
                Listing.trade_type := trade_type;
                Listing.date := today;
                Listing.price := price;
                Listing.monthly_rent := monthly;
                Listing.area_m2 := area_m2;
                Listing.floor := floor;
                Listing.total_floors := total_floors;
                Listing.direction := default [] (Article.direction article);
                Listing.article_name :=
                  default [] (Article.articleName article);
                Listing.agent_name := default [] (Article.realtorName article);
                Listing.confirmed_type :=
                  default [] (Article.articleConfirmYmd article);
                Listing.description :=
                  default [] (Article.articleFeatureDesc article);
                Listing.tags := tags_str |}).

(** [parse_article(article, complex_id, today, trade_type)]: every
    exception of the body gives [None]. *)
Definition parse_article (article : Article.t)
    (complex_id today trade_type : str) : option Listing.t :=
  match parse_article_body article complex_id today trade_type with
  | Ok listing => listing
  | Raise _ => None
  end.

(* ===================================================================== *)
(** * scraper.py: the pages of the API *)
(* ===================================================================== *)

(** The dict that [page.evaluate] hands back, by the keys that the scraper
    reads; a key that the dict does not have is [None] here, and [{}] is
    [empty].  The value of [articleList] is a list of articles. *)
Module Page.
Record t := mk {
  _status : option pyval;
  articleList : option (list Article.t);
  isMoreData : option pyval;
}.
Definition empty : t := mk None None None.
End Page.

(** The answer of the browser to one call: an exception, or a value. *)
Inductive answer :=
  | Throws
  | Answers (data : Page.t).

(** What the scraper does to the world, in order: [page.goto(url)], the
    [page.evaluate] that fetches [url], [asyncio.sleep(seconds)], and
    [async_random_sleep(lo, hi)], which is [async_random_sleep()] when the
    bounds are left to the settings. *)
Inductive event :=
  | Goto (url : str)
  | Evaluate (url : str)
  | Sleep (seconds : float)
  | RandomSleep (bounds : option (float * float)).

(** The browser answers its [n]-th call with [browser n].  A computation
    goes from the calls made and the events so far to a result and the
    calls and the events after it. *)
Record world := World {
  calls : nat;
  trace : list event;
}.

Definition io (A : Type) : Type :=
  (nat → answer) → world → result A * world.

#[global] Instance io_ret : MRet io := λ A a _ w, (Ok a, w).

#[global] Instance io_bind : MBind io := λ A B k c browser w,
  match c browser w with
  | (Ok a, w') => k a browser w'
  | (Raise e, w') => (Raise e, w')
  end.

Definition lift {A} (c : result A) : io A := λ _ w, (c, w).

Definition emit (e : event) : io unit := λ _ w,
  (Ok (), World (calls w) (trace w ++ [e])).

Definition call (e : event) : io answer := λ browser w,
  (Ok (browser (calls w)), World (S (calls w)) (trace w ++ [e])).

(** ** [fetch_articles_page] *)

Definition _MAX_RETRIES : Z := 3.

(** 2.0, 4.0 and 5.0 *)
Definition two : float := S754_finite false 4503599627370496 (-51).
Definition four : float := S754_finite false 4503599627370496 (-50).
Definition five : float := S754_finite false 5629499534213120 (-50).

(** [full_url] *)
Definition full_url (complex_id trade_type : str) (page_num : Z) : str :=
  py "https://new.land.naver.com/api/articles/complex/" ++ complex_id
  ++ py "?realEstateType=APT&tradeType=" ++ trade_type
  ++ py "&page=" ++ str_of_int page_num
  ++ py "&pageSize=20&complexNo=" ++ complex_id.

(** [v == n] and [v >= n] for an integer [n] that a float holds exactly *)
Definition eq_int (v : pyval) (n : Z) : bool :=
  match v with
  | VInt z => z =? n
  | VBool b => (if b then 1 else 0) =? n
  | VFloat x => float_eqb x (binary_normalize prec emax n 0 false)
  | _ => false
  end.

Definition ge_int (v : pyval) (n : Z) : result bool :=
  match v with
  | VInt z => Ok (n <=? z)
  | VBool b => Ok (n <=? (if b then 1 else 0))
  | VFloat x => Ok (float_leb (binary_normalize prec emax n 0 false) x)
  | _ => Raise TypeError
  end.

(** The rounds of [for attempt in range(1, _MAX_RETRIES + 1)] from
    [attempt] on, and the [return {}] after the loop. *)
Fixpoint attempts (url : str) (attempt : Z) (rounds : nat) : io Page.t :=
  match rounds with
  | O => mret Page.empty
  | S rounds' =>
    result ← call (Evaluate url);
    match result with
    | Throws =>
      if attempt =? _MAX_RETRIES then mret Page.empty
      else
        lo ← lift (float_mul_int two attempt);
        hi ← lift (float_mul_int four attempt);
        emit (RandomSleep (Some (lo, hi)));;
        attempts url (attempt + 1) rounds'
    | Answers result =>
      let status := default (VInt 200) (Page._status result) in
      if eq_int status 429 then
        wait ← lift (float_mul_int five attempt);
        emit (Sleep wait);;
        attempts url (attempt + 1) rounds'
      else
        failed ← lift (if truthy status then ge_int status 400 else Ok false);
        if failed : bool then mret Page.empty else mret result
    end
  end.

Definition fetch_articles_page (complex_id trade_type : str) (page_num : Z)
    : io Page.t :=
  attempts (full_url complex_id trade_type page_num) 1
    (Z.to_nat _MAX_RETRIES).

(** ** [scrape_complex] *)

(** The rounds of the [while] loop; [None] when [fuel] rounds do not end
    it. *)
Fixpoint scrape_pages (fuel : nat) (complex_id trade_type today : str)
    (max_listings : Z) (listings : list Listing.t) (page_num : Z)
    : io (option (list Listing.t)) :=
  match fuel with
  | O => mret None
  | S fuel' =>
    if len listings <? max_listings then
      data ← fetch_articles_page complex_id trade_type page_num;
      let articles := default [] (Page.articleList data) in
      if is_empty articles then mret (Some listings)
      else
        let listings :=
          listings
          ++ omap (λ article,
                     parse_article article complex_id today trade_type)
               articles in
        let is_more := default (VBool false) (Page.isMoreData data) in
        if truthy is_more then
          emit (RandomSleep None);;
          scrape_pages fuel' complex_id trade_type today max_listings
            listings (page_num + 1)
        else mret (Some listings)
    else mret (Some listings)
  end.

Definition scrape_complex (fuel : nat) (max_listings : Z)
    (complex_id trade_type today : str) : io (option (list Listing.t)) :=
  scrape_pages fuel complex_id trade_type today max_listings [] 1.

(** ** [run_scraper] *)

(** [warm_up_session] *)
Definition warm_up_session (complex_id : str) : io unit :=
  r ← call (Goto (py "https://new.land.naver.com/complexes/" ++ complex_id));
  match r with
  | Throws => mret ()
  | Answers _ => emit (RandomSleep (Some (two, four)))
  end.

(** [try: c except Exception: h] *)
Definition try_except {A} (c : io A) (h : io A) : io A := λ browser w,
  match c browser w with
  | (Raise _, w') => h browser w'
  | r => r
  end.

(** [for trade_type in types: ...] for one complex; [None] when a
    [scrape_complex] runs out of fuel. *)
Fixpoint scrape_types (fuel : nat) (max_listings : Z) (today : str)
    (complex_id : str) (types : list str)
    (results : gmap (list N) (list Listing.t))
    : io (option (gmap (list N) (list Listing.t))) :=
  match types with
  | [] => mret (Some results)
  | trade_type :: rest =>
    r ← try_except
          (listings ← scrape_complex fuel max_listings complex_id
                        trade_type today;
           mret (Some listings))
          (mret None);
    emit (RandomSleep None);;
    match r with
    | Some (Some listings) =>
      scrape_types fuel max_listings today complex_id rest
        (alter (λ old, old ++ listings) complex_id results)
    | Some None => mret None
    | None => scrape_types fuel max_listings today complex_id rest results
    end
  end.

(** [for complex_id in ids: ...] *)
Fixpoint scrape_ids (fuel : nat) (max_listings : Z) (today : str)
    (ids types : list str) (results : gmap (list N) (list Listing.t))
    : io (option (gmap (list N) (list Listing.t))) :=
  match ids with
  | [] => mret (Some results)
  | complex_id :: rest =>
    warm_up_session complex_id;;
    r ← scrape_types fuel max_listings today complex_id types results;
    match r with
    | Some results' => scrape_ids fuel max_listings today rest types results'
    | None => mret None
    end
  end.

(** [a or b] for two lists *)
Definition or_list {A} (a : option (list A)) (b : list A) : list A :=
  match a with
  | Some (x :: l) => x :: l
  | _ => b
  end.

(** [build_browser_context(browser)].  The user agent and the viewport
    are drawn at random; the proxy is set when [config.PROXY_URL] is true,
    so the attribute is read before [browser.new_context] is called, which
    is taken to return. *)
Definition build_browser_context : io () :=
  lift (config_attribute (py "PROXY_URL")).

(** The dict [results] and the two loops of [run_scraper]. *)
Definition scrape_all (fuel : nat) (max_listings : Z) (today : str)
    (ids types : list str)
    : io (option (gmap (list N) (list Listing.t))) :=
  let results : gmap (list N) (list Listing.t) :=
    list_to_map (map (λ cid, (cid, [])) ids) in
  scrape_ids fuel max_listings today ids types results.

(** [run_scraper(complex_ids, trade_types)].  [today] is
    [date.today().isoformat()], [config_ids], [config_types] and
    [max_listings] the settings [COMPLEX_IDS], [TRADE_TYPES] and
    [MAX_LISTINGS_PER_COMPLEX].  Playwright is taken to start the browser
    ([launch], with [config.HEADLESS]) and to open the page; the context
    is built before the [try], so nothing is closed when that fails. *)
Definition run_scraper (fuel : nat) (config_ids config_types : list str)
    (max_listings : Z) (today : str)
    (complex_ids trade_types : option (list str))
    : io (option (gmap (list N) (list Listing.t))) :=
  let ids := or_list complex_ids config_ids in
  let types := or_list trade_types config_types in
  lift (config_attribute (py "HEADLESS"));;
  build_browser_context;;
  scrape_all fuel max_listings today ids types.

(* ===================================================================== *)
(** * main.py: a run *)
(* ===================================================================== *)

(** The arguments of the command line. *)
Module Args.
Record t := mk {
  complex_ids : option (list str);
  trade_types : option (list str);
  scrape_only : bool;
  sheets_only : bool;
  notion_only : bool;
}.
End Args.

(** Where [run] gets to: the [return] of [--scrape-only], or the list
    [summaries] that is handed to [write_summaries]. *)
Inductive reached :=
  | ScrapeOnly
  | Summaries (summaries : list ComplexSummary.t).

(** [run(args)] up to the call of [write_summaries]; [None] when a
    [scrape_complex] runs out of fuel.  The calls of [sheets_handler] are
    taken to return: [rows] is what [read_worksheet] gives for yesterday's
    tab. *)
Definition run (fuel : nat) (config_ids config_types : list str)
    (max_listings : Z) (today clock : str) (rows : list row)
    (args : Args.t) : io (option reached) :=
  let complex_ids := or_list (Args.complex_ids args) config_ids in
  let trade_types := or_list (Args.trade_types args) config_types in
  r ← (if negb (Args.sheets_only args) && negb (Args.notion_only args)
       then run_scraper fuel config_ids config_types max_listings today
              (Some complex_ids) (Some trade_types)
       else mret (Some ∅));
  match r with
  | None => mret None
  | Some results =>
    if Args.scrape_only args then mret (Some ScrapeOnly)
    else
      ss ← lift (summaries clock results rows complex_ids trade_types);
      mret (Some (Summaries ss))
  end.

(* ===================================================================== *)
(** * Vocabulary of the properties *)
(* ===================================================================== *)

(** The text of a price once blanks and thousands separators are gone. *)
Definition clean (s : str) : str :=
  remove_char space (remove_char comma (strip s)).

(** The value [int(s)] has when [s] is an integer literal, else zero. *)
Definition int_or_zero (s : str) : Z :=
  match py_int s with
  | Ok n => n
  | Raise _ => 0
  end.

(** 100.0 *)
Definition hundred : float := S754_finite false 7036874417766400 (-46).

(** The least element of a list of prices, 0 for the empty list. *)
Definition least (prices : list Z) : Z :=
  match prices with
  | [] => 0
  | p :: ps => fold_left Z.min ps p
  end.

(** The percentage before rounding. *)
Definition pct_of (avg_change y_avg : float) : float :=
  if float_bool y_avg
  then float_mul (SFdiv prec emax avg_change y_avg) hundred
  else float_zero.

(** The summary with another date. *)
Definition with_date (d : str) (s : ComplexSummary.t) : ComplexSummary.t :=
  {| ComplexSummary.complex_id := ComplexSummary.complex_id s;
     ComplexSummary.date := d;
     ComplexSummary.trade_type := ComplexSummary.trade_type s;
     ComplexSummary.total_listings := ComplexSummary.total_listings s;
     ComplexSummary.new_listings := ComplexSummary.new_listings s;
     ComplexSummary.removed_listings := ComplexSummary.removed_listings s;
     ComplexSummary.avg_price := ComplexSummary.avg_price s;
     ComplexSummary.avg_price_change := ComplexSummary.avg_price_change s;
     ComplexSummary.avg_price_change_pct :=
       ComplexSummary.avg_price_change_pct s;
     ComplexSummary.min_price := ComplexSummary.min_price s;
     ComplexSummary.min_price_change := ComplexSummary.min_price_change s;
     ComplexSummary.lowest_listing := ComplexSummary.lowest_listing s |}.

(** A float that is zero or above, infinity included; not a NaN. *)
Definition nonneg_float (x : float) : Prop :=
  match x with
  | S754_zero _ | S754_finite false _ _ | S754_infinity false => True
  | _ => False
  end.

(** The mantissa of [mrs] is below [2^(K - j)], or zero when [K < j]. *)
Definition shr_bound (K j : Z) (mrs : shr_record) : Prop :=
  0 ≤ shr_m mrs < 2 ^ Z.max (K - j) 0.

(** [math.isinf(x)] *)
Definition is_infinity (x : float) : bool :=
  match x with
  | S754_infinity _ => true
  | _ => false
  end.

(** [r.get("listing_id")] is true *)
Definition has_id (r : row) : bool :=
  truthy (dict_get r (py "listing_id") VNone).

(** [str(r.get("listing_id", ""))] *)
Definition id_of (r : row) : str :=
  py_str (dict_get r (py "listing_id") (VStr [])).

(** A listing to run the examples on. *)
Definition example_listing (id : str) (price : Z) : Listing.t :=
  {| Listing.listing_id := id;
     Listing.complex_id := py "8928";
     Listing.trade_type := py "A1";
     Listing.date := py "2024-05-02";
     Listing.price := price;
     Listing.monthly_rent := 0;
     Listing.area_m2 := S754_finite false 5974306380683674 (-46);
     Listing.floor := 5;
     Listing.total_floors := 15;
     Listing.direction := py "남향";
     Listing.article_name := py "래미안";
     Listing.agent_name := py "하나부동산";
     Listing.confirmed_type := py "중개사확인";
     Listing.description := [];
     Listing.tags := [] |}.

(** A row with the two columns the summary reads. *)
Definition example_row (id : pyval) (price : pyval) : row :=
  {[ py "listing_id" := id; py "price" := price ]}.

(** A day to run the examples on: two listings today; yesterday one row
    for a listing that stayed, one for a listing that went, and one row
    without an id. *)
Definition example_today : list Listing.t :=
  [example_listing (py "1") 100; example_listing (py "2") 200].

(** Yesterday's worksheet; integer cells are what a numeric cell reads
    back as. *)
Definition example_yesterday : list row :=
  [example_row (VInt 2) (VInt 150);
   example_row (VStr (py "3")) (VStr (py "300"));
   example_row (VStr []) (VStr [])].

(** Position [i] of today's list holds the first of the cheapest listings
    with a price above zero. *)
Definition is_lowest (today_listings : list Listing.t) (i : nat)
    (l : Listing.t) : Prop :=
  today_listings !! i = Some l
  ∧ 0 < Listing.price l
  ∧ ∀ j l', today_listings !! j = Some l' → 0 < Listing.price l' →
      Listing.price l ≤ Listing.price l'
      ∧ ((j < i)%nat → Listing.price l < Listing.price l').

(** [l.price != 0] *)
Definition nonzero (l : Listing.t) : bool := negb (Listing.price l =? 0).

(** [l.price > 0], the filter of [today_prices] *)
Definition valid (l : Listing.t) : bool := 0 <? Listing.price l.

(** The cells of a worksheet row under the names of the header row. *)
Definition keyed (headers : list str) (cells : list pyval) : row :=
  list_to_map (zip headers cells).

(** The row [r] holds what the summary reads of the listing [l]: its id,
    as a text or as the number the text reads back as, its complex, its
    trade type and its price. *)
Definition records (r : row) (l : Listing.t) : Prop :=
  (∃ v, r !! py "listing_id" = Some v ∧ truthy v = true
        ∧ py_str v = Listing.listing_id l)
  ∧ (∃ v, r !! py "complex_id" = Some v
          ∧ py_str v = Listing.complex_id l)
  ∧ r !! py "trade_type" = Some (VStr (Listing.trade_type l))
  ∧ r !! py "price" = Some (VInt (Listing.price l)).

(** The listings of one complex and trade type. *)
Definition of_pair (complex_id trade_type : str) (l : Listing.t) : bool :=
  str_eqb (Listing.complex_id l) complex_id
  && str_eqb (Listing.trade_type l) trade_type.

(** The complex and the trade type of a summary. *)
Definition pair_of (s : ComplexSummary.t) : str * str :=
  (ComplexSummary.complex_id s, ComplexSummary.trade_type s).

(** Among the listings scraped for a complex, those whose trade type is
    one of [trade_types]. *)
Definition configured (trade_types : list str)
    (complex_listings : list Listing.t) : list Listing.t :=
  List.filter (λ l, bool_decide (Listing.trade_type l ∈ trade_types))
    complex_listings.

(** The row of a listing as the worksheet holds it under the header row. *)
Definition written (l : Listing.t) : row :=
  keyed _HEADERS (_listing_to_row l).

(** The text of the id, of the price, of the area and of the floors of an
    article, as [parse_article] takes them. *)
Definition id_text (article : Article.t) : str :=
  py_str (default (VStr []) (Article.articleNo article)).

Definition price_text (article : Article.t) : str :=
  py_str (py_or (default (VStr []) (Article.dealOrWarrantPrc article))
                (default (VStr []) (Article.rentPrc article))).

Definition area_text (article : Article.t) : str :=
  strip (remove_char square_metre
           (py_str (default (default (VStr (py "0")) (Article.area1 article))
                      (Article.area2 article)))).

Definition floor_parts (article : Article.t) : list str :=
  split_on slash
    (py_str (default (VStr (py "0/0")) (Article.floorInfo article))).

(** The value [float(s)] has when [s] reads as a float, else zero. *)
Definition float_or_zero (s : str) : float :=
  match py_float s with
  | Ok x => x
  | Raise _ => float_zero
  end.

Definition is_text (v : pyval) : bool :=
  match v with
  | VStr _ => true
  | _ => false
  end.

(** The tag list has an element that is not a text. *)
Definition bad_tags (article : Article.t) : Prop :=
  ∃ l, Article.tagList article = Some (TagList l)
       ∧ ∃ v, v ∈ l ∧ is_text v = false.

(** An article to run the examples on. *)
Definition example_article (id : pyval) (price : str) : Article.t :=
  {| Article.articleNo := Some id;
     Article.dealOrWarrantPrc := Some (VStr price);
     Article.rentPrc := None;
     Article.area2 := Some (VStr (py "84.97㎡"));
     Article.area1 := Some (VInt 112);
     Article.floorInfo := Some (VStr (py "저/15"));
     Article.tagList :=
       Some (TagList [VStr (py "역세권"); VStr (py "25년이내")]);
     Article.direction := Some (py "남향");
     Article.articleName := Some (py "래미안");
     Article.realtorName := Some (py "하나부동산");
     Article.articleConfirmYmd := Some (py "20240502");
     Article.articleFeatureDesc := None |}.

(** [result.get("_status", 200)] *)
Definition status_of (data : Page.t) : pyval :=
  default (VInt 200) (Page._status data).

(** The answers after which [fetch_articles_page] goes on to the next
    attempt: an exception and the status 429. *)
Definition retried (a : answer) : bool :=
  match a with
  | Throws => true
  | Answers data => eq_int (status_of data) 429
  end.

(** What [fetch_articles_page] makes of an answer with another status. *)
Definition settle (data : Page.t) : result Page.t :=
  failed ← (if truthy (status_of data) then ge_int (status_of data) 400
            else Ok false);
  Ok (if failed : bool then Page.empty else data).

(** The float of a whole number of seconds. *)
Definition seconds (n : Z) : float := binary_normalize prec emax n 0 false.

(** A listing as [scrape_complex] makes them for a complex, a trade type
    and a day. *)
Definition scraped_for (complex_id trade_type today : str) (l : Listing.t)
    : Prop :=
  Listing.complex_id l = complex_id ∧ Listing.trade_type l = trade_type
  ∧ Listing.date l = today ∧ Listing.listing_id l ≠ [].

(** The listings of the articles of a page. *)
Definition listings_of (data : Page.t) (complex_id trade_type today : str)
    : list Listing.t :=
  omap (λ article, parse_article article complex_id today trade_type)
    (default [] (Page.articleList data)).

(** A browser that answers every call with the page [data]. *)
Definition always (data : Page.t) : nat → answer := λ _, Answers data.

(** A listing as [run_scraper] files them under a complex. *)
Definition scraped (complex_id : str) (types : list str) (today : str)
    (l : Listing.t) : Prop :=
  Listing.complex_id l = complex_id ∧ Listing.trade_type l ∈ types
  ∧ Listing.date l = today ∧ Listing.listing_id l ≠ [].

Definition well_filed (types : list str) (today : str)
    (results : gmap (list N) (list Listing.t)) : Prop :=
  ∀ complex_id listings,
    results !! complex_id = Some listings →
    Forall (scraped complex_id types today) listings.

(** Every page of the browser that has articles gives a listing, whatever
    the complex and the trade type. *)
Definition productive (browser : nat → answer) (today : str) : Prop :=
  ∀ n data complex_id trade_type,
    browser n = Answers data →
    default [] (Page.articleList data) ≠ [] →
    listings_of data complex_id trade_type today ≠ [].

(** A page of one article, which is the last one or not. *)
Definition example_page (article : Article.t) (is_more : bool) : Page.t :=
  Page.mk (Some (VInt 200)) (Some [article]) (Some (VBool is_more)).

(** [s] with another text for the lowest listing. *)
Definition with_lowest (text : str) (s : ComplexSummary.t)
    : ComplexSummary.t :=
  {| ComplexSummary.complex_id := ComplexSummary.complex_id s;
     ComplexSummary.date := ComplexSummary.date s;
     ComplexSummary.trade_type := ComplexSummary.trade_type s;
     ComplexSummary.total_listings := ComplexSummary.total_listings s;
     ComplexSummary.new_listings := ComplexSummary.new_listings s;
     ComplexSummary.removed_listings := ComplexSummary.removed_listings s;
     ComplexSummary.avg_price := ComplexSummary.avg_price s;
     ComplexSummary.avg_price_change := ComplexSummary.avg_price_change s;
     ComplexSummary.avg_price_change_pct :=
       ComplexSummary.avg_price_change_pct s;
     ComplexSummary.min_price := ComplexSummary.min_price s;
     ComplexSummary.min_price_change := ComplexSummary.min_price_change s;
     ComplexSummary.lowest_listing := text |}.

(** Two results that are the same but for the order of the prices. *)
Definition same_prices (a b : result (list Z)) : Prop :=
  match a, b with
  | Ok l, Ok k => l ≡ₚ k
  | Raise e, Raise e' => e = e'
  | _, _ => False
  end.

(** A summary of no listing at all, with [removed] listings gone. *)
Definition blank (removed : Z) (s : ComplexSummary.t) : Prop :=
  ComplexSummary.total_listings s = 0
  ∧ ComplexSummary.new_listings s = 0
  ∧ ComplexSummary.removed_listings s = removed
  ∧ ComplexSummary.avg_price s = float_zero
  ∧ ComplexSummary.min_price s = 0
  ∧ ComplexSummary.lowest_listing s = [].

(* ===================================================================== *)
(** * Facts about the string methods *)
(* ===================================================================== *)

Lemma bind_Ok {A B} (c : result A) (k : A → result B) (b : B) :
  c ≫= k = Ok b ↔ ∃ a, c = Ok a ∧ k a = Ok b.
Proof.
  destruct c as [a|e]; simpl.
  - split; [eauto | intros (a' & Ha & Hk); congruence].
  - split; [discriminate | intros (a' & Ha & _); discriminate].
Qed.

Lemma contains_elem_of (c : char) (s : str) : contains c s = true ↔ c ∈ s.
Proof.
  unfold contains. rewrite existsb_exists, list_elem_of_In. split.
  - intros (x & Hx & Heq). apply N.eqb_eq in Heq. by subst.
  - intros Hc. exists c. split; [done | apply N.eqb_refl].
Qed.

Lemma contains_false (c : char) (s : str) : contains c s = false ↔ c ∉ s.
Proof.
  rewrite <- contains_elem_of. destruct (contains c s); naive_solver.
Qed.

Section Strip.
Variable p : char → bool.

Lemma lstrip_with_suffix (s : str) :
  ∃ w, s = w ++ lstrip_with p s ∧ Forall (λ c, p c = true) w.
Proof.
  induction s as [|c t (w & Hw & Hall)]; simpl.
  - by exists [].
  - destruct (p c) eqn:Hc.
    + exists (c :: w). split; [simpl; congruence | by constructor].
    + by exists [].
Qed.

Lemma lstrip_with_head (s : str) c t :
  lstrip_with p s = c :: t → p c = false.
Proof.
  induction s as [|c' t' IH]; simpl; [done|].
  destruct (p c') eqn:Hc; [done|]. by intros [= <- _].
Qed.

Lemma lstrip_with_id (s : str) :
  (∀ c t, s = c :: t → p c = false) → lstrip_with p s = s.
Proof.
  destruct s as [|c t]; [done|]. intros H. simpl.
  by rewrite (H c t eq_refl).
Qed.

Lemma lstrip_with_idemp (s : str) :
  lstrip_with p (lstrip_with p s) = lstrip_with p s.
Proof.
  apply lstrip_with_id. intros c t. apply lstrip_with_head.
Qed.

Lemma rstrip_with_prefix (s : str) :
  ∃ w, s = rstrip_with p s ++ w ∧ Forall (λ c, p c = true) w.
Proof.
  unfold rstrip_with.
  destruct (lstrip_with_suffix (rev s)) as (w & Hw & Hall).
  exists (rev w). split.
  - rewrite <- rev_app_distr, <- Hw. by rewrite rev_involutive.
  - by apply Forall_rev.
Qed.

Lemma rstrip_with_idemp (s : str) :
  rstrip_with p (rstrip_with p s) = rstrip_with p s.
Proof.
  unfold rstrip_with. by rewrite rev_involutive, lstrip_with_idemp.
Qed.

Lemma strip_with_elem_of (s : str) c :
  p c = false → c ∈ rstrip_with p (lstrip_with p s) ↔ c ∈ s.
Proof.
  intros Hc.
  destruct (lstrip_with_suffix s) as (w1 & H1 & Hall1).
  destruct (rstrip_with_prefix (lstrip_with p s)) as (w2 & H2 & Hall2).
  assert (Hw : ∀ w, Forall (λ c, p c = true) w → c ∉ w).
  { intros w Hall Hin. rewrite Forall_forall in Hall.
    specialize (Hall c Hin). congruence. }
  split.
  - intros Hin. rewrite H1, H2. set_solver.
  - intros Hin. rewrite H1, H2 in Hin.
    apply elem_of_app in Hin as [Hin|Hin]; [by apply Hw in Hin|].
    apply elem_of_app in Hin as [Hin|Hin]; [done | by apply Hw in Hin].
Qed.

Lemma strip_with_idemp (s : str) :
  let t := rstrip_with p (lstrip_with p s) in
  rstrip_with p (lstrip_with p t) = t.
Proof.
  intros t.
  assert (Hl : lstrip_with p t = t).
  { apply lstrip_with_id. intros c u Ht.
    destruct (rstrip_with_prefix (lstrip_with p s)) as (w & Hw & _).
    fold t in Hw. rewrite Ht in Hw. simpl in Hw.
    by apply lstrip_with_head in Hw. }
  rewrite Hl. apply rstrip_with_idemp.
Qed.
End Strip.

Lemma strip_idemp (s : str) : strip (strip s) = strip s.
Proof. apply strip_with_idemp. Qed.

Lemma strip_elem_of (s : str) c : isspace c = false → c ∈ strip s ↔ c ∈ s.
Proof. apply strip_with_elem_of. Qed.

Lemma strip_subseteq (s : str) c : c ∈ strip s → c ∈ s.
Proof.
  unfold strip. intros Hin.
  destruct (lstrip_with_suffix isspace s) as (w1 & H1 & _).
  destruct (rstrip_with_prefix isspace (lstrip_with isspace s)) as (w2 & H2 & _).
  rewrite H1, H2. set_solver.
Qed.

Lemma remove_char_elem_of (c d : char) (s : str) :
  d ∈ remove_char c s ↔ d ∈ s ∧ d ≠ c.
Proof.
  unfold remove_char. rewrite !list_elem_of_In, filter_In.
  rewrite negb_true_iff, N.eqb_neq. done.
Qed.

Lemma or_empty_id (raw : str) : or_empty raw = raw.
Proof. by destruct raw. Qed.

Lemma clean_subseteq (s : str) c : c ∈ clean s → c ∈ s.
Proof.
  unfold clean. rewrite !remove_char_elem_of.
  intros [[Hin _] _]. by apply strip_subseteq.
Qed.

Lemma split_on_spec (sep : char) (s : str) :
  sep ∈ s →
  ∃ first second rest, split_on sep s = first :: second :: rest
                       ∧ (sep ∉ first) ∧ (sep ∉ second).
Proof.
  assert (Hne : ∀ u : str, ∃ seg segs, split_on sep u = seg :: segs
                          ∧ (sep ∉ seg) ∧ (sep ∉ u → segs = [])).
  { induction u as [|c t (seg & segs & IH & Hseg & Hnil)]; simpl.
    - exists [], []. split_and!; [done | apply not_elem_of_nil | done].
    - destruct (c =? sep)%N eqn:Hc.
      + apply N.eqb_eq in Hc as ->. exists [], (split_on sep t).
        split_and!; [done | apply not_elem_of_nil | ].
        intros []. apply elem_of_cons. by left.
      + apply N.eqb_neq in Hc. rewrite IH. exists (c :: seg), segs.
        split_and!; [done | | ].
        * rewrite not_elem_of_cons. split; [congruence | done].
        * intros Hnot. apply Hnil. intros Hin. apply Hnot.
          apply elem_of_cons. by right. }
  induction s as [|c t IH]; [by intros ?%elem_of_nil|].
  intros Hin. simpl. destruct (c =? sep)%N eqn:Hc.
  - destruct (Hne t) as (seg & segs & -> & Hseg & _).
    exists [], seg, segs. split_and!; [done | apply not_elem_of_nil | done].
  - apply N.eqb_neq in Hc.
    apply elem_of_cons in Hin as [->|Hin]; [done|].
    destruct (IH Hin) as (f & sd & rest & -> & Hf & Hsd).
    exists (c :: f), sd, rest. split_and!; [done | | done].
    rewrite not_elem_of_cons. split; [congruence | done].
Qed.


Lemma split1_app (sep : char) (before after : str) :
  sep ∉ before → split1 sep (before ++ sep :: after) = [before; after].
Proof.
  induction before as [|c b IH]; intros Hnot; simpl.
  - by rewrite N.eqb_refl.
  - apply not_elem_of_cons in Hnot as [Hc Hb].
    destruct (N.eqb_spec c sep) as [->|_]; [done|]. by rewrite IH.
Qed.

(** ** [int] of a string *)

Lemma py_int_raises (s : str) e : py_int s = Raise e → e = ValueError.
Proof.
  unfold py_int. destruct (read_sign _) as [negative body].
  destruct (contains _ _); [congruence|].
  destruct (scan_digits _ _ _ _) as [[[n [|k]] rest]|]; try congruence.
  destruct (is_empty _); congruence.
Qed.




(* ===================================================================== *)
(** * Properties of the price parser *)
(* ===================================================================== *)

Lemma _parse_korean_price_clean (s : str) :
  _parse_korean_price s =
    let t := clean s in
    if is_empty t then Ok 0
    else if contains eok t then
      p0 ← index (split_on eok t) 0;
      n0 ← py_int p0;
      p1 ← index (split_on eok t) 1;
      remainder ← (if isdigit p1 && negb (is_empty p1) then py_int p1
                   else Ok 0);
      Ok (n0 * 10000 + remainder)
    else try_except_ValueError (py_int t) (Ok 0).
Proof. reflexivity. Qed.

(** Without the marker the parser is the guarded [int]: it never raises. *)
Lemma _parse_korean_price_plain (s : str) :
  eok ∉ s → _parse_korean_price s = Ok (int_or_zero (clean s)).
Proof.
  intros Hnot. rewrite _parse_korean_price_clean. simpl.
  assert (Hc : contains eok (clean s) = false).
  { apply contains_false. intros Hin. by apply clean_subseteq in Hin. }
  rewrite Hc. unfold int_or_zero.
  destruct (clean s) as [|c t] eqn:Ht; [done|]. simpl.
  destruct (py_int (c :: t)) as [n|e] eqn:Hint; [done|].
  by rewrite (py_int_raises _ _ Hint).
Qed.

(** With the marker: the first two segments decide. *)
Lemma _parse_korean_price_marker (s first second : str) rest a :
  split_on eok (clean s) = first :: second :: rest →
  eok ∈ clean s →
  py_int first = Ok a →
  (isdigit second = true → returns (py_int second)) →
  _parse_korean_price s =
    Ok (a * 10000 + (if isdigit second then int_or_zero second else 0)).
Proof.
  intros Hsplit Hin Hfirst Hsecond. rewrite _parse_korean_price_clean. simpl.
  apply contains_elem_of in Hin as Hc. rewrite Hc.
  destruct (clean s) as [|c t] eqn:Ht; [by apply elem_of_nil in Hin|].
  simpl is_empty. cbv iota. rewrite Hsplit. simpl. rewrite Hfirst. simpl.
  unfold int_or_zero. destruct (isdigit second) eqn:Hd; simpl.
  - destruct (Hsecond eq_refl) as [b Hb]. rewrite Hb.
    unfold isdigit in Hd. apply andb_true_iff in Hd as [-> _]. by simpl.
  - done.
Qed.

Lemma _parse_price_field_strip (raw trade_type : str) :
  _parse_price_field raw trade_type =
    if str_eqb trade_type B2 && contains slash (strip raw) then
      p0 ← index (split1 slash (strip raw)) 0;
      deposit ← _parse_korean_price p0;
      p1 ← index (split1 slash (strip raw)) 1;
      monthly ← _parse_korean_price p1;
      Ok (deposit, monthly)
    else
      price ← _parse_korean_price (strip raw);
      Ok (price, 0).
Proof. unfold _parse_price_field. by rewrite or_empty_id. Qed.

Lemma isspace_slash : isspace slash = false.
Proof. reflexivity. Qed.

Lemma isspace_eok : isspace eok = false.
Proof. reflexivity. Qed.

(** The two branches of [_parse_price_field]. *)
Lemma _parse_price_field_monthly (raw before after : str) :
  strip raw = before ++ slash :: after → slash ∉ before →
  _parse_price_field raw B2 =
    deposit ← _parse_korean_price before;
    monthly ← _parse_korean_price after;
    Ok (deposit, monthly).
Proof.
  intros Hraw Hbefore. rewrite _parse_price_field_strip.
  assert (Hc : contains slash (strip raw) = true).
  { apply contains_elem_of. rewrite Hraw. set_solver. }
  rewrite Hc, Hraw, split1_app by done.
  unfold str_eqb. by rewrite bool_decide_eq_true_2.
Qed.

Lemma _parse_price_field_single (raw trade_type : str) :
  trade_type ≠ B2 ∨ slash ∉ raw →
  _parse_price_field raw trade_type =
    price ← _parse_korean_price (strip raw);
    Ok (price, 0).
Proof.
  intros Hcase. rewrite _parse_price_field_strip.
  destruct Hcase as [Htt|Hslash].
  - unfold str_eqb. by rewrite bool_decide_eq_false_2.
  - assert (Hc : contains slash (strip raw) = false).
    { apply contains_false. by rewrite strip_elem_of. }
    by rewrite Hc, andb_false_r.
Qed.

Lemma clean_strip (raw : str) : clean (strip raw) = clean raw.
Proof. unfold clean. by rewrite strip_idemp. Qed.

Lemma clean_marker (raw : str) : eok ∈ raw → eok ∈ clean raw.
Proof.
  intros Hin. unfold clean. rewrite !remove_char_elem_of.
  split_and!; [|done..]. by apply (strip_elem_of _ _ isspace_eok).
Qed.




(** C4, as stated, fails: a string with the marker need not have an
    integer before it, and a second marker gives a third segment, which is
    dropped together with the marker, so that the second segment counts. *)
Lemma parse_price_marker_raises_or_drops :
  _parse_price_field (py "억") (py "A1") = Raise ValueError
  ∧ split_on eok (clean (py "1억2억3")) = [py "1"; py "2"; py "3"]
  ∧ _parse_price_field (py "1억2억3") (py "A1") = Ok (10002, 0).
Proof. split_and!; vm_compute; reflexivity. Qed.

(** C4 (amended).  Take an input string that contains the large-unit
    marker and is not a monthly-rent input with the deposit/rent
    separator.  Let the first segment be the text before the first marker
    and the second the text up to the next marker or the end, blanks and
    thousands separators removed.  If the first segment is an integer
    literal, and the second one too whenever it is all-digit, the price is
    the first segment times 10000 plus the second segment as it is when it
    is non-empty and all-digit (0 otherwise), and the monthly rent is 0;
    further segments are ignored.  The four examples hold. *)
Theorem parse_price_with_marker :
  (∀ raw : str, eok ∈ raw →
     ∃ (first second : str) (rest : list str),
       split_on eok (clean raw) = first :: second :: rest
       ∧ (eok ∉ first) ∧ (eok ∉ second))
  ∧ (∀ (raw trade_type first second : str) (rest : list str) (a : Z),
     eok ∈ raw →
     (trade_type = B2 → slash ∉ raw) →
     split_on eok (clean raw) = first :: second :: rest →
     py_int first = Ok a →
     (isdigit second = true → returns (py_int second)) →
     _parse_price_field raw trade_type =
       Ok (a * 10000 + (if isdigit second then int_or_zero second else 0), 0))
  ∧ _parse_price_field (py "15억") (py "A1") = Ok (150000, 0)
  ∧ _parse_price_field (py "15억 5000") (py "A1") = Ok (155000, 0)
  ∧ _parse_price_field (py "5,000") (py "A1") = Ok (5000, 0)
  ∧ _parse_price_field (py "") (py "A1") = Ok (0, 0).
Proof.
  split; [|split; [|split_and!; vm_compute; reflexivity]].
  - intros raw Hin. by apply split_on_spec, clean_marker.
  - intros raw trade_type first second rest a Hin Hpath Hsplit Hfirst Hsecond.
    assert (Hsingle : trade_type ≠ B2 ∨ slash ∉ raw).
    { destruct (decide (trade_type = B2)); [right; auto | by left]. }
    rewrite (_parse_price_field_single _ _ Hsingle).
    rewrite <- clean_strip in Hsplit.
    rewrite (_parse_korean_price_marker _ _ _ _ a Hsplit); [done | | done..].
    rewrite clean_strip. by apply clean_marker.
Qed.

Lemma parse_price_with_marker_witness :
  _parse_price_field (py " 1,5억 5,000억7 ") (py "B1") = Ok (155000, 0).
Proof.
  destruct parse_price_with_marker as (_ & Hmarker & _).
  apply (Hmarker _ _ (py "15") (py "5000") [py "7"] 15).
  - apply contains_elem_of. reflexivity.
  - intros Htt. discriminate Htt.
  - vm_compute. reflexivity.
  - vm_compute. reflexivity.
  - intros _. exists 5000. vm_compute. reflexivity.
Defined.

(** C5.  For the monthly-rent trade type and an input with the
    deposit/rent separator, the input splits at the first separator into
    exactly two parts and the result is the pair of the plain parses of
    the two parts; [5,000/50] gives (5000, 50).  For every other trade
    type, and for monthly-rent input without the separator, the result is
    the plain parse of the whole input with monthly rent 0. *)
Theorem parse_price_field_monthly_rent (raw trade_type : str) :
  (trade_type = B2 → slash ∈ raw →
   ∃ before after,
     strip raw = before ++ slash :: after
     ∧ (slash ∉ before)
     ∧ split1 slash (strip raw) = [before; after]
     ∧ _parse_price_field raw trade_type =
         deposit ← _parse_korean_price before;
         monthly ← _parse_korean_price after;
         Ok (deposit, monthly))
  ∧ (trade_type ≠ B2 ∨ slash ∉ raw →
     _parse_price_field raw trade_type =
       (price ← _parse_korean_price (strip raw); Ok (price, 0))
     ∧ ∀ price monthly,
         _parse_price_field raw trade_type = Ok (price, monthly) →
         monthly = 0)
  ∧ _parse_price_field (py "5,000/50") B2 = Ok (5000, 50).
Proof.
  split_and!; [| |vm_compute; reflexivity].
  - intros -> Hslash.
    apply (strip_elem_of _ _ isspace_slash) in Hslash.
    apply list_elem_of_split_l in Hslash as (before & after & Hraw & Hb).
    exists before, after. split_and!; [done..| |].
    + rewrite Hraw. by apply split1_app.
    + by apply _parse_price_field_monthly.
  - intros Hcase. rewrite (_parse_price_field_single _ _ Hcase).
    split; [done|]. intros price monthly Hret.
    apply bind_Ok in Hret as (p & _ & [= _ <-]). done.
Qed.

Lemma parse_price_field_monthly_rent_witness :
  (∃ before after,
     strip (py " 1억/5 0 ") = before ++ slash :: after
     ∧ _parse_price_field (py " 1억/5 0 ") B2
       = (deposit ← _parse_korean_price before;
          monthly ← _parse_korean_price after;
          Ok (deposit, monthly)))
  ∧ ∀ price monthly,
      _parse_price_field (py "5,000/50") (py "B1") = Ok (price, monthly) →
      monthly = 0.
Proof.
  split.
  - destruct (parse_price_field_monthly_rent (py " 1억/5 0 ") B2)
      as [Hsplit _].
    destruct Hsplit as (before & after & Hraw & _ & _ & Hret).
    + reflexivity.
    + apply contains_elem_of. reflexivity.
    + exists before, after. split; [exact Hraw | exact Hret].
  - destruct (parse_price_field_monthly_rent (py "5,000/50") (py "B1"))
      as (_ & Hsingle & _).
    apply Hsingle. left. intros Htt. discriminate Htt.
Defined.

(* ===================================================================== *)
(** * Facts about floats *)
(* ===================================================================== *)

Lemma nonneg_float_leb (x : float) :
  nonneg_float x → float_leb float_zero x = true.
Proof. by destruct x as [[]|[]| |[] m e]. Qed.

Lemma shr_1_nonneg (mrs : shr_record) :
  0 ≤ shr_m mrs → 0 ≤ shr_m (shr_1 mrs).
Proof. destruct mrs as [[|[p|p|]|[p|p|]] r s]; simpl; lia. Qed.

Lemma iter_pos_shr_1_nonneg (n : positive) (mrs : shr_record) :
  0 ≤ shr_m mrs → 0 ≤ shr_m (SpecFloat.iter_pos shr_1 n mrs).
Proof.
  revert mrs. induction n as [n IH|n IH|]; intros mrs Hm; simpl.
  - by apply IH, IH, shr_1_nonneg.
  - by apply IH, IH.
  - by apply shr_1_nonneg.
Qed.

Lemma shr_fexp_nonneg (m e : Z) (l : location) :
  0 ≤ m → 0 ≤ shr_m (fst (shr_fexp prec emax m e l)).
Proof.
  intros Hm. unfold shr_fexp, shr.
  assert (H0 : 0 ≤ shr_m (shr_record_of_loc m l)) by by destruct l as [|[]].
  destruct (_ - e) as [|n|n]; simpl; [done| |done].
  by apply iter_pos_shr_1_nonneg.
Qed.

Lemma round_nearest_even_nonneg (m : Z) (l : location) :
  0 ≤ m → 0 ≤ round_nearest_even m l.
Proof.
  intros Hm. destruct l as [|[]]; simpl; try lia. destruct (Z.even m); lia.
Qed.

Lemma binary_round_aux_nonneg (m e : Z) (l : location) :
  0 ≤ m → nonneg_float (binary_round_aux prec emax false m e l).
Proof.
  intros Hm. unfold binary_round_aux.
  pose proof (shr_fexp_nonneg m e l Hm) as H1.
  destruct (shr_fexp prec emax m e l) as [mrs' e']. simpl in H1.
  pose proof (round_nearest_even_nonneg _ (loc_of_shr_record mrs') H1) as H2.
  pose proof (shr_fexp_nonneg _ e' loc_Exact H2) as H3.
  destruct (shr_fexp prec emax _ e' loc_Exact) as [mrs'' e'']. simpl in H3.
  destruct (shr_m mrs'') as [|p|p]; [done| |lia].
  by destruct (e'' <=? emax - prec).
Qed.

Lemma int_truediv_nonneg (a b : Z) (x : float) :
  0 < a → 0 < b → int_truediv a b = Ok x → nonneg_float x.
Proof.
  intros Ha Hb. unfold int_truediv.
  destruct (Z.eqb_spec b 0); [lia|]. destruct (Z.eqb_spec a 0); [lia|].
  unfold raw_of_int.
  destruct (Z.ltb_spec a 0); [lia|]. destruct (Z.ltb_spec b 0); [lia|].
  unfold SFdiv, SFdiv_core_binary.
  set (m' := match _ - _ - _ with Z0 => _ | Zpos _ => _ | Zneg _ => _ end).
  assert (Hm' : 0 ≤ m').
  { subst m'. destruct (_ - _ - _); [lia| |lia]. apply Z.shiftl_nonneg. lia. }
  pose proof (Z.div_pos m' (Z.pos (Z.to_pos (Z.abs b))) Hm' ltac:(lia)) as Hq.
  unfold Z.div in Hq. destruct (Z.div_eucl m' _) as [q r]. simpl in Hq.
  pose proof (binary_round_aux_nonneg q
    (Z.min (fexp prec emax
              (Zdigits2 (Z.pos (Z.to_pos (Z.abs a))) + 0
               - (Zdigits2 (Z.pos (Z.to_pos (Z.abs b))) + 0))) (0 - 0))
    (new_location (Z.pos (Z.to_pos (Z.abs b))) r) Hq) as Hround.
  simpl xorb.
  destruct (binary_round_aux _ _ _ _ _ _) as [s|s| |s m e]; simpl;
    intros [= <-]; exact Hround.
Qed.

(** [x - 0.0] is [x]. *)
Lemma float_sub_zero (x : float) : float_sub x float_zero = x.
Proof. by destruct x as [[]|[]| |[] m e]. Qed.

Lemma round1_zero : round1 float_zero = float_zero.
Proof. reflexivity. Qed.

(** ** When a quotient of integers fits a float *)

Lemma digits2_pos_size (p : positive) : digits2_pos p = Pos.size p.
Proof. induction p as [p IH|p IH|]; simpl; congruence. Qed.

Lemma Zdigits2_le (m k : Z) : 0 ≤ m → 0 ≤ k → m < 2 ^ k → Zdigits2 m ≤ k.
Proof.
  intros Hm Hk Hlt. destruct m as [|p|p]; simpl; [done| |lia].
  rewrite digits2_pos_size.
  pose proof (Pos.size_le p) as Hsize.
  apply Pos2Z.pos_le_pos in Hsize. rewrite Pos2Z.inj_pow in Hsize.
  assert (Hpow : 2 ^ Z.pos (Pos.size p) < 2 ^ (k + 1)).
  { rewrite Z.pow_add_r, Z.pow_1_r by lia. lia. }
  apply Z.pow_lt_mono_r_iff in Hpow; lia.
Qed.

Lemma shr_1_bound (K j : Z) (mrs : shr_record) :
  shr_bound K j mrs → shr_bound K (j + 1) (shr_1 mrs).
Proof.
  unfold shr_bound. intros [Hm Hlt]. split; [by apply shr_1_nonneg|].
  destruct (Z.le_gt_cases (K - j) 0) as [Hsmall|Hbig].
  - rewrite Z.max_r in Hlt by lia. rewrite Z.max_r by lia.
    assert (shr_m mrs = 0) as Hzero by (simpl in Hlt; lia).
    destruct mrs as [m r s]. simpl in Hzero. subst m. simpl. lia.
  - rewrite Z.max_l in Hlt by lia.
    replace (K - j) with (Z.max (K - (j + 1)) 0 + 1) in Hlt by lia.
    rewrite Z.pow_add_r in Hlt by lia.
    destruct mrs as [[|[p|p|]|p] r s]; simpl in *; lia.
Qed.

Lemma iter_pos_shr_1_bound (n : positive) (K j : Z) (mrs : shr_record) :
  shr_bound K j mrs →
  shr_bound K (j + Z.pos n) (SpecFloat.iter_pos shr_1 n mrs).
Proof.
  revert j mrs. induction n as [n IH|n IH|]; intros j mrs Hb; simpl.
  - replace (j + Z.pos n~1) with (j + 1 + Z.pos n + Z.pos n) by lia.
    by apply IH, IH, shr_1_bound.
  - replace (j + Z.pos n~0) with (j + Z.pos n + Z.pos n) by lia.
    by apply IH, IH.
  - by apply shr_1_bound.
Qed.

(** One alignment step of the rounding: the exponent stays at or below
    [emax - prec], and mantissa and exponent stay below [2^(K + e)]. *)
Lemma shr_fexp_bound (m e K : Z) (l : location) :
  0 ≤ m → 0 ≤ K → m < 2 ^ K → e ≤ emax - prec → K + e ≤ emax →
  let '(mrs, e') := shr_fexp prec emax m e l in
  e' ≤ emax - prec
  ∧ ∃ K', 0 ≤ K' ∧ K' + e' ≤ Z.max (K + e) e' ∧ 0 ≤ shr_m mrs < 2 ^ K'.
Proof.
  intros Hm HK Hlt He HKe. unfold shr_fexp, shr.
  pose proof (Zdigits2_le m K Hm HK Hlt) as Hd.
  assert (Hfexp : fexp prec emax (Zdigits2 m + e) ≤ emax - prec).
  { unfold fexp, SpecFloat.emin, prec, emax in *. lia. }
  assert (H0 : shr_bound K 0 (shr_record_of_loc m l)).
  { unfold shr_bound. rewrite Z.sub_0_r, Z.max_l by lia.
    by destruct l as [|[]]. }
  destruct (fexp prec emax (Zdigits2 m + e) - e) as [|n|n] eqn:Hn.
  - split; [done|]. exists K. unfold shr_bound in H0.
    rewrite Z.sub_0_r, Z.max_l in H0 by lia. split_and!; try lia; apply H0.
  - split; [lia|].
    pose proof (iter_pos_shr_1_bound n K 0 _ H0) as Hb.
    unfold shr_bound in Hb. exists (Z.max (K - (0 + Z.pos n)) 0).
    split_and!; try lia; apply Hb.
  - split; [done|]. exists K. unfold shr_bound in H0.
    rewrite Z.sub_0_r, Z.max_l in H0 by lia. split_and!; try lia; apply H0.
Qed.

Lemma binary_round_aux_finite (sx : bool) (m e K : Z) (l : location) :
  0 ≤ m → 0 ≤ K → m < 2 ^ K → e ≤ emax - prec → K + e ≤ emax - 1 →
  is_infinity (binary_round_aux prec emax sx m e l) = false.
Proof.
  intros Hm HK Hlt He HKe. unfold binary_round_aux.
  pose proof (shr_fexp_bound m e K l Hm HK Hlt He ltac:(lia)) as H1.
  destruct (shr_fexp prec emax m e l) as [mrs' e'].
  destruct H1 as (He' & K' & HK' & HKe' & Hm' & Hlt').
  pose proof (round_nearest_even_nonneg _ (loc_of_shr_record mrs') Hm')
    as Hr.
  assert (Hrlt : round_nearest_even (shr_m mrs') (loc_of_shr_record mrs')
                 < 2 ^ (K' + 1)).
  { rewrite Z.pow_add_r by lia. unfold round_nearest_even.
    destruct (loc_of_shr_record mrs') as [|[]]; try lia.
    destruct (Z.even _); lia. }
  pose proof (shr_fexp_bound _ e' (K' + 1) loc_Exact Hr ltac:(lia) Hrlt He'
                ltac:(unfold emax, prec in *; lia)) as H2.
  destruct (shr_fexp prec emax _ e' loc_Exact) as [mrs'' e''].
  destruct H2 as (He'' & _).
  destruct (shr_m mrs'') as [|p|p]; [done| |done].
  destruct (Z.leb_spec e'' (emax - prec)); [done|lia].
Qed.

(** A quotient of positive integers with the dividend below [2^1023] is
    never too large for a float. *)
Lemma int_truediv_returns (a b : Z) :
  0 < a < 2 ^ 1023 → 0 < b → returns (int_truediv a b).
Proof.
  intros [Ha Hlt] Hb. unfold int_truediv.
  destruct (Z.eqb_spec b 0); [lia|]. destruct (Z.eqb_spec a 0); [lia|].
  unfold raw_of_int.
  destruct (Z.ltb_spec a 0); [lia|]. destruct (Z.ltb_spec b 0); [lia|].
  unfold SFdiv, SFdiv_core_binary. simpl xorb.
  rewrite !Z.abs_eq, !Z2Pos.id by lia.
  set (e' := Z.min (fexp prec emax (Zdigits2 a + 0 - (Zdigits2 b + 0)))
               (0 - 0)).
  assert (He' : e' ≤ 0) by (subst e'; lia).
  set (m' := match 0 - 0 - e' with Z0 => _ | Zpos _ => _ | Zneg _ => _ end).
  assert (Hm' : 0 ≤ m' < 2 ^ (1023 - e')).
  { subst m'. destruct (0 - 0 - e') as [|s|s] eqn:Hs.
    - replace e' with 0 by lia. simpl (1023 - 0). lia.
    - rewrite Z.shiftl_mul_pow2 by lia.
      replace (1023 - e') with (1023 + Z.pos s) by lia.
      rewrite Z.pow_add_r by lia.
      assert (0 < 2 ^ Z.pos s) by (apply Z.pow_pos_nonneg; lia). nia.
    - lia. }
  pose proof (Z.div_pos m' b ltac:(lia) Hb) as Hq.
  pose proof (Z.div_le_upper_bound m' b m' Hb ltac:(nia)) as Hq'.
  unfold Z.div in Hq, Hq'. destruct (Z.div_eucl m' b) as [q r].
  simpl in Hq, Hq'.
  pose proof (binary_round_aux_finite false q e' (1023 - e')
                (new_location b r) Hq ltac:(lia) ltac:(lia)
                ltac:(unfold emax, prec; lia) ltac:(unfold emax; lia))
    as Hfin.
  destruct (binary_round_aux _ _ _ _ _ _); simpl in Hfin;
    [|discriminate Hfin| |]; by eexists.
Qed.

(* ===================================================================== *)
(** * Facts about sums, minima and averages *)
(* ===================================================================== *)

Lemma fold_left_add_acc (l : list Z) (acc : Z) :
  fold_left Z.add l acc = acc + fold_left Z.add l 0.
Proof.
  revert acc. induction l as [|x l IH]; intros acc; simpl; [lia|].
  rewrite (IH (acc + x)), (IH (0 + x)). lia.
Qed.

Lemma sum_cons (x : Z) (l : list Z) : sum (x :: l) = x + sum l.
Proof. unfold sum. simpl. apply fold_left_add_acc. Qed.

Lemma sum_positive (l : list Z) :
  Forall (λ p, 0 < p) l → l ≠ [] → 0 < sum l.
Proof.
  induction 1 as [|x l Hx Hall IH]; [done|]. intros _. rewrite sum_cons.
  destruct l as [|y l]; [unfold sum; simpl; lia|].
  assert (0 < sum (y :: l)) by by apply IH. lia.
Qed.

Lemma fold_left_min_positive (l : list Z) (acc : Z) :
  Forall (λ p, 0 < p) l → 0 < acc → 0 < fold_left Z.min l acc.
Proof.
  intros Hall. revert acc.
  induction Hall as [|x l Hx Hall IH]; intros acc Hacc; simpl; [done|].
  apply IH. lia.
Qed.

Lemma least_nonneg (l : list Z) : Forall (λ p, 0 < p) l → 0 ≤ least l.
Proof.
  destruct 1 as [|x l Hx Hall]; simpl; [done|].
  pose proof (fold_left_min_positive l x Hall Hx). lia.
Qed.

Lemma average_nonneg (l : list Z) (x : float) :
  Forall (λ p, 0 < p) l → average l = Ok x → nonneg_float x.
Proof.
  intros Hall. unfold average. destruct l as [|p l]; simpl.
  - by intros [= <-].
  - apply int_truediv_nonneg.
    + by apply sum_positive.
    + unfold len. simpl length. lia.
Qed.

Lemma today_prices_positive (today_listings : list Listing.t) :
  Forall (λ p, 0 < p) (today_prices today_listings).
Proof.
  unfold today_prices. apply Forall_forall. intros p Hp.
  apply list_elem_of_In, in_map_iff in Hp as (l & <- & Hl).
  apply filter_In in Hl as [_ Hl]. lia.
Qed.

Lemma average_returns (prices : list Z) :
  Forall (λ p, 0 < p) prices → sum prices < 2 ^ 1023 →
  returns (average prices).
Proof.
  intros Hall Hsum. unfold average. destruct prices as [|p ps].
  - by eexists.
  - simpl is_empty. cbv iota. apply int_truediv_returns.
    + split; [by apply sum_positive|done].
    + unfold len. simpl length. lia.
Qed.

(* ===================================================================== *)
(** * Facts about the two sets of ids *)
(* ===================================================================== *)

Lemma yesterday_ids_filter (yesterday_rows : list row) :
  yesterday_ids yesterday_rows
  = list_to_set (map id_of (List.filter has_id yesterday_rows)).
Proof. reflexivity. Qed.

Lemma elem_of_today_ids (today_listings : list Listing.t) (x : str) :
  x ∈ today_ids today_listings
  ↔ ∃ l, l ∈ today_listings ∧ Listing.listing_id l = x.
Proof.
  unfold today_ids. rewrite elem_of_list_to_set, list_elem_of_In, in_map_iff.
  split; intros (l & H1 & H2); exists l.
  - by rewrite list_elem_of_In.
  - by rewrite <- list_elem_of_In.
Qed.

Lemma elem_of_yesterday_ids (yesterday_rows : list row) (x : str) :
  x ∈ yesterday_ids yesterday_rows
  ↔ ∃ r, r ∈ yesterday_rows ∧ has_id r = true ∧ id_of r = x.
Proof.
  rewrite yesterday_ids_filter.
  rewrite elem_of_list_to_set, list_elem_of_In, in_map_iff.
  split.
  - intros (r & Hx & Hr). apply filter_In in Hr as [Hr Hid].
    exists r. by rewrite list_elem_of_In.
  - intros (r & Hr & Hid & Hx). exists r. split; [done|].
    apply filter_In. by rewrite <- list_elem_of_In.
Qed.

Lemma filter_length_le {A} (f : A → bool) (l : list A) :
  (length (List.filter f l) ≤ length l)%nat.
Proof.
  induction l as [|x l IH]; simpl; [done|]. destruct (f x); simpl; lia.
Qed.

Lemma size_list_to_set_le (l : list (list N)) :
  (size (list_to_set l : gset (list N)) ≤ length l)%nat.
Proof.
  induction l as [|x l IH]; simpl.
  - done.
  - rewrite size_union_alt, size_singleton.
    pose proof (subseteq_size (list_to_set l ∖ {[x]}) (list_to_set l : gset _)
                  ltac:(apply subseteq_difference_l; done)).
    lia.
Qed.

Lemma size_today_ids_le (today_listings : list Listing.t) :
  (size (today_ids today_listings) ≤ length today_listings)%nat.
Proof.
  unfold today_ids. etrans; [apply size_list_to_set_le|].
  by rewrite length_map.
Qed.

Lemma size_yesterday_ids_le (yesterday_rows : list row) :
  (size (yesterday_ids yesterday_rows) ≤ length yesterday_rows)%nat.
Proof.
  rewrite yesterday_ids_filter. etrans; [apply size_list_to_set_le|].
  rewrite length_map. apply filter_length_le.
Qed.

Lemma size_difference_intersection (X Y : gset (list N)) :
  (size (X ∖ Y) + size (X ∩ Y) = size X)%nat.
Proof.
  rewrite size_difference_alt.
  pose proof (subseteq_size (X ∩ Y) X ltac:(apply intersection_subseteq_l)).
  lia.
Qed.

Lemma today_ids_Permutation (l1 l2 : list Listing.t) :
  l1 ≡ₚ l2 → today_ids l1 = today_ids l2.
Proof.
  intros Hperm. apply set_eq. intros x. rewrite !elem_of_today_ids.
  by setoid_rewrite Hperm.
Qed.

Lemma yesterday_ids_Permutation (l1 l2 : list row) :
  l1 ≡ₚ l2 → yesterday_ids l1 = yesterday_ids l2.
Proof.
  intros Hperm. apply set_eq. intros x. rewrite !elem_of_yesterday_ids.
  by setoid_rewrite Hperm.
Qed.

(** A row without a true id adds nothing to yesterday's set. *)
Lemma yesterday_ids_drop (before after : list row) (r : row) :
  has_id r = false →
  yesterday_ids (before ++ r :: after) = yesterday_ids (before ++ after).
Proof.
  intros Hr. rewrite !yesterday_ids_filter, !List.filter_app. simpl.
  by rewrite Hr.
Qed.

Lemma has_id_false (r : row) :
  has_id r = false
  ↔ r !! py "listing_id" = None
    ∨ ∃ v, r !! py "listing_id" = Some v ∧ truthy v = false.
Proof.
  unfold has_id, dict_get. destruct (r !! py "listing_id") as [v|].
  - split; [eauto|]. by intros [|(v' & [= <-] & Hv)].
  - split; [by left | done].
Qed.

(* ===================================================================== *)
(** * The shape of [compute_summary] *)
(* ===================================================================== *)

Lemma float_of_int_100 : float_of_int 100 = Ok hundred.
Proof. reflexivity. Qed.

Lemma minimum_least (prices : list Z) : minimum prices = Ok (least prices).
Proof. by destruct prices. Qed.

Lemma change_pct_pct_of (avg_change y_avg : float) :
  change_pct avg_change y_avg = Ok (pct_of avg_change y_avg).
Proof.
  unfold change_pct, pct_of, float_truediv, float_mul_int.
  destruct (float_bool y_avg); [|done]. unfold mbind, result_bind.
  by rewrite float_of_int_100.
Qed.

(** Only three steps of [compute_summary] can raise: today's average,
    reading yesterday's prices, and yesterday's average. *)
Lemma compute_summary_steps (clock complex_id trade_type : str)
    (today_listings : list Listing.t) (yesterday_rows : list row) :
  compute_summary clock complex_id trade_type today_listings yesterday_rows =
    avg_price ← average (today_prices today_listings);
    y_prices ← y_prices yesterday_rows;
    y_avg ← average y_prices;
    Ok {| ComplexSummary.complex_id := complex_id;
          ComplexSummary.date := clock;
          ComplexSummary.trade_type := trade_type;
          ComplexSummary.total_listings := len today_listings;
          ComplexSummary.new_listings :=
            Z.of_nat (size (today_ids today_listings
                            ∖ yesterday_ids yesterday_rows));
          ComplexSummary.removed_listings :=
            Z.of_nat (size (yesterday_ids yesterday_rows
                            ∖ today_ids today_listings));
          ComplexSummary.avg_price := avg_price;
          ComplexSummary.avg_price_change := float_sub avg_price y_avg;
          ComplexSummary.avg_price_change_pct :=
            round1 (pct_of (float_sub avg_price y_avg) y_avg);
          ComplexSummary.min_price := least (today_prices today_listings);
          ComplexSummary.min_price_change :=
            least (today_prices today_listings) - least y_prices;
          ComplexSummary.lowest_listing :=
            lowest_str trade_type (find_lowest today_listings) |}.
Proof.
  unfold compute_summary.
  destruct (average (today_prices today_listings)) as [avg|]; [|done]. simpl.
  rewrite minimum_least. simpl.
  destruct (y_prices yesterday_rows) as [yps|]; [|done]. simpl.
  destruct (average yps) as [yavg|]; [|done]. simpl.
  rewrite minimum_least. simpl. by rewrite change_pct_pct_of.
Qed.

(** What a returned summary is made of. *)
Lemma compute_summary_Ok (clock complex_id trade_type : str)
    (today_listings : list Listing.t) (yesterday_rows : list row)
    (s : ComplexSummary.t) :
  compute_summary clock complex_id trade_type today_listings yesterday_rows
    = Ok s →
  ∃ y_prices_ y_avg,
    average (today_prices today_listings) = Ok (ComplexSummary.avg_price s)
    ∧ y_prices yesterday_rows = Ok y_prices_
    ∧ average y_prices_ = Ok y_avg
    ∧ ComplexSummary.complex_id s = complex_id
    ∧ ComplexSummary.date s = clock
    ∧ ComplexSummary.trade_type s = trade_type
    ∧ ComplexSummary.total_listings s = len today_listings
    ∧ ComplexSummary.new_listings s =
        Z.of_nat (size (today_ids today_listings
                        ∖ yesterday_ids yesterday_rows))
    ∧ ComplexSummary.removed_listings s =
        Z.of_nat (size (yesterday_ids yesterday_rows
                        ∖ today_ids today_listings))
    ∧ ComplexSummary.avg_price_change s =
        float_sub (ComplexSummary.avg_price s) y_avg
    ∧ ComplexSummary.avg_price_change_pct s =
        round1 (pct_of (float_sub (ComplexSummary.avg_price s) y_avg) y_avg)
    ∧ ComplexSummary.min_price s = least (today_prices today_listings)
    ∧ ComplexSummary.min_price_change s =
        least (today_prices today_listings) - least y_prices_
    ∧ ComplexSummary.lowest_listing s =
        lowest_str trade_type (find_lowest today_listings).
Proof.
  rewrite compute_summary_steps. intros Hs.
  apply bind_Ok in Hs as (avg & Havg & Hs).
  apply bind_Ok in Hs as (yps & Hyps & Hs).
  apply bind_Ok in Hs as (yavg & Hyavg & [= <-]).
  exists yps, yavg. simpl. by split_and!.
Qed.

(* ===================================================================== *)
(** * Determinism and totality *)
(* ===================================================================== *)

(** C2, as stated, fails: with the same four arguments, a call on 1 May
    and a call on 2 May return summaries that differ in the date field. *)
Lemma compute_summary_depends_on_clock :
  compute_summary (py "2024-05-01") (py "8928") (py "A1") [] []
  ≠ compute_summary (py "2024-05-02") (py "8928") (py "A1") [] [].
Proof. vm_compute. discriminate. Qed.

(** C2 (amended).  [compute_summary] is a deterministic function of its
    four arguments and of the current date: the date field is the date
    read from the system clock, and whether the call raises as well as
    every other field of the returned summary is determined by the four
    arguments alone.  Two calls with identical arguments on the same date
    yield identical output. *)
Theorem compute_summary_deterministic (clock1 clock2 complex_id trade_type : str)
    (today_listings : list Listing.t) (yesterday_rows : list row) :
  compute_summary clock1 complex_id trade_type today_listings yesterday_rows
  = with_date clock1
      <$> compute_summary clock2 complex_id trade_type today_listings
            yesterday_rows.
Proof.
  rewrite !compute_summary_steps.
  destruct (average (today_prices today_listings)) as [avg|]; [|done]. simpl.
  destruct (y_prices yesterday_rows) as [yps|]; [|done]. simpl.
  by destruct (average yps) as [yavg|].
Qed.

(** ** When [compute_summary] raises *)

(** A round of the comprehension over yesterday's rows raises only on a
    text cell that [isdigit] accepts and [int] rejects. *)
Lemma y_price_raises (r : row) (e : exn) :
  y_price r = Raise e →
  ∃ s, r !! py "price" = Some (VStr s) ∧ isdigit s = true
       ∧ py_int s = Raise ValueError ∧ e = ValueError.
Proof.
  unfold y_price, dict_get, getitem.
  destruct (r !! py "price") as [v|]; [|done].
  destruct (truthy v) eqn:Htrue; [|done]. simpl.
  destruct (isdigit (py_str v)) eqn:Hdigit; [|done]. simpl.
  destruct v as [|b|z|x|s]; simpl.
  - done.
  - by destruct b.
  - by destruct (0 <? z).
  - destruct x as [sx|sx| |sx m ex]; simpl.
    + done.
    + destruct sx; by vm_compute in Hdigit.
    + by vm_compute in Hdigit.
    + by destruct (0 <? _).
  - destruct (py_int s) as [n|e'] eqn:Hint; simpl.
    + by destruct (0 <? n).
    + intros [= <-]. apply py_int_raises in Hint as Heq. subst e'.
      by exists s.
Qed.

Lemma y_prices_raises (yesterday_rows : list row) (e : exn) :
  y_prices yesterday_rows = Raise e →
  ∃ r, r ∈ yesterday_rows ∧ y_price r = Raise e.
Proof.
  induction yesterday_rows as [|r rows IH]; simpl; [done|].
  destruct (y_price r) as [p|e'] eqn:Hr; simpl.
  - destruct (y_prices rows) as [ps|e'']; simpl; [done|].
    intros [= ->]. destruct (IH eq_refl) as (r' & Hin & Hr').
    exists r'. split; [|done]. apply elem_of_cons. by right.
  - intros [= ->]. exists r. split; [|done]. apply elem_of_cons. by left.
Qed.

Lemma average_raises (prices : list Z) (e : exn) :
  average prices = Raise e → e = OverflowError.
Proof.
  unfold average, int_truediv, or_overflow.
  destruct prices as [|p ps]; simpl is_empty; cbv iota; [done|].
  assert (Hlen : len (p :: ps) ≠ 0) by (unfold len; simpl length; lia).
  destruct (Z.eqb_spec (len (p :: ps)) 0); [done|].
  destruct (sum (p :: ps) =? 0); [done|].
  destruct (SFdiv _ _ _ _); congruence.
Qed.

(** [compute_summary] raises only when an average is too large for a
    float, or on a price cell of yesterday that [isdigit] accepts and
    [int] rejects. *)
Lemma compute_summary_raises (clock complex_id trade_type : str)
    (today_listings : list Listing.t) (yesterday_rows : list row) (e : exn) :
  compute_summary clock complex_id trade_type today_listings yesterday_rows
    = Raise e →
  e = OverflowError
  ∨ e = ValueError
    ∧ ∃ r s, r ∈ yesterday_rows ∧ r !! py "price" = Some (VStr s)
             ∧ isdigit s = true ∧ py_int s = Raise ValueError.
Proof.
  rewrite compute_summary_steps.
  destruct (average (today_prices today_listings)) as [avg|e1] eqn:Havg;
    simpl; [|intros [= <-]; left; by eapply average_raises].
  destruct (y_prices yesterday_rows) as [yps|e2] eqn:Hyps; simpl.
  - destruct (average yps) as [yavg|e3] eqn:Hyavg; simpl; [done|].
    intros [= <-]. left. by eapply average_raises.
  - intros [= <-]. right.
    apply y_prices_raises in Hyps as (r & Hin & Hr).
    apply y_price_raises in Hr as (s & Hcell & Hdigit & Hint & ->).
    split; [done|]. by exists r, s.
Qed.

Lemma y_price_positive (r : row) (n : Z) : y_price r = Ok (Some n) → 0 < n.
Proof.
  unfold y_price, dict_get, getitem.
  destruct (r !! py "price") as [v|]; [|done].
  destruct (truthy v); [|done]. simpl.
  destruct (isdigit (py_str v)); [|done]. simpl.
  destruct (int_of v) as [k|]; [|done]. simpl.
  destruct (Z.ltb_spec 0 k); [|done]. by intros [= <-].
Qed.

Lemma y_prices_positive (yesterday_rows : list row) (prices : list Z) :
  y_prices yesterday_rows = Ok prices → Forall (λ p, 0 < p) prices.
Proof.
  revert prices. induction yesterday_rows as [|r rows IH]; simpl.
  - by intros prices [= <-].
  - intros prices Hps.
    apply bind_Ok in Hps as (p & Hp & Hps).
    apply bind_Ok in Hps as (ps & Hrows & [= <-]).
    specialize (IH ps Hrows). destruct p as [n|]; [|done].
    constructor; [by eapply y_price_positive | done].
Qed.

Lemma y_prices_returns (yesterday_rows : list row) :
  (∀ r s, r ∈ yesterday_rows → r !! py "price" = Some (VStr s) →
          isdigit s = true → returns (py_int s)) →
  returns (y_prices yesterday_rows).
Proof.
  intros Hsafe. destruct (y_prices yesterday_rows) as [ps|e] eqn:Hps;
    [by eexists|].
  apply y_prices_raises in Hps as (r & Hin & Hr).
  apply y_price_raises in Hr as (s & Hcell & Hdigit & Hint & _).
  destruct (Hsafe r s Hin Hcell Hdigit) as [n Hn]. congruence.
Qed.

(** [compute_summary] returns whenever the sum of today's prices and the
    sum of yesterday's prices are below [2^1023] and every text cell
    among yesterday's prices that [isdigit] accepts is an integer
    literal. *)
Lemma compute_summary_returns (clock complex_id trade_type : str)
    (today_listings : list Listing.t) (yesterday_rows : list row) :
  sum (today_prices today_listings) < 2 ^ 1023 →
  (∀ r s, r ∈ yesterday_rows → r !! py "price" = Some (VStr s) →
          isdigit s = true → returns (py_int s)) →
  (∀ prices, y_prices yesterday_rows = Ok prices → sum prices < 2 ^ 1023) →
  returns (compute_summary clock complex_id trade_type today_listings
             yesterday_rows).
Proof.
  intros Htoday Hsafe Hyesterday. rewrite compute_summary_steps.
  destruct (average_returns (today_prices today_listings)
              (today_prices_positive _) Htoday) as [avg ->]. simpl.
  destruct (y_prices_returns _ Hsafe) as [yps Hyps]. rewrite Hyps. simpl.
  destruct (average_returns yps (y_prices_positive _ _ Hyps)
              (Hyesterday yps Hyps)) as [yavg ->]. simpl.
  by eexists.
Qed.

(** C3.  [compute_summary] is meant to return a summary for every input,
    rows of yesterday with arbitrary non-numeric price cells included, and
    guards [int] with [isdigit] to that end.  The guard lets through what
    [int] rejects: a row whose price cell holds the text "²" makes
    [compute_summary] raise ValueError, whatever the other arguments
    are. *)
Theorem compute_summary_raises_on_superscript_digit (clock complex_id
    trade_type : str) (yesterday_rows : list row) :
  let r : row :=
    {[ py "listing_id" := VStr (py "1"); py "price" := VStr (py "²") ]} in
  truthy (dict_get r (py "price") VNone) = true
  ∧ isdigit (py "²") = true
  ∧ py_int (py "²") = Raise ValueError
  ∧ compute_summary clock complex_id trade_type [] (r :: yesterday_rows)
    = Raise ValueError.
Proof. split_and!; reflexivity. Qed.

(* ===================================================================== *)
(** * Properties of the summary: counts *)
(* ===================================================================== *)

(** The properties of a summary are stated for a call that returns one;
    [compute_summary_returns] describes inputs on which the call returns,
    [compute_summary_raises] what makes it raise. *)

(** C6.  With T the set of today's listing ids and Y the set of
    yesterday's ids, coerced to string, rows without a true id left out:
    new_listings + |T ∩ Y| = |T| and removed_listings + |T ∩ Y| = |Y|.
    Both counts depend on the two sets only: any other input with the
    same sets, in particular any reordering of the two lists, gives the
    same counts. *)
Theorem listing_counts_set_difference (clock complex_id trade_type : str)
    (today_listings : list Listing.t) (yesterday_rows : list row)
    (s : ComplexSummary.t) :
  compute_summary clock complex_id trade_type today_listings yesterday_rows
    = Ok s →
  let T := today_ids today_listings in
  let Y := yesterday_ids yesterday_rows in
  (∀ x, x ∈ T ↔ ∃ l, l ∈ today_listings ∧ Listing.listing_id l = x)
  ∧ (∀ x, x ∈ Y ↔ ∃ r, r ∈ yesterday_rows ∧ has_id r = true ∧ id_of r = x)
  ∧ ComplexSummary.new_listings s + Z.of_nat (size (T ∩ Y))
    = Z.of_nat (size T)
  ∧ ComplexSummary.removed_listings s + Z.of_nat (size (T ∩ Y))
    = Z.of_nat (size Y)
  ∧ (∀ clock' complex_id' trade_type' today' yesterday' s',
       compute_summary clock' complex_id' trade_type' today' yesterday'
         = Ok s' →
       today_ids today' = T → yesterday_ids yesterday' = Y →
       ComplexSummary.new_listings s' = ComplexSummary.new_listings s
       ∧ ComplexSummary.removed_listings s'
         = ComplexSummary.removed_listings s)
  ∧ (∀ today' yesterday',
       today' ≡ₚ today_listings → yesterday' ≡ₚ yesterday_rows →
       today_ids today' = T ∧ yesterday_ids yesterday' = Y).
Proof.
  intros Hs T Y.
  apply compute_summary_Ok in Hs
    as (yps & yavg & _ & _ & _ & _ & _ & _ & _ & Hnew & Hrem & _).
  fold T Y in Hnew, Hrem. split_and!.
  - apply elem_of_today_ids.
  - apply elem_of_yesterday_ids.
  - rewrite Hnew. pose proof (size_difference_intersection T Y). lia.
  - rewrite Hrem. pose proof (size_difference_intersection Y T) as H.
    assert (Hcomm : Y ∩ T = T ∩ Y).
    { apply set_eq. intros x. rewrite !elem_of_intersection. tauto. }
    rewrite Hcomm in H. lia.
  - intros clock' cid' tt' today' yesterday' s' Hs' HT HY.
    apply compute_summary_Ok in Hs'
      as (yps' & yavg' & _ & _ & _ & _ & _ & _ & _ & Hnew' & Hrem' & _).
    rewrite HT, HY in Hnew', Hrem'. by rewrite Hnew, Hrem, Hnew', Hrem'.
  - intros today' yesterday' Ht Hy. split.
    + by apply today_ids_Permutation.
    + by apply yesterday_ids_Permutation.
Qed.

Lemma listing_counts_set_difference_witness :
  ∃ s,
    compute_summary (py "2024-05-02") (py "8928") (py "A1")
      example_today example_yesterday = Ok s
    ∧ ComplexSummary.new_listings s
      + Z.of_nat (size (today_ids example_today
                        ∩ yesterday_ids example_yesterday))
      = Z.of_nat (size (today_ids example_today)).
Proof.
  destruct (compute_summary _ _ _ _ _) as [s|e] eqn:Hs;
    [|by vm_compute in Hs].
  exists s. split; [reflexivity|].
  by destruct (listing_counts_set_difference _ _ _ _ _ s Hs)
    as (_ & _ & Hnew & _).
Defined.

(** C9.  The exclusion of empty ids is one-sided.  A listing of today
    whose id is the empty string is in today's set, and whenever
    yesterday's set has no empty id it is among the new listings and is
    counted there.  A row of yesterday whose id is missing, empty or
    otherwise false is not in yesterday's set: the set, and with it the
    count of removed listings, is that of the rows without it. *)
Theorem empty_listing_id_asymmetry (clock complex_id trade_type : str)
    (today_listings : list Listing.t) (yesterday_rows : list row)
    (s : ComplexSummary.t) :
  compute_summary clock complex_id trade_type today_listings yesterday_rows
    = Ok s →
  let T := today_ids today_listings in
  let Y := yesterday_ids yesterday_rows in
  (∀ l, l ∈ today_listings → Listing.listing_id l = [] →
     [] ∈ T
     ∧ ([] ∉ Y →
        [] ∈ T ∖ Y
        ∧ ComplexSummary.new_listings s
          = 1 + Z.of_nat (size ((T ∖ {[ [] ]}) ∖ Y))))
  ∧ (∀ r before after,
       yesterday_rows = before ++ r :: after →
       r !! py "listing_id" = None
       ∨ r !! py "listing_id" = Some (VStr [])
       ∨ has_id r = false →
       Y = yesterday_ids (before ++ after)
       ∧ ComplexSummary.removed_listings s
         = Z.of_nat (size (yesterday_ids (before ++ after) ∖ T))).
Proof.
  intros Hs T Y.
  apply compute_summary_Ok in Hs
    as (yps & yavg & _ & _ & _ & _ & _ & _ & _ & Hnew & Hrem & _).
  fold T Y in Hnew, Hrem. split.
  - intros l Hl Hid.
    assert (HT : [] ∈ T) by (apply elem_of_today_ids; eauto).
    split; [done|]. intros HY. split; [by apply elem_of_difference|].
    rewrite Hnew.
    assert (Hsplit : T ∖ Y = {[ [] ]} ∪ (T ∖ {[ [] ]}) ∖ Y).
    { apply set_eq. intros x.
      rewrite elem_of_union, !elem_of_difference, elem_of_singleton.
      destruct (decide (x = [])) as [->|]; tauto. }
    rewrite Hsplit, size_union, size_singleton; [lia|].
    intros x Hx1 Hx2. apply elem_of_singleton in Hx1 as ->.
    rewrite !elem_of_difference, elem_of_singleton in Hx2. tauto.
  - intros r before after Hrows Hr.
    assert (Hfalse : has_id r = false).
    { apply has_id_false. destruct Hr as [Hr|[Hr|Hr]]; [by left | |].
      - right. by exists (VStr []).
      - by apply has_id_false. }
    assert (HY : Y = yesterday_ids (before ++ after)).
    { subst Y. rewrite Hrows. by apply yesterday_ids_drop. }
    split; [done|]. by rewrite Hrem, HY.
Qed.

Lemma empty_listing_id_asymmetry_witness :
  ∃ s,
    compute_summary (py "2024-05-02") (py "8928") (py "A1")
      (example_listing [] 100 :: example_today) example_yesterday = Ok s
    ∧ ComplexSummary.new_listings s = 2
    ∧ ComplexSummary.removed_listings s
      = Z.of_nat
          (size (yesterday_ids (firstn 2 example_yesterday)
                 ∖ today_ids (example_listing [] 100 :: example_today))).
Proof.
  destruct (compute_summary _ _ _ _ _) as [s|e] eqn:Hs;
    [|by vm_compute in Hs].
  exists s. split; [reflexivity|].
  destruct (empty_listing_id_asymmetry _ _ _ _ _ s Hs)
    as [Htoday Hyesterday].
  split.
  - destruct (Htoday (example_listing [] 100)) as [_ Hnew].
    + apply elem_of_cons. by left.
    + reflexivity.
    + destruct Hnew as [_ Hnew].
      * rewrite elem_of_yesterday_ids. intros (r & Hr & Hid & Hx).
        revert Hid Hx. unfold example_yesterday in Hr.
        repeat (apply elem_of_cons in Hr as [->|Hr]; [by vm_compute|]).
        by apply elem_of_nil in Hr.
      * rewrite Hnew. vm_compute. reflexivity.
  - destruct (Hyesterday (example_row (VStr []) (VStr []))
                (firstn 2 example_yesterday) []) as [_ Hrem].
    + reflexivity.
    + right. left. reflexivity.
    + rewrite Hrem. reflexivity.
Defined.

(** C10.  A returned summary carries the complex id and the trade type it
    was asked for; total_listings is the length of today's list, listings
    with price 0 or with a repeated id included; 0 ≤ new_listings ≤
    total_listings; 0 ≤ removed_listings ≤ the length of yesterday's
    rows; and min_price ≥ 0 and avg_price ≥ 0. *)
Theorem summary_invariants (clock complex_id trade_type : str)
    (today_listings : list Listing.t) (yesterday_rows : list row)
    (s : ComplexSummary.t) :
  compute_summary clock complex_id trade_type today_listings yesterday_rows
    = Ok s →
  ComplexSummary.complex_id s = complex_id
  ∧ ComplexSummary.trade_type s = trade_type
  ∧ ComplexSummary.total_listings s = Z.of_nat (length today_listings)
  ∧ 0 ≤ ComplexSummary.new_listings s ≤ ComplexSummary.total_listings s
  ∧ 0 ≤ ComplexSummary.removed_listings s ≤ Z.of_nat (length yesterday_rows)
  ∧ 0 ≤ ComplexSummary.min_price s
  ∧ float_leb float_zero (ComplexSummary.avg_price s) = true.
Proof.
  intros Hs.
  apply compute_summary_Ok in Hs
    as (yps & yavg & Havg & _ & _ & Hcid & _ & Htt & Htotal & Hnew & Hrem
        & _ & _ & Hmin & _).
  split_and!; try done.
  - lia.
  - rewrite Hnew, Htotal. unfold len.
    pose proof (subseteq_size
      (today_ids today_listings ∖ yesterday_ids yesterday_rows)
      (today_ids today_listings) ltac:(by apply subseteq_difference_l)).
    pose proof (size_today_ids_le today_listings). lia.
  - lia.
  - rewrite Hrem.
    pose proof (subseteq_size
      (yesterday_ids yesterday_rows ∖ today_ids today_listings)
      (yesterday_ids yesterday_rows) ltac:(by apply subseteq_difference_l)).
    pose proof (size_yesterday_ids_le yesterday_rows). lia.
  - rewrite Hmin. apply least_nonneg, today_prices_positive.
  - apply nonneg_float_leb.
    apply (average_nonneg (today_prices today_listings)); [|done].
    apply today_prices_positive.
Qed.

Lemma summary_invariants_witness :
  ∃ s,
    compute_summary (py "2024-05-02") (py "8928") (py "A1")
      (example_listing (py "1") 0 :: example_today) example_yesterday = Ok s
    ∧ ComplexSummary.total_listings s = 3
    ∧ 0 ≤ ComplexSummary.new_listings s ≤ ComplexSummary.total_listings s.
Proof.
  destruct (compute_summary _ _ _ _ _) as [s|e] eqn:Hs;
    [|by vm_compute in Hs].
  exists s. split; [reflexivity|].
  destruct (summary_invariants _ _ _ _ _ s Hs) as (_ & _ & Htotal & Hnew & _).
  split; [exact Htotal | exact Hnew].
Defined.

(* ===================================================================== *)
(** * Properties of the summary: prices *)
(* ===================================================================== *)

Lemma yesterday_ids_nil : yesterday_ids [] = ∅.
Proof. reflexivity. Qed.

(** C7.  With no rows of yesterday, and today's average price being
    [avg], the summary has avg_price_change equal to [avg],
    avg_price_change_pct 0.0, new_listings the number of today's ids and
    removed_listings 0.  In general avg_price_change_pct is 0.0 when
    yesterday's average is zero and otherwise the change divided by
    yesterday's average, times 100, rounded to one decimal place, while
    avg_price and avg_price_change are the unrounded average and
    difference. *)
Theorem summary_against_yesterday :
  (∀ (clock complex_id trade_type : str) (today_listings : list Listing.t)
     (avg : float),
     average (today_prices today_listings) = Ok avg →
     ∃ s,
       compute_summary clock complex_id trade_type today_listings [] = Ok s
       ∧ ComplexSummary.avg_price s = avg
       ∧ ComplexSummary.avg_price_change s = avg
       ∧ ComplexSummary.avg_price_change_pct s = float_zero
       ∧ ComplexSummary.new_listings s
         = Z.of_nat (size (today_ids today_listings))
       ∧ ComplexSummary.removed_listings s = 0)
  ∧ (∀ (clock complex_id trade_type : str) (today_listings : list Listing.t)
       (yesterday_rows : list row) (avg y_avg : float) (y_prices_ : list Z),
       average (today_prices today_listings) = Ok avg →
       y_prices yesterday_rows = Ok y_prices_ →
       average y_prices_ = Ok y_avg →
       ∃ s,
         compute_summary clock complex_id trade_type today_listings
           yesterday_rows = Ok s
         ∧ ComplexSummary.avg_price s = avg
         ∧ ComplexSummary.avg_price_change s = float_sub avg y_avg
         ∧ ComplexSummary.avg_price_change_pct s
           = if float_bool y_avg
             then round1 (float_mul
                            (SFdiv prec emax (float_sub avg y_avg) y_avg)
                            hundred)
             else float_zero).
Proof.
  split.
  - intros clock cid tt today avg Havg. eexists.
    rewrite compute_summary_steps, Havg. simpl. split; [reflexivity|]. simpl.
    rewrite float_sub_zero, yesterday_ids_nil. split_and!; try done.
    + f_equal. f_equal. apply set_eq. intros x.
      rewrite elem_of_difference, elem_of_empty. tauto.
    + replace (∅ ∖ today_ids today) with (∅ : gset (list N)); [done|].
      apply set_eq. intros x. rewrite elem_of_difference, elem_of_empty.
      tauto.
  - intros clock cid tt today yest avg yavg yps Havg Hyps Hyavg. eexists.
    rewrite compute_summary_steps, Havg. simpl. rewrite Hyps. simpl.
    rewrite Hyavg. simpl. split; [reflexivity|]. simpl.
    split_and!; try done. unfold pct_of. by destruct (float_bool yavg).
Qed.

Lemma summary_against_yesterday_witness :
  (∃ s,
     compute_summary (py "2024-05-02") (py "8928") (py "A1") example_today []
       = Ok s
     ∧ ComplexSummary.avg_price_change s
       = S754_finite false 5277655813324800 (-45)
     ∧ ComplexSummary.avg_price_change_pct s = float_zero)
  ∧ (∃ s,
       compute_summary (py "2024-05-02") (py "8928") (py "A1") example_today
         example_yesterday = Ok s
       ∧ ComplexSummary.avg_price_change s
         = S754_finite true 5277655813324800 (-46)
       ∧ ComplexSummary.avg_price_change_pct s
         = S754_finite true 4686558362232422 (-47)).
Proof.
  destruct summary_against_yesterday as [Hfirst Hgeneral]. split.
  - destruct (Hfirst (py "2024-05-02") (py "8928") (py "A1") example_today
                (S754_finite false 5277655813324800 (-45)))
      as (s & Hs & _ & Hchange & Hpct & _); [reflexivity|].
    exists s. split_and!; [exact Hs | exact Hchange | exact Hpct].
  - destruct (Hgeneral (py "2024-05-02") (py "8928") (py "A1") example_today
                example_yesterday (S754_finite false 5277655813324800 (-45))
                (S754_finite false 7916483719987200 (-45)) [150; 300])
      as (s & Hs & _ & Hchange & Hpct); [reflexivity..|].
    exists s. split_and!; [exact Hs | by rewrite Hchange | by rewrite Hpct].
Defined.

(** ** The cheapest listing *)

Lemma find_lowest_snoc (pre : list Listing.t) (x : Listing.t) :
  find_lowest (pre ++ [x]) = lowest_step (find_lowest pre) x.
Proof. unfold find_lowest. by rewrite fold_left_app. Qed.

Lemma lookup_snoc_inv {A} (pre : list A) (x y : A) (j : nat) :
  (pre ++ [x]) !! j = Some y →
  (j < length pre)%nat ∧ pre !! j = Some y ∨ j = length pre ∧ y = x.
Proof.
  intros Hj. destruct (decide (j < length pre)%nat) as [Hlt|Hge].
  - left. by rewrite lookup_app_l in Hj.
  - right. apply lookup_lt_Some in Hj as Hj'.
    rewrite length_app in Hj'. simpl in Hj'.
    assert (j = length pre) as -> by lia.
    rewrite lookup_app_r, Nat.sub_diag in Hj by lia. by injection Hj as <-.
Qed.

Lemma lookup_snoc_last {A} (pre : list A) (x : A) :
  (pre ++ [x]) !! length pre = Some x.
Proof. by rewrite lookup_app_r, Nat.sub_diag by lia. Qed.

Lemma find_lowest_spec (today_listings : list Listing.t) :
  match find_lowest today_listings with
  | None => ∀ l, l ∈ today_listings → Listing.price l ≤ 0
  | Some l => ∃ i, is_lowest today_listings i l
  end.
Proof.
  induction today_listings as [|x pre IH] using rev_ind.
  - simpl. by intros l ?%elem_of_nil.
  - rewrite find_lowest_snoc. unfold lowest_step.
    destruct (Z.ltb_spec 0 (Listing.price x)) as [Hx|Hx]; simpl;
      destruct (find_lowest pre) as [lo|].
    + (* a valid listing against the cheapest so far *)
      destruct IH as (i & Hi & Hpos & Hleast).
      destruct (Z.ltb_spec (Listing.price x) (Listing.price lo))
        as [Hcheaper|Hnot].
      * exists (length pre).
        split_and!; [apply lookup_snoc_last | done |].
        intros j l' [[Hlt Hj]|[-> ->]]%lookup_snoc_inv Hl'; [|lia].
        destruct (Hleast j l' Hj Hl'). lia.
      * exists i. pose proof (lookup_lt_Some _ _ _ Hi) as Hlt.
        split_and!; [by rewrite lookup_app_l | done |].
        intros j l' [[Hlt' Hj]|[-> ->]]%lookup_snoc_inv Hl'; [|lia].
        by apply Hleast.
    + (* the first valid listing *)
      exists (length pre).
      split_and!; [apply lookup_snoc_last | done |].
      intros j l' [[Hlt Hj]|[-> ->]]%lookup_snoc_inv Hl'; [|lia].
      apply list_elem_of_lookup_2, IH in Hj. lia.
    + (* not a valid listing: the cheapest so far stays *)
      destruct IH as (i & Hi & Hpos & Hleast). exists i.
      pose proof (lookup_lt_Some _ _ _ Hi) as Hlt.
      split_and!; [by rewrite lookup_app_l | done |].
      intros j l' [[Hlt' Hj]|[-> ->]]%lookup_snoc_inv Hl'; [|lia].
      by apply Hleast.
    + intros l [Hl|Hl]%elem_of_app; [by apply IH|].
      by apply list_elem_of_singleton in Hl as ->.
Qed.

(** ** Listings with price zero *)

Lemma filter_valid_nonzero (today_listings : list Listing.t) :
  List.filter valid (List.filter nonzero today_listings)
  = List.filter valid today_listings.
Proof.
  induction today_listings as [|x l IH]; simpl; [done|].
  unfold nonzero at 1, valid at 2.
  destruct (Z.eqb_spec (Listing.price x) 0) as [Hx|Hx]; simpl.
  - rewrite Hx. simpl. done.
  - unfold valid at 1. by rewrite IH.
Qed.

Lemma today_prices_nonzero (today_listings : list Listing.t) :
  today_prices (List.filter nonzero today_listings)
  = today_prices today_listings.
Proof.
  unfold today_prices. fold valid. by rewrite filter_valid_nonzero.
Qed.

Lemma fold_lowest_step_nonzero (today_listings : list Listing.t)
    (lowest : option Listing.t) :
  fold_left lowest_step (List.filter nonzero today_listings) lowest
  = fold_left lowest_step today_listings lowest.
Proof.
  revert lowest. induction today_listings as [|x l IH]; intros lowest; simpl;
    [done|].
  unfold nonzero at 1.
  destruct (Z.eqb_spec (Listing.price x) 0) as [Hx|Hx]; simpl.
  - rewrite IH. unfold lowest_step at 3. by rewrite Hx.
  - by rewrite IH.
Qed.

Lemma find_lowest_nonzero (today_listings : list Listing.t) :
  find_lowest (List.filter nonzero today_listings)
  = find_lowest today_listings.
Proof. apply fold_lowest_step_nonzero. Qed.

Lemma least_spec (prices : list Z) :
  prices ≠ [] →
  least prices ∈ prices ∧ ∀ p, p ∈ prices → least prices ≤ p.
Proof.
  destruct prices as [|p0 ps]; [done|]. intros _. simpl.
  revert p0. induction ps as [|q ps IH]; intros p0; simpl.
  - split; [apply elem_of_cons; by left|].
    intros p [->|Hp%elem_of_nil]%elem_of_cons; [lia|done].
  - destruct (IH (Z.min p0 q)) as [Hin Hle]. split.
    + apply elem_of_cons in Hin as [Hin|Hin].
      * rewrite Hin. destruct (Z.min_spec p0 q) as [[_ ->]|[_ ->]].
        -- apply elem_of_cons. by left.
        -- apply elem_of_cons. right. apply elem_of_cons. by left.
      * apply elem_of_cons. right. apply elem_of_cons. by right.
    + intros p Hp.
      assert (Hmin : fold_left Z.min ps (Z.min p0 q) ≤ Z.min p0 q).
      { apply Hle. apply elem_of_cons. by left. }
      apply elem_of_cons in Hp as [->|Hp]; [lia|].
      apply elem_of_cons in Hp as [->|Hp]; [lia|].
      apply Hle. apply elem_of_cons. by right.
Qed.

(** C8.  The average and the minimum are taken over today's listings with
    a price above zero, and are 0.0 and 0 when there is none;
    lowest_listing describes the first of the cheapest such listings and
    is the empty string when there is none.  Hence two lists of today that
    differ only in listings with price 0 give the same avg_price,
    min_price and lowest_listing. *)
Theorem zero_price_listings_ignored (clock complex_id trade_type : str)
    (today_listings : list Listing.t) (yesterday_rows : list row)
    (s : ComplexSummary.t) :
  compute_summary clock complex_id trade_type today_listings yesterday_rows
    = Ok s →
  let prices := map Listing.price (List.filter valid today_listings) in
  average prices = Ok (ComplexSummary.avg_price s)
  ∧ (prices = [] →
     ComplexSummary.avg_price s = float_zero
     ∧ ComplexSummary.min_price s = 0
     ∧ ComplexSummary.lowest_listing s = [])
  ∧ (prices ≠ [] →
     ComplexSummary.min_price s ∈ prices
     ∧ (∀ p, p ∈ prices → ComplexSummary.min_price s ≤ p)
     ∧ ∃ i l, is_lowest today_listings i l
              ∧ ComplexSummary.lowest_listing s = describe trade_type l)
  ∧ (∀ today',
       List.filter nonzero today' = List.filter nonzero today_listings →
       ∃ s',
         compute_summary clock complex_id trade_type today' yesterday_rows
           = Ok s'
         ∧ ComplexSummary.avg_price s' = ComplexSummary.avg_price s
         ∧ ComplexSummary.min_price s' = ComplexSummary.min_price s
         ∧ ComplexSummary.lowest_listing s'
           = ComplexSummary.lowest_listing s).
Proof.
  intros Hs prices.
  assert (Hprices : prices = today_prices today_listings) by reflexivity.
  assert (Hvalid : ∀ l, l ∈ today_listings → 0 < Listing.price l →
                        Listing.price l ∈ prices).
  { intros l Hl Hpos. subst prices. apply list_elem_of_In, in_map.
    apply filter_In. split; [by apply list_elem_of_In|].
    unfold valid. by apply Z.ltb_lt. }
  pose proof (find_lowest_spec today_listings) as Hspec.
  pose proof Hs as Hsteps.
  apply compute_summary_Ok in Hs
    as (yps & yavg & Havg & Hyps & Hyavg & _ & _ & _ & _ & _ & _ & _ & _
        & Hmin & _ & Hlow).
  rewrite <- Hprices in Havg, Hmin. split_and!.
  - done.
  - intros Hnil. rewrite Hnil in Havg, Hmin. injection Havg as <-.
    split_and!; [done..|]. rewrite Hlow.
    destruct (find_lowest today_listings) as [l|]; [|done].
    destruct Hspec as (i & Hi & Hpos & _).
    apply list_elem_of_lookup_2 in Hi.
    pose proof (Hvalid l Hi Hpos) as Hin. rewrite Hnil in Hin.
    by apply elem_of_nil in Hin.
  - intros Hne. rewrite Hmin.
    destruct (least_spec prices Hne) as [Hin Hle]. split_and!; [done..|].
    rewrite Hlow. destruct (find_lowest today_listings) as [l|].
    + destruct Hspec as [i Hi]. by exists i, l.
    + destruct prices as [|p ps] eqn:Hp; [done|].
      assert (Hpin : p ∈ today_prices today_listings).
      { rewrite <- Hprices. apply elem_of_cons. by left. }
      pose proof (today_prices_positive today_listings) as Hall.
      rewrite Forall_forall in Hall. specialize (Hall p Hpin).
      unfold today_prices in Hpin.
      apply list_elem_of_In, in_map_iff in Hpin as (l & <- & Hl).
      apply filter_In in Hl as [Hl _]. apply list_elem_of_In in Hl.
      specialize (Hspec l Hl). lia.
  - intros today' Hsame.
    assert (Hp' : today_prices today' = today_prices today_listings).
    { by rewrite <- (today_prices_nonzero today'), Hsame,
        today_prices_nonzero. }
    assert (Hl' : find_lowest today' = find_lowest today_listings).
    { by rewrite <- (find_lowest_nonzero today'), Hsame,
        find_lowest_nonzero. }
    rewrite compute_summary_steps in Hsteps |- *.
    rewrite Hp', Hl'. rewrite <- Hprices. rewrite <- Hprices in Hsteps.
    rewrite Havg, Hyps in Hsteps |- *. simpl in Hsteps |- *.
    rewrite Hyavg in Hsteps |- *. simpl in Hsteps |- *.
    injection Hsteps as <-. eexists. split; [reflexivity|]. done.
Qed.

Lemma zero_price_listings_ignored_witness :
  ∃ s s',
    compute_summary (py "2024-05-02") (py "8928") (py "A1") example_today
      example_yesterday = Ok s
    ∧ compute_summary (py "2024-05-02") (py "8928") (py "A1")
        (example_listing (py "0") 0 :: example_today
         ++ [example_listing (py "9") 0]) example_yesterday = Ok s'
    ∧ ComplexSummary.avg_price s' = ComplexSummary.avg_price s
    ∧ ComplexSummary.min_price s' = ComplexSummary.min_price s
    ∧ ComplexSummary.lowest_listing s' = ComplexSummary.lowest_listing s.
Proof.
  destruct (compute_summary _ _ _ example_today _) as [s|e] eqn:Hs;
    [|by vm_compute in Hs].
  destruct (zero_price_listings_ignored _ _ _ _ _ s Hs)
    as (_ & _ & _ & Hsame).
  destruct (Hsame (example_listing (py "0") 0 :: example_today
                   ++ [example_listing (py "9") 0]))
    as (s' & Hs' & Hfields); [reflexivity|].
  exists s, s'. split; [reflexivity|]. split; [exact Hs' | exact Hfields].
Defined.

(* ===================================================================== *)
(** * Facts about [str] and [int] of an integer *)
(* ===================================================================== *)

Lemma decimal_value_ascii (c : char) :
  (48 ≤ c ≤ 57)%N → decimal_value c = Some (c - 48)%N.
Proof.
  intros [Hlo Hhi]. unfold decimal_value, decimal_ranges. simpl List.find.
  unfold in_range at 1. simpl fst. simpl snd.
  destruct (N.leb_spec 48 c); [|lia]. destruct (N.leb_spec c 57); [|lia].
  simpl. f_equal. apply N.mod_small. lia.
Qed.

Lemma isdigit_char_ascii (c : char) :
  (48 ≤ c ≤ 57)%N → isdigit_char c = true.
Proof.
  intros [Hlo Hhi]. unfold isdigit_char, isdecimal_char, in_ranges.
  unfold decimal_ranges. simpl existsb. unfold in_range at 1.
  simpl fst. simpl snd.
  destruct (N.leb_spec 48 c); [|lia]. by destruct (N.leb_spec c 57); [|lia].
Qed.

Lemma isspace_ascii_digit (c : char) : (45 ≤ c ≤ 57)%N → isspace c = false.
Proof.
  intros [Hlo Hhi]. unfold isspace, in_ranges, space_ranges, in_range.
  simpl.
  repeat match goal with
         | |- context [(?a <=? ?b)%N] => destruct (N.leb_spec a b); try lia
         end; reflexivity.
Qed.

Lemma uint_chars_digits (d : Decimal.uint) :
  Forall (λ c, (48 ≤ c ≤ 57)%N)
    (bytes_of_string (NilEmpty.string_of_uint d)).
Proof. induction d; simpl; constructor; (done || lia). Qed.

Lemma uint_chars_value (d : Decimal.uint) (acc : positive) :
  fold_left (λ a c, (a * 10 + (c - 48))%N)
    (bytes_of_string (NilEmpty.string_of_uint d)) (Npos acc)
  = Npos (Pos.of_uint_acc d acc).
Proof.
  revert acc. induction d; intros acc; simpl; [done|..];
    rewrite <- IHd; f_equal; lia.
Qed.

Lemma uint_chars_value_0 (d : Decimal.uint) :
  fold_left (λ a c, (a * 10 + (c - 48))%N)
    (bytes_of_string (NilEmpty.string_of_uint d)) 0%N
  = Pos.of_uint d.
Proof.
  induction d; simpl; [done| |..].
  - etrans; [|apply IHd]. f_equal.
  - rewrite <- uint_chars_value. f_equal.
  - rewrite <- uint_chars_value. f_equal.
  - rewrite <- uint_chars_value. f_equal.
  - rewrite <- uint_chars_value. f_equal.
  - rewrite <- uint_chars_value. f_equal.
  - rewrite <- uint_chars_value. f_equal.
  - rewrite <- uint_chars_value. f_equal.
  - rewrite <- uint_chars_value. f_equal.
  - rewrite <- uint_chars_value. f_equal.
Qed.

Lemma scan_digits_ascii (cs : str) (ndigits : nat) (acc : N) :
  Forall (λ c, (48 ≤ c ≤ 57)%N) cs →
  scan_digits cs false ndigits acc
  = Some (fold_left (λ a c, (a * 10 + (c - 48))%N) cs acc,
          (ndigits + length cs)%nat, []).
Proof.
  intros Hall. revert ndigits acc.
  induction Hall as [|c cs Hc Hall IH]; intros ndigits acc; simpl.
  - by rewrite Nat.add_0_r.
  - destruct (N.eqb_spec c underscore) as [->|_];
      [unfold underscore in Hc; lia|].
    rewrite (decimal_value_ascii c Hc), IH. do 3 f_equal. lia.
Qed.

Lemma contains_head (c d : char) (cs : str) :
  contains c (firstn 1 (d :: cs)) = (d =? c)%N.
Proof.
  unfold contains. cbn [firstn existsb]. by rewrite orb_false_r, N.eqb_sym.
Qed.

Lemma py_int_digits (cs : str) :
  Forall (λ c, (48 ≤ c ≤ 57)%N) cs → cs ≠ [] →
  py_int cs
  = Ok (Z.of_N (fold_left (λ a c, (a * 10 + (c - 48))%N) cs 0%N))
  ∧ py_int (minus :: cs)
    = Ok (- Z.of_N (fold_left (λ a c, (a * 10 + (c - 48))%N) cs 0%N)).
Proof.
  intros Hall Hne. destruct cs as [|c cs]; [done|].
  pose proof (Forall_inv Hall) as Hc. simpl in Hc.
  assert (Hsp : int_isspace c = false).
  { unfold int_isspace. destruct (N.ltb_spec c 127); [|lia].
    destruct (N.leb_spec 9 c); destruct (N.leb_spec c 13);
      destruct (N.eqb_spec c 32); simpl; try lia; done. }
  assert (Hus : (c =? underscore)%N = false).
  { apply N.eqb_neq. unfold underscore. lia. }
  assert (Hpl : (c =? plus)%N = false).
  { apply N.eqb_neq. unfold plus. lia. }
  assert (Hmi : (c =? minus)%N = false).
  { apply N.eqb_neq. unfold minus. lia. }
  split; unfold py_int; cbn [lstrip_with].
  - rewrite Hsp. unfold read_sign. rewrite Hpl, Hmi, contains_head, Hus.
    by rewrite (scan_digits_ascii _ 0 0%N Hall).
  - change (int_isspace minus) with false. cbv iota. unfold read_sign.
    change (minus =? plus)%N with false. cbv iota.
    rewrite N.eqb_refl, contains_head, Hus.
    by rewrite (scan_digits_ascii _ 0 0%N Hall).
Qed.

Lemma string_of_uint_nonnil (d : Decimal.uint) :
  d ≠ Decimal.Nil →
  NilZero.string_of_uint d = NilEmpty.string_of_uint d
  ∧ bytes_of_string (NilEmpty.string_of_uint d) ≠ [].
Proof. by destruct d. Qed.

(** [int(str(n)) == n] *)
Lemma py_int_str_of_int (z : Z) : py_int (str_of_int z) = Ok z.
Proof.
  unfold str_of_int. destruct z as [|p|p]; simpl Z.to_int.
  - reflexivity.
  - simpl NilZero.string_of_int.
    destruct (string_of_uint_nonnil _ (DecimalPos.Unsigned.to_uint_nonnil p))
      as [-> Hne].
    destruct (py_int_digits _ (uint_chars_digits (Pos.to_uint p)) Hne)
      as [-> _].
    by rewrite uint_chars_value_0, DecimalPos.Unsigned.of_to.
  - simpl NilZero.string_of_int.
    destruct (string_of_uint_nonnil _ (DecimalPos.Unsigned.to_uint_nonnil p))
      as [-> Hne].
    destruct (py_int_digits _ (uint_chars_digits (Pos.to_uint p)) Hne)
      as [_ Hneg].
    change (bytes_of_string (String "-" ?s))
      with (minus :: bytes_of_string s). rewrite Hneg.
    by rewrite uint_chars_value_0, DecimalPos.Unsigned.of_to.
Qed.

(** The text of an integer is a minus sign or nothing, then digits. *)
Lemma str_of_int_chars (z : Z) :
  Forall (λ c, (45 ≤ c ≤ 57)%N) (str_of_int z) ∧ str_of_int z ≠ [].
Proof.
  assert (Hd : ∀ d, Forall (λ c, (45 ≤ c ≤ 57)%N)
                      (bytes_of_string (NilEmpty.string_of_uint d))).
  { intros d. eapply Forall_impl; [apply uint_chars_digits|].
    simpl. intros c Hc. lia. }
  unfold str_of_int. destruct z as [|p|p]; simpl Z.to_int.
  - split; [|done]. repeat constructor; simpl; lia.
  - simpl NilZero.string_of_int.
    destruct (string_of_uint_nonnil _ (DecimalPos.Unsigned.to_uint_nonnil p))
      as [-> Hne]. by split.
  - simpl NilZero.string_of_int.
    destruct (string_of_uint_nonnil _ (DecimalPos.Unsigned.to_uint_nonnil p))
      as [-> Hne].
    change (bytes_of_string (String "-" ?s))
      with (minus :: bytes_of_string s). split; [|done].
    constructor; [unfold minus; lia | apply Hd].
Qed.

Lemma isdigit_str_of_int (z : Z) : 0 ≤ z → isdigit (str_of_int z) = true.
Proof.
  intros Hz. unfold str_of_int. destruct z as [|p|p]; [done| |lia].
  simpl Z.to_int. simpl NilZero.string_of_int.
  destruct (string_of_uint_nonnil _ (DecimalPos.Unsigned.to_uint_nonnil p))
    as [-> Hne].
  unfold isdigit. apply andb_true_iff. split.
  - by destruct (bytes_of_string _).
  - apply forallb_forall. intros c Hc.
    pose proof (uint_chars_digits (Pos.to_uint p)) as Hall.
    rewrite Forall_forall in Hall. apply isdigit_char_ascii, Hall.
    by apply list_elem_of_In.
Qed.

Lemma strip_no_space (s : str) :
  Forall (λ c, isspace c = false) s → strip s = s.
Proof.
  intros Hall. unfold strip.
  assert (Hid : ∀ t : str, Forall (λ c, isspace c = false) t →
                           lstrip_with isspace t = t).
  { intros t Ht. apply lstrip_with_id. intros c u ->.
    by apply Forall_inv in Ht. }
  rewrite (Hid s Hall). unfold rstrip_with.
  rewrite Hid by by apply Forall_rev. apply rev_involutive.
Qed.

Lemma strip_str_of_int (z : Z) : strip (str_of_int z) = str_of_int z.
Proof.
  apply strip_no_space. destruct (str_of_int_chars z) as [Hall _].
  eapply Forall_impl; [exact Hall|]. intros c Hc.
  by apply isspace_ascii_digit.
Qed.

(* ===================================================================== *)
(** * Properties of the settings *)
(* ===================================================================== *)

Lemma split_on_no_sep (sep : char) (s seg : str) :
  seg ∈ split_on sep s → sep ∉ seg.
Proof.
  revert seg. induction s as [|x t IH]; intros seg; simpl.
  - intros ->%list_elem_of_singleton. apply not_elem_of_nil.
  - destruct (N.eqb_spec x sep) as [->|Hx].
    + intros [->|Hseg]%elem_of_cons; [apply not_elem_of_nil | by apply IH].
    + destruct (split_on sep t) as [|seg0 segs].
      * intros ->%list_elem_of_singleton.
        intros [->|?%elem_of_nil]%elem_of_cons; done.
      * intros [->|Hseg]%elem_of_cons.
        -- apply not_elem_of_cons. split; [congruence|].
           apply IH. apply elem_of_cons. by left.
        -- apply IH. apply elem_of_cons. by right.
Qed.

(** X1.  Every element of a list setting is non-empty, has no comma and
    no white space at either end.  The elements are the stripped texts of
    the comma-separated pieces of the variable (of the default when the
    variable is not set) that are not blank. *)
Theorem _get_list_elements (env : environ) (key default : str) :
  (∀ x, x ∈ _get_list env key default →
        x ≠ [] ∧ strip x = x ∧ (comma ∉ x))
  ∧ (∀ x, x ∈ _get_list env key default ↔
          x ≠ [] ∧ ∃ piece, piece ∈ split_on comma (_get env key default)
                            ∧ strip piece = x).
Proof.
  assert (Hmem : ∀ x, x ∈ _get_list env key default ↔
            x ≠ [] ∧ ∃ piece, piece ∈ split_on comma (_get env key default)
                              ∧ strip piece = x).
  { intros x. unfold _get_list. rewrite list_elem_of_In, in_map_iff. split.
    - intros (piece & <- & Hin). apply filter_In in Hin as [Hin Hne].
      split; [by destruct (strip piece)|].
      exists piece. by rewrite <- list_elem_of_In in Hin.
    - intros (Hne & piece & Hin & <-). exists piece. split; [done|].
      apply filter_In. split; [by apply list_elem_of_In|].
      by destruct (strip piece). }
  split; [|done]. intros x (Hne & piece & Hin & <-)%Hmem.
  split_and!; [done | apply strip_idemp |].
  intros Hc%strip_subseteq. by apply split_on_no_sep in Hin.
Qed.

Lemma _get_list_elements_witness :
  let env : environ := {[ py "COMPLEX_IDS" := py " 8928, ,111 ," ]} in
  COMPLEX_IDS env = [py "8928"; py "111"]
  ∧ py "111" ≠ [] ∧ strip (py "111") = py "111" ∧ (comma ∉ py "111").
Proof.
  intros env. split; [reflexivity|].
  destruct (_get_list_elements env (py "COMPLEX_IDS") (py "8928"))
    as [Hinv _].
  apply Hinv. change (py "111" ∈ [py "8928"; py "111"]).
  apply elem_of_cons. right. apply elem_of_cons. by left.
Defined.

(** X2.  An integer setting never raises: a variable that is not set
    gives the default, a variable that is set gives its value when the
    value, stripped, is an integer literal, and the default otherwise. *)
Theorem _get_int_value (env : environ) (key : str) (default : Z) :
  _get_int env key default
  = Ok (match env !! key with
        | None => default
        | Some value =>
          match py_int (strip value) with
          | Ok n => n
          | Raise _ => default
          end
        end).
Proof.
  unfold _get_int, _get. destruct (env !! key) as [value|].
  - destruct (py_int (strip value)) as [n|e] eqn:Hint; [done|].
    by rewrite (py_int_raises _ _ Hint).
  - by rewrite strip_str_of_int, py_int_str_of_int.
Qed.

(* ===================================================================== *)
(** * Properties of the summary: yesterday's prices *)
(* ===================================================================== *)

Lemma isdigit_elem_false (s : str) (c : char) :
  c ∈ s → isdigit_char c = false → isdigit s = false.
Proof.
  intros Hin Hc. unfold isdigit. apply andb_false_iff. right.
  apply not_true_iff_false. intros Hall.
  rewrite forallb_forall in Hall. apply list_elem_of_In in Hin.
  specialize (Hall c Hin). congruence.
Qed.

Lemma format_repr_mark (ds : str) (decpt : Z) :
  46%N ∈ format_repr ds decpt ∨ 101%N ∈ format_repr ds decpt.
Proof.
  unfold format_repr.
  destruct ((decpt <=? -4) || (16 <? decpt)).
  - right. rewrite !elem_of_app. right. left. apply elem_of_cons. by left.
  - left. destruct (decpt <=? 0).
    + rewrite elem_of_app. left. apply elem_of_cons. right.
      apply elem_of_cons. by left.
    + destruct (Z.of_nat (length ds) <=? decpt).
      * rewrite !elem_of_app. right. right. apply elem_of_cons. by left.
      * rewrite !elem_of_app. right. left. apply elem_of_cons. by left.
Qed.

(** The text of a float is never all digits. *)
Lemma isdigit_float_repr (x : float) : isdigit (float_repr x) = false.
Proof.
  destruct x as [[]|[]| |s m e]; try reflexivity.
  unfold float_repr.
  destruct (shortest_from _ _ _ _ _ _) as [c q].
  destruct (strip_zeros _ _ _) as [c' q'].
  destruct (format_repr_mark (str_of_int c')
              (Z.of_nat (length (str_of_int c')) + q')) as [Hm|Hm].
  - apply (isdigit_elem_false _ 46%N); [|done].
    rewrite elem_of_app. by right.
  - apply (isdigit_elem_false _ 101%N); [|done].
    rewrite elem_of_app. by right.
Qed.

Lemma y_price_int (r : row) (p : Z) :
  r !! py "price" = Some (VInt p) →
  y_price r = Ok (if 0 <? p then Some p else None).
Proof.
  intros Hr. unfold y_price, dict_get, getitem. rewrite Hr. simpl.
  destruct (Z.eqb_spec p 0) as [->|Hp]; [done|]. simpl.
  destruct (Z.ltb_spec 0 p) as [Hpos|Hneg].
  - rewrite isdigit_str_of_int by lia. simpl.
    by destruct (Z.ltb_spec 0 p); [|lia].
  - destruct (isdigit (str_of_int p)); [|done]. simpl.
    by destruct (Z.ltb_spec 0 p); [lia|].
Qed.

Lemma y_price_str (r : row) (s : str) :
  r !! py "price" = Some (VStr s) →
  y_price r =
    if isdigit s
    then n ← py_int s; Ok (if 0 <? n then Some n else None)
    else Ok None.
Proof.
  intros Hr. unfold y_price, dict_get, getitem. rewrite Hr. simpl.
  destruct s as [|c s]; [done|]. simpl.
  destruct (isdigit (c :: s)); [|done]. simpl.
  destruct (py_int (c :: s)) as [k|e]; [|done]. simpl.
  by destruct (0 <? k).
Qed.

Lemma y_price_nothing (r : row) :
  r !! py "price" = None
  ∨ (∃ v, r !! py "price" = Some v
          ∧ (v = VNone ∨ (∃ b, v = VBool b) ∨ ∃ x, v = VFloat x)) →
  y_price r = Ok None.
Proof.
  intros [Hr|(v & Hr & Hv)]; unfold y_price, dict_get, getitem;
    rewrite Hr; [done|].
  destruct Hv as [->|[[b ->]|[x ->]]]; simpl; try done.
  - by destruct b.
  - destruct (float_bool x); [|done]. simpl.
    by rewrite isdigit_float_repr.
Qed.

(** X3.  What a row of yesterday contributes to yesterday's prices.  A
    row contributes the price [n] exactly when [n] is above zero and the
    price cell is the integer [n] or a text of digits that [int] reads as
    [n].  A missing or empty cell, None, a boolean and a float contribute
    nothing, and reading the row raises exactly when the cell is a text
    of digits that [int] rejects. *)
Theorem yesterday_price_coercion (r : row) :
  (∀ n, y_price r = Ok (Some n) ↔
        0 < n
        ∧ (r !! py "price" = Some (VInt n)
           ∨ ∃ s, r !! py "price" = Some (VStr s)
                  ∧ isdigit s = true ∧ py_int s = Ok n))
  ∧ (∀ e, y_price r = Raise e ↔
          e = ValueError
          ∧ ∃ s, r !! py "price" = Some (VStr s)
                 ∧ isdigit s = true ∧ py_int s = Raise ValueError)
  ∧ (r !! py "price" = None
     ∨ (∃ v, r !! py "price" = Some v
             ∧ (v = VNone ∨ v = VStr [] ∨ (∃ b, v = VBool b)
                ∨ ∃ x, v = VFloat x)) →
     y_price r = Ok None).
Proof.
  split_and!.
  - intros n. destruct (r !! py "price") as [v|] eqn:Hr.
    + destruct v as [|b|z|x|s].
      * rewrite y_price_nothing
          by (right; eexists; split; [exact Hr|eauto]).
        split; [done|].
        intros [_ [[=]|(s & [=] & _)]].
      * rewrite y_price_nothing
          by (right; eexists; split; [exact Hr|eauto]).
        split; [done|].
        intros [_ [[=]|(s & [=] & _)]].
      * rewrite (y_price_int _ _ Hr). destruct (Z.ltb_spec 0 z).
        -- split; [intros [= <-]; eauto|].
           by intros [_ [[= ->]|(s & [=] & _)]].
        -- split; [done|]. intros [Hn [[= ->]|(s & [=] & _)]]. lia.
      * rewrite y_price_nothing
          by (right; eexists; split; [exact Hr|eauto]).
        split; [done|].
        intros [_ [[=]|(s & [=] & _)]].
      * rewrite (y_price_str _ _ Hr).
        destruct (isdigit s) eqn:Hd.
        -- destruct (py_int s) as [k|e] eqn:Hint; simpl.
           ++ destruct (Z.ltb_spec 0 k).
              ** split; [intros [= <-]; split; [done|right; eauto]|].
                 intros [_ [[=]|(s' & [= <-] & _ & Hk)]]. congruence.
              ** split; [done|].
                 intros [Hn [[=]|(s' & [= <-] & _ & Hk)]].
                 assert (k = n) by congruence. lia.
           ++ split; [done|]. intros [_ [[=]|(s' & [= <-] & _ & Hk)]].
              congruence.
        -- split; [done|]. intros [_ [[=]|(s' & [= <-] & Hd' & _)]].
           congruence.
    + rewrite y_price_nothing by eauto. split; [done|].
      intros [_ [[=]|(s & [=] & _)]].
  - intros e. split.
    + intros (s & Hr & Hd & Hint & ->)%y_price_raises. eauto.
    + intros (-> & s & Hr & Hd & Hint).
      by rewrite (y_price_str _ _ Hr), Hd, Hint.
  - intros [Hr|(v & Hr & [->|[->|Hv]])].
    + apply y_price_nothing. by left.
    + apply y_price_nothing. right. eexists. split; [exact Hr|eauto].
    + by rewrite (y_price_str _ _ Hr).
    + apply y_price_nothing. right. eexists. split; [exact Hr|eauto].
Qed.

Lemma yesterday_price_coercion_witness :
  y_price (example_row (VInt 2) (VStr (py "300"))) = Ok (Some 300)
  ∧ y_price (example_row (VInt 2) (VFloat hundred)) = Ok None.
Proof.
  split.
  - destruct (yesterday_price_coercion
                (example_row (VInt 2) (VStr (py "300")))) as [Hsome _].
    apply Hsome. split; [lia|]. right. exists (py "300").
    split_and!; reflexivity.
  - destruct (yesterday_price_coercion
                (example_row (VInt 2) (VFloat hundred))) as (_ & _ & Hnone).
    apply Hnone. right. exists (VFloat hundred).
    split; [reflexivity|]. right. right. right. by exists hundred.
Defined.

(* ===================================================================== *)
(** * Properties of the summary: a day without listings *)
(* ===================================================================== *)

Lemma average_not_infinity (prices : list Z) (x : float) :
  average prices = Ok x → is_infinity x = false.
Proof.
  unfold average, int_truediv, or_overflow.
  destruct (is_empty prices); [by intros [= <-]|].
  destruct (len prices =? 0); [done|].
  destruct (sum prices =? 0); [by intros [= <-]|].
  by destruct (SFdiv _ _ _ _); intros [= <-].
Qed.

Lemma float_eqb_opp_sub_zero (x : float) :
  nonneg_float x → is_infinity x = false →
  float_eqb (float_sub float_zero x) (SFopp x) = true.
Proof.
  destruct x as [[]|[]| |[] m e]; try done. intros _ _.
  unfold float_eqb, SFeqb. simpl.
  by rewrite Z.compare_refl, Pos.compare_cont_refl.
Qed.

(** X4.  A day without listings.  When yesterday's prices can be read and
    averaged, the summary of an empty list of today has no listing and no
    new listing, counts every id of yesterday as removed, has avg_price
    0.0, min_price 0 and an empty lowest_listing, and its changes are the
    negated average and minimum of yesterday. *)
Theorem summary_of_empty_day (clock complex_id trade_type : str)
    (yesterday_rows : list row) (y_prices_ : list Z) (y_avg : float) :
  y_prices yesterday_rows = Ok y_prices_ →
  average y_prices_ = Ok y_avg →
  ∃ s,
    compute_summary clock complex_id trade_type [] yesterday_rows = Ok s
    ∧ ComplexSummary.total_listings s = 0
    ∧ ComplexSummary.new_listings s = 0
    ∧ ComplexSummary.removed_listings s
      = Z.of_nat (size (yesterday_ids yesterday_rows))
    ∧ ComplexSummary.avg_price s = float_zero
    ∧ ComplexSummary.min_price s = 0
    ∧ ComplexSummary.lowest_listing s = []
    ∧ float_eqb (ComplexSummary.avg_price_change s) (SFopp y_avg) = true
    ∧ ComplexSummary.min_price_change s = - least y_prices_.
Proof.
  intros Hyps Hyavg. eexists. rewrite compute_summary_steps. simpl.
  rewrite Hyps. simpl. rewrite Hyavg. simpl. split; [reflexivity|]. simpl.
  assert (Hnone : today_ids [] = ∅) by reflexivity.
  split_and!; try done.
  - rewrite Hnone. replace (∅ ∖ yesterday_ids yesterday_rows)
      with (∅ : gset (list N)); [done|].
    apply set_eq. intros x. rewrite elem_of_difference, elem_of_empty. tauto.
  - f_equal. f_equal. rewrite Hnone. apply set_eq. intros x.
    rewrite elem_of_difference, elem_of_empty. tauto.
  - apply float_eqb_opp_sub_zero.
    + apply (average_nonneg y_prices_); [|done].
      by eapply y_prices_positive.
    + by eapply average_not_infinity.
Qed.

Lemma summary_of_empty_day_witness :
  ∃ s,
    compute_summary (py "2024-05-02") (py "8928") (py "A1") []
      example_yesterday = Ok s
    ∧ ComplexSummary.removed_listings s = 2
    ∧ ComplexSummary.min_price_change s = -150.
Proof.
  destruct (summary_of_empty_day (py "2024-05-02") (py "8928") (py "A1")
              example_yesterday [150; 300]
              (S754_finite false 7916483719987200 (-45)))
    as (s & Hs & _ & _ & Hrem & _ & _ & _ & _ & Hmin);
    [reflexivity | reflexivity |].
  exists s. split; [exact Hs|]. split; [by rewrite Hrem | by rewrite Hmin].
Defined.

(* ===================================================================== *)
(** * Properties of the summaries of a run *)
(* ===================================================================== *)

Lemma summaries_of_complex_Ok (clock : str)
    (results : gmap (list N) (list Listing.t)) (rows : list row)
    (complex_id : str) (trade_types : list str)
    (ss : list ComplexSummary.t) :
  summaries_of_complex clock results rows complex_id trade_types = Ok ss ↔
  Forall2 (λ trade_type s,
             summary_of clock results rows complex_id trade_type = Ok s)
    trade_types ss.
Proof.
  revert ss. induction trade_types as [|trade_type rest IH]; intros ss; simpl.
  - split; [intros [= <-]; constructor | by inversion 1].
  - split.
    + intros Hss. apply bind_Ok in Hss as (s & Hs & Hss).
      apply bind_Ok in Hss as (ss' & Hrest & [= <-]).
      constructor; [done | by apply IH].
    + inversion 1 as [|? s ? ss' Hs Hrest]; subst.
      apply IH in Hrest. by rewrite Hs, Hrest.
Qed.

Lemma summaries_Ok (clock : str)
    (results : gmap (list N) (list Listing.t)) (rows : list row)
    (complex_ids trade_types : list str) (ss : list ComplexSummary.t) :
  summaries clock results rows complex_ids trade_types = Ok ss ↔
  ∃ sss, Forall2 (λ complex_id ss',
                    summaries_of_complex clock results rows complex_id
                      trade_types = Ok ss')
           complex_ids sss
         ∧ ss = concat sss.
Proof.
  revert ss. induction complex_ids as [|complex_id rest IH]; intros ss; simpl.
  - split.
    + intros [= <-]. exists []. split; [constructor | done].
    + intros (sss & Hsss & ->). by inversion Hsss.
  - split.
    + intros Hss. apply bind_Ok in Hss as (ss' & Hss' & Hss).
      apply bind_Ok in Hss as (more & Hmore & [= <-]).
      apply IH in Hmore as (sss & Hsss & ->).
      exists (ss' :: sss). split; [by constructor | done].
    + intros (sss & Hsss & ->).
      inversion Hsss as [|? ss' ? sss' Hss' Hrest]; subst.
      assert (Hmore : summaries clock results rows rest trade_types
                      = Ok (concat sss')) by (apply IH; eauto).
      by rewrite Hss', Hmore.
Qed.

Lemma summary_of_pair (clock : str)
    (results : gmap (list N) (list Listing.t)) (rows : list row)
    (complex_id trade_type : str) (s : ComplexSummary.t) :
  summary_of clock results rows complex_id trade_type = Ok s →
  pair_of s = (complex_id, trade_type).
Proof.
  intros Hs. apply compute_summary_Ok in Hs
    as (? & ? & _ & _ & _ & Hc & _ & Ht & _).
  unfold pair_of. by rewrite Hc, Ht.
Qed.

Lemma summaries_of_complex_pairs (clock : str)
    (results : gmap (list N) (list Listing.t)) (rows : list row)
    (complex_id : str) (trade_types : list str)
    (ss : list ComplexSummary.t) :
  summaries_of_complex clock results rows complex_id trade_types = Ok ss →
  map pair_of ss = map (pair complex_id) trade_types
  ∧ Forall (λ s, summary_of clock results rows (ComplexSummary.complex_id s)
                   (ComplexSummary.trade_type s) = Ok s) ss.
Proof.
  rewrite summaries_of_complex_Ok.
  induction 1 as [|trade_type s rest ss Hs _ [IHm IHf]]; [done|].
  pose proof (summary_of_pair _ _ _ _ _ _ Hs) as Hp.
  split; [simpl; by rewrite Hp, IHm|].
  constructor; [|done]. injection Hp as -> ->. done.
Qed.

Lemma summaries_of_complex_returns (clock : str)
    (results : gmap (list N) (list Listing.t)) (rows : list row)
    (complex_id : str) (trade_types : list str) :
  returns (summaries_of_complex clock results rows complex_id trade_types) ↔
  ∀ trade_type, trade_type ∈ trade_types →
    returns (summary_of clock results rows complex_id trade_type).
Proof.
  induction trade_types as [|trade_type rest IH]; simpl.
  - split; [intros _ ? Hin; by apply elem_of_nil in Hin | by exists []].
  - split.
    + intros [ss Hss]. apply bind_Ok in Hss as (s & Hs & Hss).
      apply bind_Ok in Hss as (ss' & Hrest & _).
      intros t [->|Hin]%elem_of_cons; [by exists s|].
      apply IH; [by exists ss' | done].
    + intros Hall.
      destruct (Hall trade_type) as [s Hs]; [by left|].
      destruct IH as [_ [ss' Hrest]];
        [intros t Hin; apply Hall; by right|].
      exists (s :: ss'). by rewrite Hs, Hrest.
Qed.

(** X5.  The list of summaries that [run] builds, when no call of
    [compute_summary] raises, has one summary for each configured complex
    and each configured trade type, in the order of the two loops
    (complexes outside, trade types inside), and each one is the summary
    of its own complex and trade type. *)
Theorem summaries_one_per_pair (clock : str)
    (results : gmap (list N) (list Listing.t)) (rows : list row)
    (complex_ids trade_types : list str) (ss : list ComplexSummary.t) :
  summaries clock results rows complex_ids trade_types = Ok ss →
  map pair_of ss = list_prod complex_ids trade_types
  ∧ len ss = len complex_ids * len trade_types
  ∧ Forall (λ s, summary_of clock results rows (ComplexSummary.complex_id s)
                   (ComplexSummary.trade_type s) = Ok s) ss.
Proof.
  intros Hss.
  assert (Hshape : map pair_of ss = list_prod complex_ids trade_types
                   ∧ Forall (λ s, summary_of clock results rows
                                    (ComplexSummary.complex_id s)
                                    (ComplexSummary.trade_type s) = Ok s) ss).
  { apply summaries_Ok in Hss as (sss & Hsss & ->).
    induction Hsss as [|complex_id ss' rest sss Hss' _ [IHm IHf]]; [done|].
    apply summaries_of_complex_pairs in Hss' as [Hm Hf]. simpl.
    split; [by rewrite map_app, Hm, IHm | by apply Forall_app]. }
  destruct Hshape as [Hm Hf]. split_and!; [done| |done].
  unfold len. rewrite <- (length_map pair_of ss), Hm, length_prod. lia.
Qed.

Lemma summaries_one_per_pair_witness :
  ∃ ss,
    summaries (py "2024-05-02") {[ py "8928" := example_today ]}
      example_yesterday [py "8928"; py "111"] [py "A1"; py "B1"] = Ok ss
    ∧ map pair_of ss = [ (py "8928", py "A1"); (py "8928", py "B1");
                         (py "111", py "A1"); (py "111", py "B1") ].
Proof.
  destruct (summaries (py "2024-05-02") {[ py "8928" := example_today ]}
              example_yesterday [py "8928"; py "111"] [py "A1"; py "B1"])
    as [ss|e] eqn:Hss; [|by vm_compute in Hss].
  exists ss. split; [done|].
  by destruct (summaries_one_per_pair _ _ _ _ _ _ Hss) as [-> _].
Defined.

Lemma summaries_of_complex_raises (clock : str)
    (results : gmap (list N) (list Listing.t)) (rows : list row)
    (complex_id : str) (trade_types : list str) (e : exn) :
  summaries_of_complex clock results rows complex_id trade_types = Raise e →
  ∃ trade_type, trade_type ∈ trade_types
    ∧ summary_of clock results rows complex_id trade_type = Raise e.
Proof.
  induction trade_types as [|trade_type rest IH]; simpl; [done|].
  destruct (summary_of clock results rows complex_id trade_type)
    as [s|e1] eqn:Hs; simpl.
  - destruct (summaries_of_complex clock results rows complex_id rest)
      as [ss|e2]; simpl; [done|].
    intros [= ->]. destruct (IH eq_refl) as (t & Hin & Ht).
    exists t. split; [by apply elem_of_cons; right | done].
  - intros [= ->]. exists trade_type. split; [by apply elem_of_cons; left|].
    done.
Qed.

Lemma summaries_raises (clock : str)
    (results : gmap (list N) (list Listing.t)) (rows : list row)
    (complex_ids trade_types : list str) (e : exn) :
  summaries clock results rows complex_ids trade_types = Raise e →
  ∃ complex_id trade_type,
    complex_id ∈ complex_ids ∧ trade_type ∈ trade_types
    ∧ summary_of clock results rows complex_id trade_type = Raise e.
Proof.
  induction complex_ids as [|complex_id rest IH]; simpl; [done|].
  destruct (summaries_of_complex clock results rows complex_id trade_types)
    as [ss|e1] eqn:Hss; simpl.
  - destruct (summaries clock results rows rest trade_types)
      as [more|e2]; simpl; [done|].
    intros [= ->]. destruct (IH eq_refl) as (c & t & Hc & Ht & Hraise).
    exists c, t. split_and!; [by apply elem_of_cons; right | done | done].
  - intros [= ->].
    apply summaries_of_complex_raises in Hss as (t & Ht & Hraise).
    exists complex_id, t.
    split_and!; [by apply elem_of_cons; left | done | done].
Qed.

Lemma summaries_returns (clock : str)
    (results : gmap (list N) (list Listing.t)) (rows : list row)
    (complex_ids trade_types : list str) :
  returns (summaries clock results rows complex_ids trade_types) ↔
  ∀ complex_id trade_type,
    complex_id ∈ complex_ids → trade_type ∈ trade_types →
    returns (summary_of clock results rows complex_id trade_type).
Proof.
  split.
  - intros [ss Hss] complex_id trade_type Hc Ht.
    apply summaries_Ok in Hss as (sss & Hsss & _).
    induction Hsss as [|c ss' rest sss' Hss' _ IH];
      [by apply elem_of_nil in Hc|].
    apply elem_of_cons in Hc as [->|Hc]; [|by apply IH].
    eapply summaries_of_complex_returns; [by exists ss' | done].
  - intros Hall.
    destruct (summaries clock results rows complex_ids trade_types)
      as [ss|e] eqn:Hss; [by exists ss|].
    apply summaries_raises in Hss as (c & t & Hc & Ht & Hraise).
    destruct (Hall c t Hc Ht) as [s Hs]. congruence.
Qed.

Lemma y_prices_Ok_each (yesterday_rows : list row) (prices : list Z)
    (r : row) :
  y_prices yesterday_rows = Ok prices → r ∈ yesterday_rows →
  returns (y_price r).
Proof.
  revert prices. induction yesterday_rows as [|r' rows IH]; intros prices;
    simpl; [by intros _ Hin; apply elem_of_nil in Hin|].
  intros Hps Hin. apply bind_Ok in Hps as (p & Hp & Hps).
  apply bind_Ok in Hps as (ps & Hrows & _).
  apply elem_of_cons in Hin as [->|Hin]; [by exists p | by eapply IH].
Qed.

(** X6.  Step 3 of [run] ends with the list of summaries exactly when the
    summary of every configured complex and trade type can be computed,
    and otherwise raises what one of these calls raises: one pair whose
    call raises loses the summaries of all the others.  A row of
    yesterday's tab whose price cell [isdigit] accepts and [int] rejects,
    for a configured complex and trade type, has this effect. *)
Theorem summaries_all_or_nothing (clock : str)
    (results : gmap (list N) (list Listing.t)) (rows : list row)
    (complex_ids trade_types : list str) :
  (returns (summaries clock results rows complex_ids trade_types) ↔
   ∀ complex_id trade_type,
     complex_id ∈ complex_ids → trade_type ∈ trade_types →
     returns (summary_of clock results rows complex_id trade_type))
  ∧ (∀ e, summaries clock results rows complex_ids trade_types = Raise e →
       ∃ complex_id trade_type,
         complex_id ∈ complex_ids ∧ trade_type ∈ trade_types
         ∧ summary_of clock results rows complex_id trade_type = Raise e)
  ∧ (∀ r price,
       r ∈ rows →
       py_str (dict_get r (py "complex_id") VNone) ∈ complex_ids →
       (∃ trade_type, trade_type ∈ trade_types
          ∧ r !! py "trade_type" = Some (VStr trade_type)) →
       r !! py "price" = Some (VStr price) →
       isdigit price = true → py_int price = Raise ValueError →
       ∃ e, summaries clock results rows complex_ids trade_types = Raise e).
Proof.
  split_and!; [apply summaries_returns | apply summaries_raises |].
  intros r price Hin Hc (trade_type & Ht & Htype) Hprice Hdigit Hint.
  destruct (summaries clock results rows complex_ids trade_types)
    as [ss|e] eqn:Hss; [exfalso | by exists e].
  assert (Hret : returns (summaries clock results rows complex_ids
                            trade_types)) by (by exists ss).
  apply summaries_returns
    with (complex_id := py_str (dict_get r (py "complex_id") VNone))
         (trade_type := trade_type) in Hret as [s Hs]; [|done..].
  apply compute_summary_Ok in Hs as (yps & _ & _ & Hyps & _).
  assert (Hsel : r ∈ rows_of rows (py_str (dict_get r (py "complex_id") VNone))
                   trade_type).
  { unfold rows_of. apply list_elem_of_In, filter_In.
    split; [by apply list_elem_of_In|].
    unfold str_eqb, dict_get. rewrite Htype. simpl. unfold str_eqb.
    by rewrite !bool_decide_eq_true_2. }
  destruct (y_prices_Ok_each _ _ _ Hyps Hsel) as [p Hp].
  rewrite (y_price_str r price Hprice), Hdigit, Hint in Hp. done.
Qed.

Lemma summaries_all_or_nothing_witness :
  ∃ e,
    summaries (py "2024-05-02") {[ py "8928" := example_today ]}
      [ <[ py "complex_id" := VInt 8928 ]>
          (<[ py "trade_type" := VStr (py "B1") ]>
             (example_row (VInt 7) (VStr (py "²")))) ]
      [py "8928"] [py "A1"; py "B1"] = Raise e.
Proof.
  destruct (summaries_all_or_nothing (py "2024-05-02")
              {[ py "8928" := example_today ]}
              [ <[ py "complex_id" := VInt 8928 ]>
                  (<[ py "trade_type" := VStr (py "B1") ]>
                     (example_row (VInt 7) (VStr (py "²")))) ]
              [py "8928"] [py "A1"; py "B1"]) as (_ & _ & Hbad).
  eapply Hbad with (price := py "²").
  - apply elem_of_cons. left. reflexivity.
  - apply elem_of_cons. left. reflexivity.
  - exists (py "B1"). split; [|reflexivity].
    apply elem_of_cons. right. by apply elem_of_cons; left.
  - reflexivity.
  - reflexivity.
  - reflexivity.
Defined.

Lemma sum_app (l k : list Z) : sum (l ++ k) = sum l + sum k.
Proof.
  induction l as [|x l IH]; [done|].
  change ((x :: l) ++ k) with (x :: (l ++ k)). rewrite !sum_cons, IH. lia.
Qed.

Lemma filter_length_split {A} (p q r : A → bool) (l : list A) :
  (∀ x, r x = p x || q x) → (∀ x, p x && q x = false) →
  len (List.filter p l) + len (List.filter q l) = len (List.filter r l).
Proof.
  intros Hr Hpq. unfold len.
  induction l as [|x l IH]; [done|]. simpl.
  rewrite Hr. specialize (Hpq x).
  destruct (p x), (q x); simpl in *; try done; lia.
Qed.

Lemma type_listings_partition (complex_listings : list Listing.t)
    (trade_types : list str) :
  NoDup trade_types →
  sum (map (λ trade_type, len (type_listings complex_listings trade_type))
         trade_types)
  = len (configured trade_types complex_listings).
Proof.
  induction 1 as [|trade_type rest Hnew _ IH]; simpl.
  - unfold configured, len.
    induction complex_listings as [|l ls IHl]; [done|]. simpl.
    destruct (bool_decide_reflect (Listing.trade_type l ∈ [])) as [Hin|_];
      [by apply elem_of_nil in Hin | done].
  - rewrite sum_cons, IH. apply filter_length_split.
    + intros l. unfold str_eqb.
      destruct (bool_decide_reflect (Listing.trade_type l = trade_type))
        as [Heq|Hne]; simpl.
      * apply bool_decide_eq_true_2, elem_of_cons. by left.
      * apply bool_decide_ext. rewrite elem_of_cons. tauto.
    + intros l. unfold str_eqb.
      destruct (bool_decide_reflect (Listing.trade_type l = trade_type))
        as [Heq|Hne]; simpl; [|done].
      apply bool_decide_eq_false_2. by rewrite Heq.
Qed.

Lemma summaries_of_complex_totals (clock : str)
    (results : gmap (list N) (list Listing.t)) (rows : list row)
    (complex_id : str) (trade_types : list str)
    (ss : list ComplexSummary.t) :
  summaries_of_complex clock results rows complex_id trade_types = Ok ss →
  map ComplexSummary.total_listings ss
  = map (λ trade_type,
           len (type_listings (default [] (results !! complex_id))
                  trade_type)) trade_types.
Proof.
  rewrite summaries_of_complex_Ok.
  induction 1 as [|trade_type s rest ss Hs _ IH]; [done|]. simpl.
  rewrite IH. f_equal.
  apply compute_summary_Ok in Hs as (? & ? & _ & _ & _ & _ & _ & _ & Hn & _).
  done.
Qed.

(** X7.  The summaries of a run split the scraped listings by trade type.
    When the configured trade types are pairwise different, the
    total_listings of all the summaries add up to the number of scraped
    listings, of the configured complexes, whose trade type is a configured
    one: such a listing is counted in exactly one summary, and a listing
    of another trade type, or filed under a complex that is not
    configured, in none. *)
Theorem summaries_partition_listings (clock : str)
    (results : gmap (list N) (list Listing.t)) (rows : list row)
    (complex_ids trade_types : list str) (ss : list ComplexSummary.t) :
  NoDup trade_types →
  summaries clock results rows complex_ids trade_types = Ok ss →
  sum (map ComplexSummary.total_listings ss)
  = sum (map (λ complex_id,
                len (configured trade_types
                       (default [] (results !! complex_id))))
           complex_ids).
Proof.
  intros Hdup Hss. apply summaries_Ok in Hss as (sss & Hsss & ->).
  induction Hsss as [|complex_id ss' rest sss Hss' _ IH]; [done|]. simpl.
  rewrite map_app, sum_app, sum_cons, IH. f_equal.
  rewrite (summaries_of_complex_totals _ _ _ _ _ _ Hss').
  by apply type_listings_partition.
Qed.

Lemma summaries_partition_listings_witness :
  ∃ ss,
    summaries (py "2024-05-02") {[ py "8928" := example_today ]}
      example_yesterday [py "8928"; py "111"] [py "A1"; py "B1"] = Ok ss
    ∧ sum (map ComplexSummary.total_listings ss) = 2.
Proof.
  destruct (summaries (py "2024-05-02") {[ py "8928" := example_today ]}
              example_yesterday [py "8928"; py "111"] [py "A1"; py "B1"])
    as [ss|e] eqn:Hss; [|by vm_compute in Hss].
  exists ss. split; [done|].
  assert (Hdup : NoDup [py "A1"; py "B1"]).
  { apply NoDup_cons. split; [|apply NoDup_singleton].
    intros Hin. apply list_elem_of_singleton in Hin. by vm_compute in Hin. }
  rewrite (summaries_partition_listings _ _ _ _ _ _ Hdup Hss).
  reflexivity.
Defined.

(* ===================================================================== *)
(** * Properties of the worksheet rows *)
(* ===================================================================== *)

Lemma written_cells (l : Listing.t) :
  written l !! py "listing_id" = Some (VStr (Listing.listing_id l))
  ∧ written l !! py "complex_id" = Some (VStr (Listing.complex_id l))
  ∧ written l !! py "trade_type" = Some (VStr (Listing.trade_type l))
  ∧ written l !! py "date" = Some (VStr (Listing.date l))
  ∧ written l !! py "price" = Some (VInt (Listing.price l))
  ∧ written l !! py "monthly_rent" = Some (VInt (Listing.monthly_rent l))
  ∧ written l !! py "area_m2" = Some (VFloat (Listing.area_m2 l))
  ∧ written l !! py "floor" = Some (VInt (Listing.floor l))
  ∧ written l !! py "total_floors" = Some (VInt (Listing.total_floors l))
  ∧ written l !! py "direction" = Some (VStr (Listing.direction l))
  ∧ written l !! py "article_name" = Some (VStr (Listing.article_name l))
  ∧ written l !! py "agent_name" = Some (VStr (Listing.agent_name l))
  ∧ written l !! py "confirmed_type"
    = Some (VStr (Listing.confirmed_type l))
  ∧ written l !! py "description" = Some (VStr (Listing.description l))
  ∧ written l !! py "tags" = Some (VStr (Listing.tags l)).
Proof. split_and!; vm_compute; reflexivity. Qed.

Lemma written_records (l : Listing.t) :
  Listing.listing_id l ≠ [] → records (written l) l.
Proof.
  intros Hid.
  destruct (written_cells l) as (Hl & Hc & Ht & _ & Hp & _).
  split_and!; [|by eexists|done|done].
  eexists. split; [exact Hl|]. split; [|done].
  simpl. by destruct (Listing.listing_id l).
Qed.

Lemma written_all_records (ys : list Listing.t) :
  Forall (λ l, Listing.listing_id l ≠ []) ys →
  Forall2 records (map written ys) ys.
Proof.
  induction 1 as [|l ys Hl _ IH]; simpl; constructor;
    [by apply written_records | done].
Qed.

(** X9.  The header row and the row of a listing line up: the two lists
    have the same length, no header occurs twice, and read under the
    headers every field of the listing stands in the column of its own
    name.  Such a row of a listing with an id holds what the summary of
    the next day reads of it. *)
Theorem listing_row_under_headers (l : Listing.t) :
  length (_listing_to_row l) = length _HEADERS
  ∧ NoDup _HEADERS
  ∧ (keyed _HEADERS (_listing_to_row l)) !! py "listing_id"
    = Some (VStr (Listing.listing_id l))
  ∧ (keyed _HEADERS (_listing_to_row l)) !! py "complex_id"
    = Some (VStr (Listing.complex_id l))
  ∧ (keyed _HEADERS (_listing_to_row l)) !! py "trade_type"
    = Some (VStr (Listing.trade_type l))
  ∧ (keyed _HEADERS (_listing_to_row l)) !! py "date"
    = Some (VStr (Listing.date l))
  ∧ (keyed _HEADERS (_listing_to_row l)) !! py "price"
    = Some (VInt (Listing.price l))
  ∧ (keyed _HEADERS (_listing_to_row l)) !! py "monthly_rent"
    = Some (VInt (Listing.monthly_rent l))
  ∧ (keyed _HEADERS (_listing_to_row l)) !! py "area_m2"
    = Some (VFloat (Listing.area_m2 l))
  ∧ (keyed _HEADERS (_listing_to_row l)) !! py "floor"
    = Some (VInt (Listing.floor l))
  ∧ (keyed _HEADERS (_listing_to_row l)) !! py "total_floors"
    = Some (VInt (Listing.total_floors l))
  ∧ (keyed _HEADERS (_listing_to_row l)) !! py "direction"
    = Some (VStr (Listing.direction l))
  ∧ (keyed _HEADERS (_listing_to_row l)) !! py "article_name"
    = Some (VStr (Listing.article_name l))
  ∧ (keyed _HEADERS (_listing_to_row l)) !! py "agent_name"
    = Some (VStr (Listing.agent_name l))
  ∧ (keyed _HEADERS (_listing_to_row l)) !! py "confirmed_type"
    = Some (VStr (Listing.confirmed_type l))
  ∧ (keyed _HEADERS (_listing_to_row l)) !! py "description"
    = Some (VStr (Listing.description l))
  ∧ (keyed _HEADERS (_listing_to_row l)) !! py "tags"
    = Some (VStr (Listing.tags l))
  ∧ (Listing.listing_id l ≠ [] →
     records (keyed _HEADERS (_listing_to_row l)) l).
Proof.
  split; [reflexivity|].
  split; [apply (bool_decide_unpack _); by vm_compute|].
  pose proof (written_records l) as Hrec. unfold written in Hrec.
  split_and!; [vm_compute; reflexivity.. | exact Hrec].
Qed.

Lemma listing_row_under_headers_witness :
  records (keyed _HEADERS (_listing_to_row (example_listing (py "1") 100)))
    (example_listing (py "1") 100).
Proof.
  destruct (listing_row_under_headers (example_listing (py "1") 100))
    as (_ & _ & _ & _ & _ & _ & _ & _ & _ & _ & _ & _ & _ & _ & _ & _ & _
        & Hrec).
  apply Hrec. by vm_compute.
Defined.

(* ===================================================================== *)
(** * Properties of a run: today's listings against yesterday's tab *)
(* ===================================================================== *)

Lemma float_sub_self (x : float) :
  nonneg_float x → is_infinity x = false → float_sub x x = float_zero.
Proof.
  destruct x as [[]|[]| |[] m e]; try done. intros _ _.
  unfold float_sub, SFsub. cbn [cond_Zopp negb].
  by rewrite Z.sub_diag.
Qed.

Lemma pct_of_zero (y_avg : float) :
  nonneg_float y_avg → pct_of float_zero y_avg = float_zero.
Proof.
  unfold pct_of. destruct (float_bool y_avg) eqn:Hy; [|done].
  by destruct y_avg as [[]|[]| |[] m e].
Qed.

Lemma records_ids (rows : list row) (ys : list Listing.t) :
  Forall2 records rows ys → yesterday_ids rows = today_ids ys.
Proof.
  rewrite yesterday_ids_filter. unfold today_ids.
  induction 1 as [|r l rows ys Hr _ IH]; [done|].
  destruct Hr as ((v & Hv & Htrue & Hid) & _).
  assert (Hhas : has_id r = true) by (unfold has_id, dict_get; by rewrite Hv).
  assert (Hof : id_of r = Listing.listing_id l)
    by (unfold id_of, dict_get; by rewrite Hv).
  simpl. rewrite Hhas. simpl. by rewrite Hof, IH.
Qed.

Lemma records_prices (rows : list row) (ys : list Listing.t) :
  Forall2 records rows ys → y_prices rows = Ok (today_prices ys).
Proof.
  unfold today_prices.
  induction 1 as [|r l rows ys Hr _ IH]; [done|].
  destruct Hr as (_ & _ & _ & Hprice).
  simpl. rewrite (y_price_int r _ Hprice), IH. simpl.
  by destruct (0 <? Listing.price l).
Qed.

Lemma records_rows_of (rows : list row) (ys : list Listing.t)
    (complex_id trade_type : str) :
  Forall2 records rows ys →
  Forall2 records (rows_of rows complex_id trade_type)
    (List.filter (of_pair complex_id trade_type) ys).
Proof.
  unfold rows_of.
  induction 1 as [|r l rows ys Hr _ IH]; [constructor|].
  pose proof Hr as (_ & (v & Hv & Hc) & Ht & _).
  simpl. unfold dict_get at 1 2. rewrite Hv, Ht, Hc. unfold eq_str, of_pair.
  destruct (str_eqb (Listing.complex_id l) complex_id
            && str_eqb (Listing.trade_type l) trade_type);
    [by constructor | done].
Qed.

(** X8.  Yesterday's tab against today's scrape.  When the rows of
    yesterday's tab hold the listings [ys] of the day before, one row for
    each, with listing id, complex, trade type and price, the summary of a
    complex and trade type compares today's listings of that pair with
    yesterday's listings of the same pair and no others: new and removed
    are the sizes of the two differences of their sets of ids, and the two
    changes are the differences of their average and lowest positive
    price. *)
Theorem summary_against_previous_day (clock : str)
    (results : gmap (list N) (list Listing.t)) (rows : list row)
    (ys : list Listing.t) (complex_id trade_type : str)
    (avg y_avg : float) :
  let today := type_listings (default [] (results !! complex_id)) trade_type in
  let previous := List.filter (of_pair complex_id trade_type) ys in
  Forall2 records rows ys →
  average (today_prices today) = Ok avg →
  average (today_prices previous) = Ok y_avg →
  ∃ s,
    summary_of clock results rows complex_id trade_type = Ok s
    ∧ ComplexSummary.total_listings s = len today
    ∧ ComplexSummary.new_listings s
      = Z.of_nat (size (today_ids today ∖ today_ids previous))
    ∧ ComplexSummary.removed_listings s
      = Z.of_nat (size (today_ids previous ∖ today_ids today))
    ∧ ComplexSummary.avg_price s = avg
    ∧ ComplexSummary.avg_price_change s = float_sub avg y_avg
    ∧ ComplexSummary.avg_price_change_pct s
      = round1 (pct_of (float_sub avg y_avg) y_avg)
    ∧ ComplexSummary.min_price_change s
      = least (today_prices today) - least (today_prices previous).
Proof.
  intros today previous Hrec Havg Hyavg.
  pose proof (records_rows_of _ _ complex_id trade_type Hrec) as Hsel.
  fold previous in Hsel.
  unfold summary_of. fold today.
  rewrite compute_summary_steps, (records_prices _ _ Hsel),
    (records_ids _ _ Hsel), Havg.
  simpl. rewrite Hyavg. simpl. eexists. split; [reflexivity|].
  simpl. by split_and!.
Qed.

Lemma summary_against_previous_day_witness :
  ∃ s,
    summary_of (py "2024-05-02") {[ py "8928" := example_today ]}
      (map written [example_listing (py "2") 150;
                    example_listing (py "3") 300])
      (py "8928") (py "A1") = Ok s
    ∧ ComplexSummary.new_listings s = 1
    ∧ ComplexSummary.removed_listings s = 1
    ∧ ComplexSummary.min_price_change s = -50.
Proof.
  destruct (average (today_prices (type_listings
              (default [] (({[ py "8928" := example_today ]}
                            : gmap (list N) (list Listing.t)) !! py "8928"))
              (py "A1")))) as [avg|e] eqn:Havg; [|by vm_compute in Havg].
  destruct (average (today_prices (List.filter (of_pair (py "8928") (py "A1"))
              [example_listing (py "2") 150; example_listing (py "3") 300])))
    as [y_avg|e] eqn:Hyavg; [|by vm_compute in Hyavg].
  destruct (summary_against_previous_day (py "2024-05-02")
              {[ py "8928" := example_today ]}
              (map written [example_listing (py "2") 150;
                            example_listing (py "3") 300])
              [example_listing (py "2") 150; example_listing (py "3") 300]
              (py "8928") (py "A1") avg y_avg)
    as (s & Hs & _ & Hnew & Hrem & _ & _ & _ & Hmin);
    [apply written_all_records; repeat constructor; by vm_compute
    | exact Havg | exact Hyavg |].
  exists s. split; [exact Hs|].
  split_and!; [rewrite Hnew | rewrite Hrem | rewrite Hmin]; by vm_compute.
Defined.

(** X10.  A day like the day before.  When the rows of yesterday's tab
    hold, for a complex and trade type, exactly the listings scraped
    today, the summary reports no new and no removed listing and every
    change as zero, also when no listing has a valid price. *)
Theorem unchanged_day_no_change (clock : str)
    (results : gmap (list N) (list Listing.t)) (rows : list row)
    (ys : list Listing.t) (complex_id trade_type : str) (avg : float) :
  let today := type_listings (default [] (results !! complex_id)) trade_type in
  Forall2 records rows ys →
  List.filter (of_pair complex_id trade_type) ys = today →
  average (today_prices today) = Ok avg →
  ∃ s,
    summary_of clock results rows complex_id trade_type = Ok s
    ∧ ComplexSummary.new_listings s = 0
    ∧ ComplexSummary.removed_listings s = 0
    ∧ ComplexSummary.avg_price_change s = float_zero
    ∧ ComplexSummary.avg_price_change_pct s = float_zero
    ∧ ComplexSummary.min_price_change s = 0.
Proof.
  intros today Hrec Hsame Havg.
  pose proof (records_rows_of _ _ complex_id trade_type Hrec) as Hsel.
  rewrite Hsame in Hsel.
  assert (Hnn : nonneg_float avg)
    by (eapply average_nonneg; [apply today_prices_positive | done]).
  assert (Hfin : is_infinity avg = false)
    by (by eapply average_not_infinity).
  unfold summary_of. fold today.
  rewrite compute_summary_steps, (records_prices _ _ Hsel),
    (records_ids _ _ Hsel), Havg.
  simpl. rewrite Havg. simpl. eexists. split; [reflexivity|]. simpl.
  rewrite (float_sub_self _ Hnn Hfin), (pct_of_zero _ Hnn), round1_zero.
  replace (today_ids today ∖ today_ids today) with (∅ : gset (list N)).
  - split_and!; try done. lia.
  - apply set_eq. intros x. rewrite elem_of_difference, elem_of_empty. tauto.
Qed.

Lemma unchanged_day_no_change_witness :
  ∃ s,
    summary_of (py "2024-05-02") {[ py "8928" := example_today ]}
      (map written example_today) (py "8928") (py "A1") = Ok s
    ∧ ComplexSummary.new_listings s = 0
    ∧ ComplexSummary.removed_listings s = 0
    ∧ ComplexSummary.avg_price_change s = float_zero
    ∧ ComplexSummary.min_price_change s = 0.
Proof.
  destruct (average (today_prices (type_listings
              (default [] (({[ py "8928" := example_today ]}
                            : gmap (list N) (list Listing.t)) !! py "8928"))
              (py "A1")))) as [avg|e] eqn:Havg; [|by vm_compute in Havg].
  destruct (unchanged_day_no_change (py "2024-05-02")
              {[ py "8928" := example_today ]}
              (map written example_today) example_today
              (py "8928") (py "A1") avg)
    as (s & Hs & Hnew & Hrem & Hchange & _ & Hmin);
    [apply written_all_records; repeat constructor; by vm_compute
    | by vm_compute | exact Havg |].
  exists s. by split_and!.
Defined.

(* ===================================================================== *)
(** * Properties of [parse_article] *)
(* ===================================================================== *)

Lemma float_repr_nonempty (x : float) : float_repr x ≠ [].
Proof.
  destruct x as [[]|[]| |s m e]; try done.
  unfold float_repr.
  destruct (shortest_from _ _ _ _ _ _) as [c q].
  destruct (strip_zeros _ _ _) as [c' q'].
  intros Hnil%app_eq_nil. destruct Hnil as [_ Hnil].
  destruct (format_repr_mark (str_of_int c')
              (Z.of_nat (length (str_of_int c')) + q')) as [Hm|Hm];
    rewrite Hnil in Hm; by apply elem_of_nil in Hm.
Qed.

Lemma py_str_empty (v : pyval) : py_str v = [] ↔ v = VStr [].
Proof.
  split; [|by intros ->].
  destruct v as [|[]|z|x|s]; simpl; try done.
  - intros Hz. by destruct (str_of_int_chars z) as [_ Hne].
  - intros Hx. by apply float_repr_nonempty in Hx.
  - by intros ->.
Qed.

Lemma py_float_raises (s : str) (e : exn) :
  py_float s = Raise e → e = ValueError.
Proof.
  unfold py_float.
  destruct (if contains underscore s then _ else _) as [t|]; [|congruence].
  destruct (match strtod _ with Some r => Some r | None => _ end)
    as [[x [|c rest]]|]; congruence.
Qed.

Lemma try_py_float (s : str) :
  try_except_ValueError (py_float s) (Ok float_zero) = Ok (float_or_zero s).
Proof.
  unfold float_or_zero. destruct (py_float s) as [x|e] eqn:Hs; [done|].
  by rewrite (py_float_raises _ _ Hs).
Qed.

Lemma try_py_int (s : str) :
  try_except_ValueError (py_int s) (Ok 0) = Ok (int_or_zero s).
Proof.
  unfold int_or_zero. destruct (py_int s) as [x|e] eqn:Hs; [done|].
  by rewrite (py_int_raises _ _ Hs).
Qed.

Lemma split_on_cons (sep : char) (s : str) :
  ∃ seg segs, split_on sep s = seg :: segs.
Proof.
  destruct s as [|c t]; simpl; [by eexists _, _|].
  destruct (c =? sep)%N; [by eexists _, _|].
  destruct (split_on sep t); by eexists _, _.
Qed.

Lemma join_Ok (sep : char) (items : list pyval) :
  returns (join sep items) ↔ Forall (λ v, is_text v = true) items.
Proof.
  induction items as [|v rest IH]; simpl.
  - split; [constructor | by eexists].
  - destruct v as [| | | |s]; try (split; [by intros [? ?] | by inversion 1]).
    destruct rest as [|v' rest'].
    + split; [by repeat constructor | by eexists].
    + split.
      * intros [t Ht]. constructor; [done|]. apply IH.
        destruct (join sep (v' :: rest')) as [t'|e]; [by eexists | done].
      * inversion 1 as [|? ? _ Hrest]; subst. apply IH in Hrest as [t ->].
        by eexists.
Qed.

Lemma join_raises (sep : char) (items : list pyval) :
  ¬ returns (join sep items) ↔ ∃ v, v ∈ items ∧ is_text v = false.
Proof.
  rewrite join_Ok. split.
  - intros Hnot. apply not_Forall_Exists in Hnot; [|intros v; apply _].
    apply Exists_exists in Hnot as (v & Hin & Hv).
    exists v. split; [done|]. by apply not_true_is_false.
  - intros (v & Hin & Hv) Hall. rewrite Forall_forall in Hall.
    specialize (Hall v Hin). congruence.
Qed.

(** The floors of an article. *)
Lemma floors_of_parts (parts : list str) (seg : str) (segs : list str) :
  parts = seg :: segs →
  try_except_ValueError (part ← index parts 0; py_int (strip part)) (Ok 0)
    = Ok (int_or_zero (strip seg))
  ∧ try_except_ValueError
      (if 1 <? len parts
       then part ← index parts 1; py_int (strip part)
       else Ok 0) (Ok 0)
    = Ok (match segs with
          | second :: _ => int_or_zero (strip second)
          | [] => 0
          end).
Proof.
  intros ->. split; [apply try_py_int|].
  destruct segs as [|second rest]; [done|].
  replace (1 <? len (seg :: second :: rest)) with true
    by (symmetry; apply Z.ltb_lt; unfold len; simpl length; lia).
  apply try_py_int.
Qed.

Lemma parse_article_body_steps (article : Article.t)
    (complex_id today trade_type : str) :
  parse_article_body article complex_id today trade_type =
    if is_empty (id_text article) then Ok None
    else
      p ← _parse_price_field (price_text article) trade_type;
      tags_str ← match default (TagList []) (Article.tagList article) with
                 | TagList l => join comma l
                 | TagValue v => Ok (py_str v)
                 end;
      Ok (Some {| Listing.listing_id := id_text article;
                  Listing.complex_id := complex_id;
                  Listing.trade_type := trade_type;
                  Listing.date := today;
                  Listing.price := p.1;
                  Listing.monthly_rent := p.2;
                  Listing.area_m2 := float_or_zero (area_text article);
                  Listing.floor :=
                    int_or_zero
                      (strip (default [] (floor_parts article !! 0%nat)));
                  Listing.total_floors :=
                    match floor_parts article !! 1%nat with
                    | Some second => int_or_zero (strip second)
                    | None => 0
                    end;
                  Listing.direction :=
                    default [] (Article.direction article);
                  Listing.article_name :=
                    default [] (Article.articleName article);
                  Listing.agent_name :=
                    default [] (Article.realtorName article);
                  Listing.confirmed_type :=
                    default [] (Article.articleConfirmYmd article);
                  Listing.description :=
                    default [] (Article.articleFeatureDesc article);
                  Listing.tags := tags_str |}).
Proof.
  unfold parse_article_body. fold (id_text article).
  destruct (is_empty (id_text article)); [done|].
  fold (price_text article).
  destruct (_parse_price_field (price_text article) trade_type)
    as [[price monthly]|e]; [|done].
  cbn [mbind result_bind]. fold (area_text article).
  rewrite try_py_float. cbn [mbind result_bind]. fold (floor_parts article).
  destruct (split_on_cons slash
              (py_str (default (VStr (py "0/0")) (Article.floorInfo article))))
    as (seg & segs & Hparts).
  fold (floor_parts article) in Hparts.
  destruct (floors_of_parts _ _ _ Hparts) as [-> ->].
  cbn [mbind result_bind]. rewrite Hparts.
  destruct (default (TagList []) (Article.tagList article)) as [l|v].
  - destruct (join comma l) as [t|e]; [|done]. cbn [mbind result_bind].
    by destruct segs.
  - cbn [mbind result_bind]. by destruct segs.
Qed.

Lemma _parse_price_field_no_marker (raw trade_type : str) :
  eok ∉ raw → returns (_parse_price_field raw trade_type).
Proof.
  intros Hmarker.
  destruct (decide (trade_type = B2 ∧ slash ∈ raw)) as [[-> Hslash]|Hcase].
  - apply (strip_elem_of _ _ isspace_slash) in Hslash.
    apply list_elem_of_split_l in Hslash as (before & after & Hraw & Hb).
    assert (Hsub : ∀ c, c ∈ before ∨ c ∈ after → c ∈ raw).
    { intros c Hc. apply strip_subseteq.
      rewrite Hraw, elem_of_app, elem_of_cons. tauto. }
    rewrite (_parse_price_field_monthly _ _ _ Hraw Hb).
    rewrite !_parse_korean_price_plain by (intros Hin; apply Hmarker; auto).
    by eexists.
  - rewrite _parse_price_field_single by (apply not_and_l in Hcase; tauto).
    rewrite _parse_korean_price_plain
      by (intros Hin; by apply strip_subseteq in Hin).
    by eexists.
Qed.

Lemma parse_article_None (article : Article.t)
    (complex_id today trade_type : str) :
  parse_article article complex_id today trade_type = None ↔
  id_text article = []
  ∨ ¬ returns (_parse_price_field (price_text article) trade_type)
  ∨ bad_tags article.
Proof.
  unfold parse_article. rewrite parse_article_body_steps.
  destruct (id_text article) as [|c id] eqn:Hid; [by split; auto|].
  cbn [is_empty].
  destruct (_parse_price_field (price_text article) trade_type)
    as [p|e] eqn:Hprice; cbn [mbind result_bind]; cycle 1.
  { split; [|done]. intros _. right. left. by intros [? ?]. }
  unfold bad_tags.
  destruct (Article.tagList article) as [[l|v]|] eqn:Htags;
    cbn [default from_option Datatypes.id].
  - destruct (join comma l) as [t|e] eqn:Hjoin; cbn [mbind result_bind].
    + split; [done|]. intros [?|[Hnot|(l' & [= <-] & Hbad)]]; [done|..].
      * destruct Hnot. by eexists.
      * apply (join_raises comma) in Hbad. destruct Hbad. rewrite Hjoin.
        by eexists.
    + split; [|done]. intros _. right. right. exists l. split; [done|].
      apply (join_raises comma). rewrite Hjoin. by intros [? ?].
  - cbn [mbind result_bind]. split; [done|].
    intros [?|[Hnot|(l' & [=] & _)]]; [done|]. destruct Hnot. by eexists.
  - cbn [join mbind result_bind]. split; [done|].
    intros [?|[Hnot|(l' & [=] & _)]]; [done|]. destruct Hnot. by eexists.
Qed.

Lemma parse_article_Some (article : Article.t)
    (complex_id today trade_type : str) (l : Listing.t) :
  parse_article article complex_id today trade_type = Some l →
  Listing.listing_id l = id_text article
  ∧ Listing.listing_id l ≠ []
  ∧ Listing.complex_id l = complex_id
  ∧ Listing.trade_type l = trade_type
  ∧ Listing.date l = today
  ∧ _parse_price_field (price_text article) trade_type
    = Ok (Listing.price l, Listing.monthly_rent l)
  ∧ Listing.area_m2 l = float_or_zero (area_text article)
  ∧ Listing.floor l
    = int_or_zero (strip (default [] (floor_parts article !! 0%nat)))
  ∧ Listing.total_floors l
    = match floor_parts article !! 1%nat with
      | Some second => int_or_zero (strip second)
      | None => 0
      end.
Proof.
  unfold parse_article. rewrite parse_article_body_steps.
  destruct (id_text article) as [|c id] eqn:Hid; [done|]. cbn [is_empty].
  destruct (_parse_price_field (price_text article) trade_type)
    as [[price monthly]|e]; [|done]. cbn [mbind result_bind].
  destruct (match default (TagList []) (Article.tagList article) with
            | TagList l0 => join comma l0
            | TagValue v => Ok (py_str v)
            end) as [t|e]; [|done].
  cbn [mbind result_bind]. intros [= <-]. simpl. by split_and!.
Qed.

(** X13.  Which articles [parse_article] drops, and what it keeps of the
    others.  An article gives no listing exactly when it has no
    [articleNo] or an empty one, or its price text makes
    [_parse_price_field] raise, or its tag list has an element that is not
    a text; an area or a floor that cannot be read never drops it, and
    neither does a price text without the large-unit marker.  The listing
    of any other article has the text of [articleNo] as its id, which is
    not empty, the complex, trade type and date it was called with, the
    price and rent that [_parse_price_field] gives, and 0 for an area or
    a floor that cannot be read. *)
Theorem parse_article_keeps_or_drops (article : Article.t)
    (complex_id today trade_type : str) :
  (parse_article article complex_id today trade_type = None ↔
   (Article.articleNo article = None
    ∨ Article.articleNo article = Some (VStr []))
   ∨ ¬ returns (_parse_price_field (price_text article) trade_type)
   ∨ bad_tags article)
  ∧ (id_text article ≠ [] → eok ∉ price_text article →
     ¬ bad_tags article →
     is_Some (parse_article article complex_id today trade_type))
  ∧ (∀ l, parse_article article complex_id today trade_type = Some l →
       Listing.listing_id l = id_text article
       ∧ Listing.listing_id l ≠ []
       ∧ Listing.complex_id l = complex_id
       ∧ Listing.trade_type l = trade_type
       ∧ Listing.date l = today
       ∧ _parse_price_field (price_text article) trade_type
         = Ok (Listing.price l, Listing.monthly_rent l)
       ∧ Listing.area_m2 l = float_or_zero (area_text article)
       ∧ Listing.floor l
         = int_or_zero (strip (default [] (floor_parts article !! 0%nat)))
       ∧ Listing.total_floors l
         = match floor_parts article !! 1%nat with
           | Some second => int_or_zero (strip second)
           | None => 0
           end).
Proof.
  split_and!.
  - rewrite parse_article_None.
    assert (Hid : id_text article = [] ↔
              Article.articleNo article = None
              ∨ Article.articleNo article = Some (VStr [])).
    { unfold id_text. rewrite py_str_empty.
      destruct (Article.articleNo article) as [v|]; simpl.
      - split; [intros ->; auto | by intros [[=]|[= ->]]].
      - split; auto. }
    by rewrite Hid.
  - intros Hid Hprice Htags.
    destruct (parse_article article complex_id today trade_type) eqn:Hnone;
      [done|].
    apply parse_article_None in Hnone as [?|[Hnot|?]]; [done| |done].
    destruct Hnot. by apply _parse_price_field_no_marker.
  - apply parse_article_Some.
Qed.

Lemma parse_article_keeps_or_drops_witness :
  (∃ l, parse_article (example_article (VInt 2412345678) (py "9,500"))
          (py "8928") (py "2024-05-02") (py "A1") = Some l
        ∧ Listing.listing_id l = py "2412345678"
        ∧ Listing.price l = 9500
        ∧ Listing.floor l = 0 ∧ Listing.total_floors l = 15)
  ∧ parse_article (example_article (VInt 2412345678) (py "abc억"))
      (py "8928") (py "2024-05-02") (py "A1") = None.
Proof.
  split.
  - destruct (parse_article_keeps_or_drops
                (example_article (VInt 2412345678) (py "9,500"))
                (py "8928") (py "2024-05-02") (py "A1"))
      as (_ & Hkeep & Hfields).
    destruct Hkeep as [l Hl].
    + by vm_compute.
    + apply (bool_decide_unpack _). by vm_compute.
    + intros (tags & [= <-] & v & Hin & Hv).
      apply elem_of_cons in Hin as [->|Hin]; [done|].
      apply elem_of_cons in Hin as [->|Hin]; [done|].
      by apply elem_of_nil in Hin.
    + exists l. split; [exact Hl|].
      destruct (Hfields l Hl) as (-> & _ & _ & _ & _ & Hprice & _ & -> & ->).
      split; [reflexivity|].
      split; [|split; reflexivity].
      vm_compute in Hprice. by injection Hprice.
  - destruct (parse_article_keeps_or_drops
                (example_article (VInt 2412345678) (py "abc억"))
                (py "8928") (py "2024-05-02") (py "A1")) as (Hdrop & _).
    apply Hdrop. right. left. intros [p Hp]. by vm_compute in Hp.
Defined.

(* ===================================================================== *)
(** * Properties of [fetch_articles_page] *)
(* ===================================================================== *)

Lemma io_bind_eq {A B} (c : io A) (k : A → io B) (browser : nat → answer)
    (w : world) :
  (c ≫= k) browser w =
    match c browser w with
    | (Ok a, w') => k a browser w'
    | (Raise e, w') => (Raise e, w')
    end.
Proof. reflexivity. Qed.

Lemma seconds_of (attempt : Z) :
  attempt = 1 ∨ attempt = 2 ∨ attempt = 3 →
  float_mul_int two attempt = Ok (seconds (2 * attempt))
  ∧ float_mul_int four attempt = Ok (seconds (4 * attempt))
  ∧ float_mul_int five attempt = Ok (seconds (5 * attempt)).
Proof. intros [->|[->| ->]]; by vm_compute. Qed.

Lemma attempts_step (url : str) (attempt : Z) (rounds : nat)
    (browser : nat → answer) (w : world) :
  attempt = 1 ∨ attempt = 2 ∨ attempt = 3 →
  attempts url attempt (S rounds) browser w =
    let w1 := World (S (calls w)) (trace w ++ [Evaluate url]) in
    match browser (calls w) with
    | Throws =>
      if attempt =? 3 then (Ok Page.empty, w1)
      else
        attempts url (attempt + 1) rounds browser
          (World (calls w1)
             (trace w1 ++ [RandomSleep (Some (seconds (2 * attempt),
                                              seconds (4 * attempt)))]))
    | Answers data =>
      if eq_int (status_of data) 429
      then attempts url (attempt + 1) rounds browser
             (World (calls w1) (trace w1 ++ [Sleep (seconds (5 * attempt))]))
      else (settle data, w1)
    end.
Proof.
  intros Hattempt. destruct (seconds_of attempt Hattempt) as (H2 & H4 & H5).
  cbn [attempts]. rewrite io_bind_eq. unfold call at 1. cbv zeta.
  destruct (browser (calls w)) as [|data].
  - change _MAX_RETRIES with 3. destruct (attempt =? 3); [reflexivity|].
    rewrite !io_bind_eq. unfold lift at 1. rewrite H2.
    rewrite !io_bind_eq. unfold lift at 1. rewrite H4.
    rewrite !io_bind_eq. unfold emit at 1. reflexivity.
  - fold (status_of data). destruct (eq_int (status_of data) 429).
    + rewrite !io_bind_eq. unfold lift at 1. rewrite H5.
      rewrite !io_bind_eq. unfold emit at 1. reflexivity.
    + rewrite io_bind_eq. unfold lift, settle.
      destruct (if truthy (status_of data) then _ else _) as [[]|e];
        reflexivity.
Qed.

Lemma settle_raises (data : Page.t) (e : exn) :
  settle data = Raise e → e = TypeError.
Proof.
  unfold settle. destruct (truthy (status_of data)); [|done].
  destruct (status_of data) as [|b|z|x|s]; simpl; congruence.
Qed.

Lemma settle_Ok (data page : Page.t) :
  settle data = Ok page →
  page = Page.empty
  ∨ page = data
    ∧ (truthy (status_of data) = false
       ∨ ge_int (status_of data) 400 = Ok false).
Proof.
  unfold settle. destruct (truthy (status_of data)).
  - destruct (ge_int (status_of data) 400) as [[]|e]; simpl;
      intros [= <-]; auto.
  - simpl. intros [= <-]. auto.
Qed.

Lemma retried_false (a : answer) :
  retried a = false →
  ∃ data, a = Answers data ∧ eq_int (status_of data) 429 = false.
Proof. destruct a as [|data]; [done|]. intros Hr. by exists data. Qed.

(** The rounds of the loop stop at the first answer that is not retried,
    and give up when there is none. *)
Lemma attempts_spec (url : str) (rounds : nat) (browser : nat → answer)
    (w : world) :
  (rounds ≤ 3)%nat →
  let r := attempts url (4 - Z.of_nat rounds) rounds browser w in
  (∃ k data,
     (k < rounds)%nat
     ∧ (∀ j, (j < k)%nat → retried (browser (calls w + j)%nat) = true)
     ∧ browser (calls w + k)%nat = Answers data
     ∧ eq_int (status_of data) 429 = false
     ∧ r.1 = settle data ∧ calls r.2 = (calls w + k + 1)%nat)
  ∨ ((∀ j, (j < rounds)%nat → retried (browser (calls w + j)%nat) = true)
     ∧ r.1 = Ok Page.empty ∧ calls r.2 = (calls w + rounds)%nat).
Proof.
  revert w. induction rounds as [|rounds IH]; intros w Hle; cbv zeta.
  { right. split_and!; [lia | done | simpl; lia]. }
  rewrite attempts_step by lia. cbv zeta.
  assert (Hshift : ∀ t j, browser (calls (World (S (calls w)) t) + j)%nat
                          = browser (calls w + S j)%nat)
    by (intros t j; simpl; f_equal; lia).
  assert (Hnext : ∀ t,
    let r := attempts url (4 - Z.of_nat (S rounds) + 1) rounds browser
               (World (S (calls w)) t) in
    retried (browser (calls w)) = true →
    (∃ k data,
       (k < S rounds)%nat
       ∧ (∀ j, (j < k)%nat → retried (browser (calls w + j)%nat) = true)
       ∧ browser (calls w + k)%nat = Answers data
       ∧ eq_int (status_of data) 429 = false
       ∧ r.1 = settle data ∧ calls r.2 = (calls w + k + 1)%nat)
    ∨ ((∀ j, (j < S rounds)%nat →
             retried (browser (calls w + j)%nat) = true)
       ∧ r.1 = Ok Page.empty ∧ calls r.2 = (calls w + S rounds)%nat)).
  { intros t r Hfirst. subst r.
    replace (4 - Z.of_nat (S rounds) + 1) with (4 - Z.of_nat rounds) by lia.
    assert (Hall : ∀ k, (∀ j, (j < k)%nat →
                      retried (browser (calls (World (S (calls w)) t) + j)%nat)
                      = true) →
                    ∀ j, (j < S k)%nat →
                      retried (browser (calls w + j)%nat) = true).
    { intros k Hk [|j] Hj; [by rewrite Nat.add_0_r|].
      rewrite <- (Hshift t). apply Hk. lia. }
    destruct (IH (World (S (calls w)) t) ltac:(lia))
      as [(k & data & Hk & Hbefore & Hat & Hs & Hr & Hc)
         |(Hbefore & Hr & Hc)].
    - left. exists (S k), data. rewrite <- (Hshift t).
      split_and!; [lia | by apply Hall | done | done | done |].
      rewrite Hc. simpl. lia.
    - right. split_and!; [by apply Hall | done |]. rewrite Hc. simpl. lia. }
  destruct (browser (calls w)) as [|data] eqn:Hfirst.
  - destruct (Z.eqb_spec (4 - Z.of_nat (S rounds)) 3) as [Hlast|_].
    + right. assert (rounds = 0)%nat as -> by lia.
      split_and!; [|done|simpl; lia].
      intros j Hj. assert (j = 0)%nat as -> by lia.
      by rewrite Nat.add_0_r, Hfirst.
    + by apply Hnext.
  - destruct (eq_int (status_of data) 429) eqn:Hs.
    + by apply Hnext.
    + left. exists 0%nat, data. rewrite Nat.add_0_r.
      split_and!; [lia | intros j Hj; lia | done | done | done |].
      simpl. lia.
Qed.

(** X11.  [fetch_articles_page] asks the browser at least once and at
    most three times.  It goes on to the next attempt after an exception
    and after the status 429, and only then: the first answer with
    another status settles the call, which returns the answer as it is
    when the status is false or below 400, [{}] when it is 400 or more (no
    second attempt is made for such a status), and raises TypeError when
    the status cannot be compared with 400.  After three answers that are
    retried it returns [{}].  A page that is returned and is not [{}] is
    an answer of the browser. *)
Theorem fetch_articles_page_outcome (browser : nat → answer) (w : world)
    (complex_id trade_type : str) (page_num : Z) :
  let a k := browser (calls w + k)%nat in
  let r := fetch_articles_page complex_id trade_type page_num browser w in
  (∀ k data,
     (k < 3)%nat → (∀ j, (j < k)%nat → retried (a j) = true) →
     a k = Answers data → eq_int (status_of data) 429 = false →
     r.1 = settle data ∧ calls r.2 = (calls w + k + 1)%nat)
  ∧ ((∀ j, (j < 3)%nat → retried (a j) = true) →
     r.1 = Ok Page.empty ∧ calls r.2 = (calls w + 3)%nat)
  ∧ (calls w < calls r.2 ≤ calls w + 3)%nat
  ∧ (∀ e, r.1 = Raise e → e = TypeError)
  ∧ (∀ page, r.1 = Ok page → page ≠ Page.empty →
       ∃ k, (k < 3)%nat ∧ a k = Answers page
            ∧ eq_int (status_of page) 429 = false
            ∧ (truthy (status_of page) = false
               ∨ ge_int (status_of page) 400 = Ok false)).
Proof.
  intros a r.
  pose proof (attempts_spec (full_url complex_id trade_type page_num) 3
                browser w ltac:(lia)) as Hspec.
  cbv zeta in Hspec. change (4 - Z.of_nat 3) with 1 in Hspec.
  change (attempts _ 1 3 browser w) with r in Hspec.
  subst a. cbv beta.
  assert (Hsettled : ∀ k data, browser (calls w + k)%nat = Answers data →
            eq_int (status_of data) 429 = false →
            retried (browser (calls w + k)%nat) = false)
    by (intros k data Hk Hs; by rewrite Hk).
  split; [|split; [|split; [|split]]].
  - intros k data Hk Hbefore Hat Hs.
    destruct Hspec as [(k' & data' & Hk' & Hbefore' & Hat' & Hs' & Hr & Hc)
                      |(Hall & _)].
    + destruct (Nat.lt_trichotomy k k') as [Hlt|[->|Hgt]].
      * specialize (Hbefore' k Hlt).
        rewrite (Hsettled _ _ Hat Hs) in Hbefore'. done.
      * rewrite Hat in Hat'. injection Hat' as <-. done.
      * specialize (Hbefore k' Hgt).
        rewrite (Hsettled _ _ Hat' Hs') in Hbefore. done.
    + specialize (Hall k Hk). rewrite (Hsettled _ _ Hat Hs) in Hall. done.
  - intros Hall.
    destruct Hspec as [(k' & data' & Hk' & _ & Hat' & Hs' & _)|(_ & Hr)];
      [|done].
    specialize (Hall k' Hk'). rewrite (Hsettled _ _ Hat' Hs') in Hall. done.
  - destruct Hspec as [(k' & data' & Hk' & _ & _ & _ & _ & Hc)|(_ & _ & Hc)];
      lia.
  - intros e He.
    destruct Hspec as [(k' & data' & _ & _ & _ & _ & Hr & _)|(_ & Hr & _)];
      rewrite Hr in He; [by eapply settle_raises | done].
  - intros page Hpage Hne.
    destruct Hspec as [(k' & data' & Hk' & _ & Hat' & Hs' & Hr & _)
                      |(_ & Hr & _)]; rewrite Hr in Hpage.
    + apply settle_Ok in Hpage as [->|[-> Hstatus]]; [done|].
      by exists k'.
    + by injection Hpage as <-.
Qed.

Lemma fetch_articles_page_outcome_witness :
  let server_error := Answers (Page.mk (Some (VInt 500)) None None) in
  (fetch_articles_page (py "8928") (py "A1") 1
     (λ _, server_error) (World 0 [])).1 = Ok Page.empty
  ∧ calls (fetch_articles_page (py "8928") (py "A1") 1
             (λ _, server_error) (World 0 [])).2 = 1%nat.
Proof.
  intros server_error.
  destruct (fetch_articles_page_outcome (λ _, server_error) (World 0 [])
              (py "8928") (py "A1") 1) as (Hsettled & _).
  destruct (Hsettled 0%nat (Page.mk (Some (VInt 500)) None None))
    as [Hr Hc]; [lia | intros j Hj; lia | reflexivity | reflexivity |].
  split; [exact Hr | exact Hc].
Defined.

(** X12.  What [fetch_articles_page] waits for.  An answer that settles
    the first attempt costs no sleep.  After the status 429 it sleeps 5,
    10 and 15 seconds, the last time before it gives up; after an
    exception a random time between 2 and 4, then between 4 and 8 seconds,
    and not at all before it gives up. *)
Theorem fetch_articles_page_waits (browser : nat → answer) (w : world)
    (complex_id trade_type : str) (page_num : Z) :
  let a k := browser (calls w + k)%nat in
  let url := full_url complex_id trade_type page_num in
  let r := fetch_articles_page complex_id trade_type page_num browser w in
  (retried (a 0%nat) = false → trace r.2 = trace w ++ [Evaluate url])
  ∧ ((∀ k, (k < 3)%nat →
        ∃ data, a k = Answers data ∧ eq_int (status_of data) 429 = true) →
     trace r.2 = trace w ++ [Evaluate url; Sleep (seconds 5);
                             Evaluate url; Sleep (seconds 10);
                             Evaluate url; Sleep (seconds 15)])
  ∧ ((∀ k, (k < 3)%nat → a k = Throws) →
     trace r.2 = trace w ++ [Evaluate url;
                             RandomSleep (Some (seconds 2, seconds 4));
                             Evaluate url;
                             RandomSleep (Some (seconds 4, seconds 8));
                             Evaluate url]).
Proof.
  intros a url r. subst r. unfold fetch_articles_page. fold url.
  change (Z.to_nat _MAX_RETRIES) with 3%nat.
  assert (Ha : ∀ k t, browser (calls (World (k + calls w) t)) = a k)
    by (intros k t; unfold a; simpl; f_equal; lia).
  pose proof (Ha 0%nat (trace w)) as Ha0. simpl in Ha0.
  split_and!.
  - intros Hfirst. rewrite attempts_step by auto. cbv zeta. rewrite Ha0.
    apply retried_false in Hfirst as (data & -> & ->). done.
  - intros Hall.
    destruct (Hall 0%nat ltac:(lia)) as (d0 & H0 & Hs0).
    destruct (Hall 1%nat ltac:(lia)) as (d1 & H1 & Hs1).
    destruct (Hall 2%nat ltac:(lia)) as (d2 & H2 & Hs2).
    rewrite attempts_step by auto. cbv zeta. rewrite Ha0, H0, Hs0.
    rewrite attempts_step by auto. cbv zeta.
    rewrite (Ha 1%nat), H1, Hs1.
    rewrite attempts_step by auto. cbv zeta.
    rewrite (Ha 2%nat), H2, Hs2. simpl.
    by rewrite <- !app_assoc.
  - intros Hall.
    rewrite attempts_step by auto. cbv zeta.
    rewrite Ha0, (Hall 0%nat) by lia.
    change (1 =? 3) with false. cbv iota.
    rewrite attempts_step by auto. cbv zeta.
    rewrite (Ha 1%nat), (Hall 1%nat) by lia.
    change (1 + 1 =? 3) with false. cbv iota.
    rewrite attempts_step by auto. cbv zeta.
    rewrite (Ha 2%nat), (Hall 2%nat) by lia. simpl.
    by rewrite <- !app_assoc.
Qed.

Lemma fetch_articles_page_waits_witness :
  trace (fetch_articles_page (py "8928") (py "A1") 1 (λ _, Throws)
           (World 0 [])).2
  = [Evaluate (full_url (py "8928") (py "A1") 1);
     RandomSleep (Some (seconds 2, seconds 4));
     Evaluate (full_url (py "8928") (py "A1") 1);
     RandomSleep (Some (seconds 4, seconds 8));
     Evaluate (full_url (py "8928") (py "A1") 1)].
Proof.
  destruct (fetch_articles_page_waits (λ _, Throws) (World 0 [])
              (py "8928") (py "A1") 1) as (_ & _ & Hthrows).
  apply Hthrows. intros k Hk. reflexivity.
Defined.

(** A page that [fetch_articles_page] returns is [{}] or an answer of the
    browser. *)
Lemma fetch_articles_page_origin (browser : nat → answer) (w w' : world)
    (complex_id trade_type : str) (page_num : Z) (page : Page.t) :
  fetch_articles_page complex_id trade_type page_num browser w
    = (Ok page, w') →
  page = Page.empty
  ∨ (∃ n, browser n = Answers page)
    ∧ eq_int (status_of page) 429 = false ∧ settle page = Ok page.
Proof.
  intros Hfetch.
  pose proof (attempts_spec (full_url complex_id trade_type page_num) 3
                browser w ltac:(lia)) as Hspec.
  cbv zeta in Hspec. change (4 - Z.of_nat 3) with 1 in Hspec.
  change (attempts _ 1 3 browser w)
    with (fetch_articles_page complex_id trade_type page_num browser w)
    in Hspec.
  rewrite Hfetch in Hspec. simpl in Hspec.
  destruct Hspec as [(k & data & _ & _ & Hat & Hs & Hr & _)|(_ & Hr & _)].
  - symmetry in Hr. pose proof Hr as Hsettle.
    apply settle_Ok in Hr as [->|[-> _]]; [by left|].
    right. split; [by eexists | done].
  - left. by injection Hr.
Qed.

(* ===================================================================== *)
(** * Properties of [scrape_complex] *)
(* ===================================================================== *)

Lemma scrape_pages_step (fuel : nat) (complex_id trade_type today : str)
    (max_listings : Z) (listings : list Listing.t) (page_num : Z)
    (browser : nat → answer) (w : world) :
  scrape_pages (S fuel) complex_id trade_type today max_listings listings
    page_num browser w =
    if len listings <? max_listings then
      match fetch_articles_page complex_id trade_type page_num browser w with
      | (Raise e, w1) => (Raise e, w1)
      | (Ok data, w1) =>
        if is_empty (default [] (Page.articleList data))
        then (Ok (Some listings), w1)
        else if truthy (default (VBool false) (Page.isMoreData data))
        then scrape_pages fuel complex_id trade_type today max_listings
               (listings ++ listings_of data complex_id trade_type today)
               (page_num + 1) browser
               (World (calls w1) (trace w1 ++ [RandomSleep None]))
        else (Ok (Some (listings
                        ++ listings_of data complex_id trade_type today)),
              w1)
      end
    else (Ok (Some listings), w).
Proof.
  cbn [scrape_pages]. destruct (len listings <? max_listings); [|done].
  rewrite io_bind_eq.
  destruct (fetch_articles_page complex_id trade_type page_num browser w)
    as [[data|e] w1]; [|done].
  destruct (is_empty (default [] (Page.articleList data))); [done|].
  by destruct (truthy (default (VBool false) (Page.isMoreData data))).
Qed.

Lemma listings_of_scraped (data : Page.t) (complex_id trade_type today : str) :
  Forall (scraped_for complex_id trade_type today)
    (listings_of data complex_id trade_type today).
Proof.
  unfold listings_of. apply Forall_forall. intros l Hl.
  apply list_elem_of_omap in Hl as (article & _ & Hl).
  apply parse_article_Some in Hl as (_ & ? & ? & ? & ? & _). done.
Qed.

Lemma length_omap_le {A B} (f : A → option B) (l : list A) :
  (length (omap f l) ≤ length l)%nat.
Proof.
  induction l as [|x l IH]; [done|]. csimpl.
  destruct (f x); simpl; lia.
Qed.

Lemma listings_of_length (data : Page.t) (complex_id trade_type today : str) :
  (length (listings_of data complex_id trade_type today)
   ≤ length (default [] (Page.articleList data)))%nat.
Proof. apply length_omap_le. Qed.

Lemma scrape_pages_scraped (fuel : nat) (complex_id trade_type today : str)
    (max_listings : Z) (listings : list Listing.t) (page_num : Z)
    (browser : nat → answer) (w w' : world) (found : list Listing.t) :
  scrape_pages fuel complex_id trade_type today max_listings listings
    page_num browser w = (Ok (Some found), w') →
  ∃ more, found = listings ++ more
          ∧ Forall (scraped_for complex_id trade_type today) more.
Proof.
  revert listings page_num w. induction fuel as [|fuel IH];
    intros listings page_num w; [done|].
  rewrite scrape_pages_step.
  destruct (len listings <? max_listings); cycle 1.
  { intros [= <- <-]. exists []. by rewrite app_nil_r. }
  destruct (fetch_articles_page complex_id trade_type page_num browser w)
    as [[data|e] w1]; [|done].
  destruct (is_empty (default [] (Page.articleList data))).
  { intros [= <- <-]. exists []. by rewrite app_nil_r. }
  pose proof (listings_of_scraped data complex_id trade_type today) as Hnew.
  destruct (truthy (default (VBool false) (Page.isMoreData data))).
  - intros (more & -> & Hmore)%IH.
    exists (listings_of data complex_id trade_type today ++ more).
    split; [by rewrite app_assoc | by apply Forall_app].
  - intros [= <- <-]. by eexists.
Qed.

Lemma scrape_pages_overshoot (fuel : nat)
    (complex_id trade_type today : str) (max_listings : Z)
    (listings : list Listing.t) (page_num : Z) (browser : nat → answer)
    (w w' : world) (found : list Listing.t) (page_size : Z) :
  (∀ n data, browser n = Answers data →
             len (default [] (Page.articleList data)) ≤ page_size) →
  0 ≤ page_size →
  scrape_pages fuel complex_id trade_type today max_listings listings
    page_num browser w = (Ok (Some found), w') →
  len found ≤ Z.max (len listings) (max_listings - 1 + page_size).
Proof.
  intros Hsize Hpos. revert listings page_num w.
  induction fuel as [|fuel IH]; intros listings page_num w; [done|].
  rewrite scrape_pages_step.
  destruct (Z.ltb_spec (len listings) max_listings) as [Hlt|_]; cycle 1.
  { intros [= <- <-]. lia. }
  destruct (fetch_articles_page complex_id trade_type page_num browser w)
    as [[data|e] w1] eqn:Hfetch; [|done].
  destruct (is_empty (default [] (Page.articleList data))).
  { intros [= <- <-]. lia. }
  assert (Hnew : len (listings
                      ++ listings_of data complex_id trade_type today)
                 ≤ max_listings - 1 + page_size).
  { unfold len. rewrite length_app.
    pose proof (listings_of_length data complex_id trade_type today) as Hle.
    apply fetch_articles_page_origin in Hfetch as [->|[[n Hn] _]].
    - unfold len in Hlt. change (listings_of Page.empty _ _ _)
        with (@nil Listing.t). simpl length. lia.
    - specialize (Hsize n data Hn). unfold len in Hsize, Hlt. lia. }
  destruct (truthy (default (VBool false) (Page.isMoreData data))).
  - intros Hrest%IH. lia.
  - intros [= <- <-]. lia.
Qed.

Lemma scrape_pages_more_fuel (fuel fuel' : nat)
    (complex_id trade_type today : str) (max_listings : Z)
    (listings : list Listing.t) (page_num : Z) (browser : nat → answer)
    (w w' : world) (r : result (option (list Listing.t))) :
  scrape_pages fuel complex_id trade_type today max_listings listings
    page_num browser w = (r, w') →
  r ≠ Ok None → (fuel ≤ fuel')%nat →
  scrape_pages fuel' complex_id trade_type today max_listings listings
    page_num browser w = (r, w').
Proof.
  revert fuel' listings page_num w.
  induction fuel as [|fuel IH]; intros fuel' listings page_num w.
  { simpl. by intros [= <- <-]. }
  intros Hrun Hr Hle. destruct fuel' as [|fuel']; [lia|].
  rewrite scrape_pages_step in Hrun |- *.
  destruct (len listings <? max_listings); [|done].
  destruct (fetch_articles_page complex_id trade_type page_num browser w)
    as [[data|e] w1]; [|done].
  destruct (is_empty (default [] (Page.articleList data))); [done|].
  destruct (truthy (default (VBool false) (Page.isMoreData data))); [|done].
  apply IH; [done | done | lia].
Qed.

Lemma scrape_pages_ends (fuel : nat) (complex_id trade_type today : str)
    (max_listings : Z) (listings : list Listing.t) (page_num : Z)
    (browser : nat → answer) (w : world) :
  (∀ n data, browser n = Answers data →
             default [] (Page.articleList data) ≠ [] →
             listings_of data complex_id trade_type today ≠ []) →
  (Z.to_nat (max_listings - len listings) < fuel)%nat →
  (scrape_pages fuel complex_id trade_type today max_listings listings
     page_num browser w).1 ≠ Ok None.
Proof.
  intros Hproductive. revert listings page_num w.
  induction fuel as [|fuel IH]; intros listings page_num w Hfuel; [lia|].
  rewrite scrape_pages_step.
  destruct (Z.ltb_spec (len listings) max_listings) as [Hlt|_]; [|done].
  destruct (fetch_articles_page complex_id trade_type page_num browser w)
    as [[data|e] w1] eqn:Hfetch; [|done].
  destruct (is_empty (default [] (Page.articleList data))) eqn:Hempty;
    [done|].
  destruct (truthy (default (VBool false) (Page.isMoreData data))); [|done].
  apply IH.
  assert (Hnew : listings_of data complex_id trade_type today ≠ []).
  { apply fetch_articles_page_origin in Hfetch as [->|[[n Hn] _]]; [done|].
    apply (Hproductive n data Hn). by destruct (default [] _). }
  unfold len in *. rewrite length_app.
  destruct (listings_of data complex_id trade_type today); [done|].
  simpl length. lia.
Qed.

Lemma fetch_articles_page_always (data : Page.t) (w : world)
    (complex_id trade_type : str) (page_num : Z) :
  eq_int (status_of data) 429 = false → settle data = Ok data →
  ∃ w', fetch_articles_page complex_id trade_type page_num (always data) w
        = (Ok data, w').
Proof.
  intros Hs Hsettle. unfold fetch_articles_page.
  change (Z.to_nat _MAX_RETRIES) with 3%nat.
  rewrite attempts_step by auto. cbv zeta. unfold always at 1.
  rewrite Hs, Hsettle. by eexists.
Qed.

Lemma scrape_pages_stuck (fuel : nat) (complex_id trade_type today : str)
    (max_listings : Z) (page_num : Z) (data : Page.t) (w : world) :
  eq_int (status_of data) 429 = false → settle data = Ok data →
  default [] (Page.articleList data) ≠ [] →
  listings_of data complex_id trade_type today = [] →
  truthy (default (VBool false) (Page.isMoreData data)) = true →
  0 < max_listings →
  (scrape_pages fuel complex_id trade_type today max_listings [] page_num
     (always data) w).1 = Ok None.
Proof.
  intros Hs Hsettle Harticles Hnone Hmore Hmax. revert page_num w.
  induction fuel as [|fuel IH]; intros page_num w; [done|].
  rewrite scrape_pages_step.
  destruct (Z.ltb_spec (len (@nil Listing.t)) max_listings) as [_|Hge];
    [|unfold len in Hge; simpl in Hge; lia].
  destruct (fetch_articles_page_always data w complex_id trade_type page_num
              Hs Hsettle) as [w1 ->].
  destruct (default [] (Page.articleList data)) eqn:Hlist; [done|].
  cbn [is_empty]. rewrite Hmore, Hnone. apply IH.
Qed.

Lemma scrape_complex_no_limit (fuel : nat) (max_listings : Z)
    (complex_id trade_type today : str) (browser : nat → answer)
    (w : world) :
  max_listings ≤ 0 → (0 < fuel)%nat →
  scrape_complex fuel max_listings complex_id trade_type today browser w
  = (Ok (Some []), w).
Proof.
  intros Hmax Hfuel. unfold scrape_complex.
  destruct fuel as [|fuel]; [lia|]. rewrite scrape_pages_step.
  by destruct (Z.ltb_spec (len (@nil Listing.t)) max_listings) as [Hlt|_];
    [unfold len in Hlt; simpl in Hlt; lia|].
Qed.

Lemma scrape_complex_one_page (fuel : nat) (max_listings : Z)
    (complex_id trade_type today : str) (data : Page.t) (w : world) :
  eq_int (status_of data) 429 = false → settle data = Ok data →
  default [] (Page.articleList data) ≠ [] →
  truthy (default (VBool false) (Page.isMoreData data)) = false
  ∨ max_listings ≤ len (listings_of data complex_id trade_type today) →
  0 < max_listings → (1 < fuel)%nat →
  ∃ w',
    scrape_complex fuel max_listings complex_id trade_type today
      (always data) w
    = (Ok (Some (listings_of data complex_id trade_type today)), w').
Proof.
  intros Hs Hsettle Harticles Hlast Hmax Hfuel. unfold scrape_complex.
  destruct fuel as [|[|fuel]]; [lia..|]. rewrite scrape_pages_step.
  destruct (Z.ltb_spec (len (@nil Listing.t)) max_listings) as [_|Hge];
    [|unfold len in Hge; simpl in Hge; lia].
  destruct (fetch_articles_page_always data w complex_id trade_type 1
              Hs Hsettle) as [w1 ->].
  destruct (default [] (Page.articleList data)) eqn:Hlist; [done|].
  cbn [is_empty app].
  destruct (truthy (default (VBool false) (Page.isMoreData data)));
    [|by eexists].
  destruct Hlast as [?|Hfull]; [done|]. rewrite scrape_pages_step.
  destruct (Z.ltb_spec (len (listings_of data complex_id trade_type today))
              max_listings) as [Hlt|_]; [lia|]. by eexists.
Qed.

(** X14.  The listings of [scrape_complex].  Every listing that it
    returns has the complex, the trade type and the day of the call, and
    an id that is not empty.  With a limit of zero or less it returns no
    listing and does not ask the browser.  The limit is only checked
    before a page is fetched, so one page can take the number of listings
    beyond it: a first page that is the last one, or that reaches the
    limit, is returned whole, however many listings it gives; and when no
    page has more than [page_size] articles, fewer than
    [max_listings + page_size] listings are returned. *)
Theorem scrape_complex_listings (max_listings : Z)
    (complex_id trade_type today : str) :
  (∀ fuel browser w w' found,
     scrape_complex fuel max_listings complex_id trade_type today browser w
       = (Ok (Some found), w') →
     Forall (scraped_for complex_id trade_type today) found
     ∧ ∀ page_size,
         0 ≤ page_size →
         (∀ n data, browser n = Answers data →
                    len (default [] (Page.articleList data)) ≤ page_size) →
         len found < Z.max max_listings 1 + page_size)
  ∧ (max_listings ≤ 0 →
     ∀ fuel browser w,
       (0 < fuel)%nat →
       scrape_complex fuel max_listings complex_id trade_type today browser w
       = (Ok (Some []), w))
  ∧ (∀ data fuel w,
       eq_int (status_of data) 429 = false → settle data = Ok data →
       default [] (Page.articleList data) ≠ [] →
       truthy (default (VBool false) (Page.isMoreData data)) = false
       ∨ max_listings ≤ len (listings_of data complex_id trade_type today) →
       0 < max_listings → (1 < fuel)%nat →
       ∃ w',
         scrape_complex fuel max_listings complex_id trade_type today
           (always data) w
         = (Ok (Some (listings_of data complex_id trade_type today)), w')).
Proof.
  split_and!.
  - unfold scrape_complex. intros fuel browser w w' found Hrun. split.
    + by apply scrape_pages_scraped in Hrun as (more & -> & Hmore).
    + intros page_size Hpos Hsize.
      pose proof (scrape_pages_overshoot _ _ _ _ _ _ _ _ _ _ _ page_size
                    Hsize Hpos Hrun) as Hle.
      unfold len in Hle |- *. simpl length in Hle. lia.
  - intros Hmax fuel browser w Hfuel. by apply scrape_complex_no_limit.
  - intros data fuel w. apply scrape_complex_one_page.
Qed.

Lemma scrape_complex_listings_witness :
  let article := example_article (VInt 7) (py "9,500") in
  let data :=
    Page.mk (Some (VInt 200)) (Some [article; article])
      (Some (VBool false)) in
  ∃ found w',
    scrape_complex 2 1 (py "8928") (py "A1") (py "2024-05-02")
      (always data) (World 0 []) = (Ok (Some found), w')
    ∧ len found = 2
    ∧ Forall (scraped_for (py "8928") (py "A1") (py "2024-05-02")) found.
Proof.
  intros article data.
  destruct (scrape_complex_listings 1 (py "8928") (py "A1")
              (py "2024-05-02")) as (Hsafe & _ & Hpage).
  destruct (Hpage data 2%nat (World 0 [])) as [w' Hrun];
    [reflexivity | reflexivity | by vm_compute | by left | lia | lia |].
  exists (listings_of data (py "8928") (py "A1") (py "2024-05-02")), w'.
  split; [exact Hrun|]. split; [reflexivity|].
  by destruct (Hsafe _ _ _ _ _ Hrun) as [Hall _].
Defined.

(** X15.  When [scrape_complex] ends.  Its loop ends at the first page
    without articles or without more data, or with the limit reached:
    when every page with articles gives at least one listing, more rounds
    than the limit are never needed, and a run that has ended is not
    changed by allowing more rounds.  But a browser that keeps answering a
    page with articles, none of which gives a listing, and with more data
    keeps the loop going for ever. *)
Theorem scrape_complex_ends (max_listings : Z)
    (complex_id trade_type today : str) (w : world) :
  (∀ browser fuel,
     productive browser today → (Z.to_nat max_listings < fuel)%nat →
     (scrape_complex fuel max_listings complex_id trade_type today
        browser w).1 ≠ Ok None)
  ∧ (∀ browser fuel fuel' r w',
       scrape_complex fuel max_listings complex_id trade_type today browser w
         = (r, w') →
       r ≠ Ok None → (fuel ≤ fuel')%nat →
       scrape_complex fuel' max_listings complex_id trade_type today
         browser w = (r, w'))
  ∧ (∀ data fuel,
       eq_int (status_of data) 429 = false → settle data = Ok data →
       default [] (Page.articleList data) ≠ [] →
       listings_of data complex_id trade_type today = [] →
       truthy (default (VBool false) (Page.isMoreData data)) = true →
       0 < max_listings →
       (scrape_complex fuel max_listings complex_id trade_type today
          (always data) w).1 = Ok None).
Proof.
  unfold scrape_complex. split_and!.
  - intros browser fuel Hproductive Hfuel. apply scrape_pages_ends.
    + intros n data Hn. exact (Hproductive n data _ _ Hn).
    + unfold len. simpl length. lia.
  - intros browser fuel fuel' r w'. apply scrape_pages_more_fuel.
  - intros data fuel. apply scrape_pages_stuck.
Qed.

Lemma scrape_complex_ends_witness :
  (scrape_complex 1000 200 (py "8928") (py "A1") (py "2024-05-02")
     (always (example_page (example_article (VStr []) (py "9,500")) true))
     (World 0 [])).1 = Ok None.
Proof.
  destruct (scrape_complex_ends 200 (py "8928") (py "A1") (py "2024-05-02")
              (World 0 [])) as (_ & _ & Hstuck).
  apply Hstuck; [reflexivity | reflexivity | by vm_compute | reflexivity
                | reflexivity | lia].
Defined.

(* ===================================================================== *)
(** * Properties of [run_scraper] *)
(* ===================================================================== *)

Lemma scrape_types_step (fuel : nat) (max_listings : Z) (today : str)
    (complex_id trade_type : str) (rest : list str)
    (results : gmap (list N) (list Listing.t)) (browser : nat → answer)
    (w : world) :
  scrape_types fuel max_listings today complex_id (trade_type :: rest)
    results browser w =
    match scrape_complex fuel max_listings complex_id trade_type today
            browser w with
    | (Ok (Some listings), w1) =>
      scrape_types fuel max_listings today complex_id rest
        (alter (λ old, old ++ listings) complex_id results) browser
        (World (calls w1) (trace w1 ++ [RandomSleep None]))
    | (Ok None, w1) =>
      (Ok None, World (calls w1) (trace w1 ++ [RandomSleep None]))
    | (Raise _, w1) =>
      scrape_types fuel max_listings today complex_id rest results browser
        (World (calls w1) (trace w1 ++ [RandomSleep None]))
    end.
Proof.
  cbn [scrape_types]. rewrite io_bind_eq. unfold try_except.
  rewrite io_bind_eq.
  by destruct (scrape_complex fuel max_listings complex_id trade_type today
                 browser w) as [[[listings|]|e] w1].
Qed.

Lemma scrape_ids_step (fuel : nat) (max_listings : Z) (today : str)
    (complex_id : str) (rest types : list str)
    (results : gmap (list N) (list Listing.t)) (browser : nat → answer)
    (w : world) :
  scrape_ids fuel max_listings today (complex_id :: rest) types results
    browser w =
    match warm_up_session complex_id browser w with
    | (Ok _, w1) =>
      match scrape_types fuel max_listings today complex_id types results
              browser w1 with
      | (Ok (Some results'), w2) =>
        scrape_ids fuel max_listings today rest types results' browser w2
      | other => other
      end
    | (Raise e, w1) => (Raise e, w1)
    end.
Proof.
  cbn [scrape_ids]. rewrite io_bind_eq.
  destruct (warm_up_session complex_id browser w) as [[[]|e] w1]; [|done].
  rewrite io_bind_eq.
  by destruct (scrape_types fuel max_listings today complex_id types results
                 browser w1) as [[[results'|]|e] w2].
Qed.

Lemma warm_up_session_returns (complex_id : str) (browser : nat → answer)
    (w : world) :
  (warm_up_session complex_id browser w).1 = Ok ().
Proof.
  unfold warm_up_session. rewrite io_bind_eq. unfold call.
  by destruct (browser (calls w)).
Qed.

Lemma well_filed_alter (types : list str) (today : str)
    (results : gmap (list N) (list Listing.t)) (complex_id : str)
    (listings : list Listing.t) :
  well_filed types today results →
  Forall (scraped complex_id types today) listings →
  well_filed types today (alter (λ old, old ++ listings) complex_id results).
Proof.
  intros Hfiled Hnew k ls.
  destruct (decide (k = complex_id)) as [->|Hne].
  - rewrite lookup_alter_eq.
    destruct (results !! complex_id) as [old|] eqn:Hold; [|done].
    intros [= <-]. apply Forall_app. split; [by eapply Hfiled | done].
  - rewrite lookup_alter_ne by done. apply Hfiled.
Qed.

Lemma scraped_for_scraped (complex_id trade_type today : str)
    (types : list str) (listings : list Listing.t) :
  trade_type ∈ types →
  Forall (scraped_for complex_id trade_type today) listings →
  Forall (scraped complex_id types today) listings.
Proof.
  intros Hin Hall. eapply Forall_impl; [exact Hall|].
  intros l (? & Ht & ? & ?).
  split_and!; [done| |done|done]. by rewrite Ht.
Qed.

Lemma scrape_types_spec (fuel : nat) (max_listings : Z) (today : str)
    (complex_id : str) (types all_types : list str)
    (results : gmap (list N) (list Listing.t)) (browser : nat → answer)
    (w : world) :
  types ⊆ all_types →
  well_filed all_types today results →
  ∃ out w',
    scrape_types fuel max_listings today complex_id types results browser w
      = (Ok out, w')
    ∧ ∀ results', out = Some results' →
        dom results' = dom results ∧ well_filed all_types today results'.
Proof.
  revert results w. induction types as [|trade_type rest IH];
    intros results w Hsub Hfiled.
  { eexists _, _. split; [reflexivity|]. by intros ? [= <-]. }
  assert (Hrest : rest ⊆ all_types)
    by (intros t Ht; apply Hsub; by apply elem_of_cons; right).
  rewrite scrape_types_step.
  destruct (scrape_complex fuel max_listings complex_id trade_type today
              browser w) as [[[listings|]|e] w1] eqn:Hrun.
  - apply scrape_pages_scraped in Hrun as (more & Hmore & Hall).
    simpl in Hmore. subst more.
    destruct (IH (alter (λ old, old ++ listings) complex_id results)
                (World (calls w1) (trace w1 ++ [RandomSleep None])) Hrest)
      as (out & w' & -> & Hout).
    + apply well_filed_alter; [done|].
      eapply scraped_for_scraped; [|done]. apply Hsub.
      by apply elem_of_cons; left.
    + exists out, w'. split; [done|]. intros results' Hres.
      destruct (Hout results' Hres) as [Hdom Hfiled'].
      split; [|done]. by rewrite Hdom, dom_alter_L.
  - eexists _, _. split; [reflexivity|]. by intros ? [=].
  - by apply IH.
Qed.

Lemma scrape_ids_spec (fuel : nat) (max_listings : Z) (today : str)
    (ids types : list str) (results : gmap (list N) (list Listing.t))
    (browser : nat → answer) (w : world) :
  well_filed types today results →
  ∃ out w',
    scrape_ids fuel max_listings today ids types results browser w
      = (Ok out, w')
    ∧ ∀ results', out = Some results' →
        dom results' = dom results ∧ well_filed types today results'.
Proof.
  revert results w. induction ids as [|complex_id rest IH];
    intros results w Hfiled.
  { eexists _, _. split; [reflexivity|]. by intros ? [= <-]. }
  rewrite scrape_ids_step.
  pose proof (warm_up_session_returns complex_id browser w) as Hwarm.
  destruct (warm_up_session complex_id browser w) as [[[]|e] w1];
    [|done]. clear Hwarm.
  destruct (scrape_types_spec fuel max_listings today complex_id types types
              results browser w1 ltac:(done) Hfiled)
    as (out & w2 & -> & Hout).
  destruct out as [results'|].
  - destruct (Hout results' eq_refl) as [Hdom Hfiled'].
    destruct (IH results' w2 Hfiled') as (out & w' & -> & Hout').
    exists out, w'. split; [done|]. intros results'' Hres.
    destruct (Hout' results'' Hres) as [Hdom' Hfiled''].
    split; [|done]. by rewrite Hdom', Hdom.
  - eexists _, _. split; [reflexivity|]. by intros ? [=].
Qed.

Lemma scrape_types_ends (fuel : nat) (max_listings : Z) (today : str)
    (complex_id : str) (types : list str)
    (results : gmap (list N) (list Listing.t)) (browser : nat → answer)
    (w : world) :
  productive browser today → (Z.to_nat max_listings < fuel)%nat →
  (scrape_types fuel max_listings today complex_id types results browser
     w).1 ≠ Ok None.
Proof.
  intros Hproductive Hfuel. revert results w.
  induction types as [|trade_type rest IH]; intros results w; [done|].
  rewrite scrape_types_step.
  pose proof (scrape_pages_ends fuel complex_id trade_type today
                max_listings [] 1 browser w
                (λ n data Hn, Hproductive n data _ _ Hn)) as Hends.
  fold (scrape_complex fuel max_listings complex_id trade_type today) in Hends.
  destruct (scrape_complex fuel max_listings complex_id trade_type today
              browser w) as [[[listings|]|e] w1]; [apply IH | | apply IH].
  destruct Hends; [|done]. unfold len. simpl length. lia.
Qed.

Lemma scrape_ids_ends (fuel : nat) (max_listings : Z) (today : str)
    (ids types : list str) (results : gmap (list N) (list Listing.t))
    (browser : nat → answer) (w : world) :
  productive browser today → (Z.to_nat max_listings < fuel)%nat →
  (scrape_ids fuel max_listings today ids types results browser w).1
  ≠ Ok None.
Proof.
  intros Hproductive Hfuel. revert results w.
  induction ids as [|complex_id rest IH]; intros results w; [done|].
  rewrite scrape_ids_step.
  destruct (warm_up_session complex_id browser w) as [[[]|e] w1]; [|done].
  pose proof (scrape_types_ends fuel max_listings today complex_id types
                results browser w1 Hproductive Hfuel) as Hends.
  destruct (scrape_types fuel max_listings today complex_id types results
              browser w1) as [[[results'|]|e] w2]; [apply IH | done | done].
Qed.

Lemma lookup_empty_lists (ids : list str) (complex_id : str)
    (listings : list Listing.t) :
  (list_to_map (map (λ cid, (cid, [])) ids)
     : gmap (list N) (list Listing.t)) !! complex_id = Some listings →
  listings = [].
Proof.
  intros Hin%elem_of_list_to_map_2.
  apply list_elem_of_fmap in Hin as (cid & [= _ ->] & _). done.
Qed.

Lemma dom_empty_lists (ids : list str) :
  dom (list_to_map (map (λ cid, (cid, [])) ids)
         : gmap (list N) (list Listing.t))
  = (list_to_set ids : gset (list N)).
Proof.
  rewrite dom_list_to_map_L. f_equal.
  induction ids as [|cid rest IH]; [done|]. csimpl. by f_equal.
Qed.

Lemma example_page_productive (today : str) :
  productive
    (always (example_page (example_article (VInt 7) (py "9,500")) false))
    today.
Proof.
  intros n data complex_id trade_type [= <-] _.
  unfold listings_of, example_page. cbn [Page.articleList default
    from_option Datatypes.id]. csimpl.
  destruct (parse_article (example_article (VInt 7) (py "9,500")) complex_id
              today trade_type) as [l|] eqn:Hl; [done|].
  apply parse_article_None in Hl as [Hid|[Hprice|Htags]].
  - by vm_compute in Hid.
  - destruct Hprice. apply _parse_price_field_no_marker.
    apply (bool_decide_unpack _). by vm_compute.
  - destruct Htags as (tags & [= <-] & v & Hin & Hv).
    apply elem_of_cons in Hin as [->|Hin]; [done|].
    apply elem_of_cons in Hin as [->|Hin]; [done|].
    by apply elem_of_nil in Hin.
Qed.

Lemma run_scraper_raises (fuel : nat) (config_ids config_types : list str)
    (max_listings : Z) (today : str)
    (complex_ids trade_types : option (list str))
    (browser : nat → answer) (w : world) :
  run_scraper fuel config_ids config_types max_listings today complex_ids
    trade_types browser w = (Raise AttributeError, w).
Proof. reflexivity. Qed.

Lemma scrape_all_spec (fuel : nat) (max_listings : Z) (today : str)
    (ids types : list str) (browser : nat → answer) (w : world) :
  ∃ out w',
    scrape_all fuel max_listings today ids types browser w = (Ok out, w')
    ∧ (∀ results, out = Some results →
         (∀ complex_id, is_Some (results !! complex_id) ↔ complex_id ∈ ids)
         ∧ well_filed types today results)
    ∧ (productive browser today → (Z.to_nat max_listings < fuel)%nat →
       is_Some out).
Proof.
  unfold scrape_all.
  assert (Hempty : well_filed types today
                     (list_to_map (map (λ cid, (cid, [])) ids))).
  { intros cid listings Hl. by apply lookup_empty_lists in Hl as ->. }
  pose proof (scrape_ids_ends fuel max_listings today ids types
                (list_to_map (map (λ cid, (cid, [])) ids)) browser w)
    as Hends.
  destruct (scrape_ids_spec fuel max_listings today ids types _ browser w
              Hempty) as (out & w' & Hrun & Hout).
  rewrite Hrun in Hends |- *. exists out, w'. split_and!; [done| |].
  - intros results Hres. destruct (Hout results Hres) as [Hdom Hfiled].
    split; [|exact Hfiled].
    intros complex_id. rewrite <- elem_of_dom, Hdom, dom_empty_lists.
    apply elem_of_list_to_set.
  - intros Hproductive Hfuel. destruct out; [done|].
    by destruct (Hends Hproductive Hfuel).
Qed.

(** X16.  [run_scraper] never returns: [build_browser_context] reads
    [config.PROXY_URL], which [config.py] does not bind, so every call
    raises AttributeError before a page is visited, whatever the
    arguments and the answers of the browser.  Its loops, which are thus
    never reached, do not raise by themselves: what a complex and trade
    type raises is dropped with the listings of that pair; they give an
    entry for every complex asked for and for no other, every listing
    under a complex has that complex, one of the trade types asked for,
    the day of the run and an id that is not empty; and when every page
    with articles gives a listing, more rounds than the limit are never
    needed for a pair. *)
Theorem run_scraper_never_returns (fuel : nat)
    (config_ids config_types : list str) (max_listings : Z) (today : str)
    (complex_ids trade_types : option (list str))
    (browser : nat → answer) (w : world) :
  let ids := or_list complex_ids config_ids in
  let types := or_list trade_types config_types in
  run_scraper fuel config_ids config_types max_listings today complex_ids
    trade_types browser w = (Raise AttributeError, w)
  ∧ config_attribute (py "PROXY_URL") = Raise AttributeError
  ∧ ∃ out w',
      scrape_all fuel max_listings today ids types browser w = (Ok out, w')
      ∧ (∀ results, out = Some results →
           (∀ complex_id,
              is_Some (results !! complex_id) ↔ complex_id ∈ ids)
           ∧ ∀ complex_id listings,
               results !! complex_id = Some listings →
               Forall (λ l, Listing.complex_id l = complex_id
                            ∧ Listing.trade_type l ∈ types
                            ∧ Listing.date l = today
                            ∧ Listing.listing_id l ≠ []) listings)
      ∧ (productive browser today → (Z.to_nat max_listings < fuel)%nat →
         is_Some out).
Proof.
  intros ids types. split; [apply run_scraper_raises|].
  split; [reflexivity|].
  destruct (scrape_all_spec fuel max_listings today ids types browser w)
    as (out & w' & Hrun & Hout & Hends).
  exists out, w'. split_and!; [done| |done].
  intros results Hres. destruct (Hout results Hres) as [Hkeys Hfiled].
  split; [done|]. exact Hfiled.
Qed.

Lemma run_scraper_never_returns_witness :
  let browser :=
    always (example_page (example_article (VInt 7) (py "9,500")) false) in
  run_scraper 201 [py "8928"] [py "A1"; py "B1"] 200 (py "2024-05-02")
    None None browser (World 0 []) = (Raise AttributeError, World 0 [])
  ∧ ∃ results w',
      scrape_all 201 200 (py "2024-05-02") [py "8928"] [py "A1"; py "B1"]
        browser (World 0 []) = (Ok (Some results), w')
      ∧ is_Some (results !! py "8928").
Proof.
  intros browser.
  destruct (run_scraper_never_returns 201 [py "8928"] [py "A1"; py "B1"] 200
              (py "2024-05-02") None None browser (World 0 []))
    as (Hraise & _ & out & w' & Hrun & Hout & Hends).
  split; [exact Hraise|].
  destruct Hends as [results ->].
  - apply example_page_productive.
  - by vm_compute.
  - exists results, w'. split; [exact Hrun|].
    destruct (Hout results eq_refl) as [Hkeys _]. apply Hkeys.
    by apply elem_of_cons; left.
Defined.

(* ===================================================================== *)
(** * Properties of the summary: the order of the listings *)
(* ===================================================================== *)

Lemma sum_Permutation (l k : list Z) : l ≡ₚ k → sum l = sum k.
Proof.
  induction 1 as [|x l k _ IH|x y l|l k m _ IH1 _ IH2]; [done| | |congruence].
  - by rewrite !sum_cons, IH.
  - rewrite !sum_cons. lia.
Qed.

Lemma fold_left_min_acc (l : list Z) (acc : Z) :
  fold_left Z.min l acc = Z.min acc (least (acc :: l)).
Proof.
  simpl. revert acc. induction l as [|x l IH]; intros acc; simpl; [lia|].
  rewrite (IH (Z.min acc x)). lia.
Qed.

Lemma least_cons (x y : Z) (l : list Z) :
  least (x :: y :: l) = Z.min x (least (y :: l)).
Proof.
  simpl. revert x y. induction l as [|z l IH]; intros x y; simpl; [done|].
  rewrite (IH (Z.min x y) z), (IH y z). lia.
Qed.

Lemma least_Permutation (l k : list Z) : l ≡ₚ k → least l = least k.
Proof.
  induction 1 as [|x l k Hp IH|x y l|l k m _ IH1 _ IH2]; [done| | |congruence].
  - destruct l as [|y l], k as [|z k]; [done| | |].
    + by apply Permutation_nil_cons in Hp.
    + symmetry in Hp. by apply Permutation_nil_cons in Hp.
    + by rewrite !least_cons, IH.
  - destruct l as [|z l]; [simpl; lia|]. rewrite !least_cons. lia.
Qed.

Lemma average_Permutation (l k : list Z) : l ≡ₚ k → average l = average k.
Proof.
  intros Hp. unfold average, len.
  rewrite (sum_Permutation _ _ Hp), (Permutation_length Hp).
  destruct l as [|x l], k as [|y k]; [done| | |done].
  - by apply Permutation_nil_cons in Hp.
  - symmetry in Hp. by apply Permutation_nil_cons in Hp.
Qed.

Lemma today_prices_Permutation (l k : list Listing.t) :
  l ≡ₚ k → today_prices l ≡ₚ today_prices k.
Proof.
  unfold today_prices.
  induction 1 as [|x l k _ IH|x y l|l k m _ IH1 _ IH2]; [done| | |by etrans].
  - simpl. destruct (0 <? Listing.price x); simpl; [by constructor | done].
  - simpl. destruct (0 <? Listing.price x), (0 <? Listing.price y); simpl;
      try done. apply perm_swap.
Qed.

Lemma same_prices_trans (a b c : result (list Z)) :
  same_prices a b → same_prices b c → same_prices a c.
Proof.
  destruct a, b, c; simpl; try done; [by etrans | congruence].
Qed.

Lemma y_prices_Permutation (l k : list row) :
  l ≡ₚ k → same_prices (y_prices l) (y_prices k).
Proof.
  induction 1 as [|x l k _ IH|x y l|l k m _ IH1 _ IH2].
  - simpl. reflexivity.
  - simpl. destruct (y_price x) as [p|e]; simpl; [|done].
    destruct (y_prices l) as [ps|e], (y_prices k) as [qs|e']; simpl in *;
      try done.
    destruct p; [by constructor | done].
  - simpl.
    destruct (y_price x) as [p|e] eqn:Hx, (y_price y) as [q|e'] eqn:Hy; simpl.
    + destruct (y_prices l) as [ps|e'']; simpl; [|done].
      destruct p, q; try reflexivity. apply perm_swap.
    + by destruct (y_prices l).
    + by destruct (y_prices l).
    + apply y_price_raises in Hx as (_ & _ & _ & _ & ->).
      by apply y_price_raises in Hy as (_ & _ & _ & _ & ->).
  - by eapply same_prices_trans.
Qed.

(** X17.  The order of the listings and of the rows does not matter to
    the summary, but for the text of the lowest listing (of two listings
    with the lowest price the first one is shown): with today's listings
    and yesterday's rows reordered, [compute_summary] raises the same
    exception or returns the same summary with, at most, another
    lowest_listing. *)
Theorem compute_summary_order (clock complex_id trade_type : str)
    (today_listings today' : list Listing.t)
    (yesterday_rows yesterday' : list row) :
  today_listings ≡ₚ today' → yesterday_rows ≡ₚ yesterday' →
  match compute_summary clock complex_id trade_type today_listings
          yesterday_rows,
        compute_summary clock complex_id trade_type today' yesterday' with
  | Ok s, Ok s' => s' = with_lowest (ComplexSummary.lowest_listing s') s
  | Raise e, Raise e' => e = e'
  | _, _ => False
  end.
Proof.
  intros Htoday Hrows. rewrite !compute_summary_steps.
  pose proof (today_prices_Permutation _ _ Htoday) as Hprices.
  rewrite <- (average_Permutation _ _ Hprices),
    <- (least_Permutation _ _ Hprices),
    <- (today_ids_Permutation _ _ Htoday),
    <- (yesterday_ids_Permutation _ _ Hrows).
  unfold len. rewrite <- (Permutation_length Htoday).
  destruct (average (today_prices today_listings)) as [avg|e]; [|done].
  cbn [mbind result_bind].
  pose proof (y_prices_Permutation _ _ Hrows) as Hy.
  destruct (y_prices yesterday_rows) as [ps|e],
    (y_prices yesterday') as [qs|e']; simpl in Hy; try done.
  cbn [mbind result_bind].
  rewrite <- (average_Permutation _ _ Hy), <- (least_Permutation _ _ Hy).
  by destruct (average ps).
Qed.

Lemma compute_summary_order_witness :
  ∃ s s',
    compute_summary (py "2024-05-02") (py "8928") (py "A1")
      example_today example_yesterday = Ok s
    ∧ compute_summary (py "2024-05-02") (py "8928") (py "A1")
        (rev example_today) (rev example_yesterday) = Ok s'
    ∧ s' = with_lowest (ComplexSummary.lowest_listing s') s.
Proof.
  pose proof (compute_summary_order (py "2024-05-02") (py "8928") (py "A1")
                example_today (rev example_today)
                example_yesterday (rev example_yesterday)
                (Permutation_rev _) (Permutation_rev _)) as Horder.
  destruct (compute_summary _ _ _ example_today _) as [s|e] eqn:Hs;
    [|by vm_compute in Hs].
  destruct (compute_summary _ _ _ (rev example_today) _) as [s'|e] eqn:Hs';
    [|by vm_compute in Hs'].
  by exists s, s'.
Defined.

(* ===================================================================== *)
(** * Properties of a run *)
(* ===================================================================== *)

Lemma summary_of_no_results (clock : str) (rows : list row)
    (complex_id trade_type : str) (s : ComplexSummary.t) :
  summary_of clock ∅ rows complex_id trade_type = Ok s →
  blank (Z.of_nat (size (yesterday_ids (rows_of rows complex_id trade_type))))
    s.
Proof.
  unfold summary_of. rewrite lookup_empty. cbn [default from_option].
  change (type_listings [] trade_type) with (@nil Listing.t).
  intros Hs. apply compute_summary_Ok in Hs
    as (yps & yavg & Havg & _ & _ & _ & _ & _ & Htotal & Hnew & Hrem & _ & _
        & Hmin & _ & Hlow).
  assert (Hnone : today_ids [] = ∅) by reflexivity.
  rewrite Hnone in Hnew, Hrem.
  replace (∅ ∖ yesterday_ids (rows_of rows complex_id trade_type))
    with (∅ : gset (list N)) in Hnew
    by (apply set_eq; intros x;
        rewrite elem_of_difference, elem_of_empty; tauto).
  replace (yesterday_ids (rows_of rows complex_id trade_type) ∖ ∅)
    with (yesterday_ids (rows_of rows complex_id trade_type)) in Hrem
    by (apply set_eq; intros x;
        rewrite elem_of_difference, elem_of_empty; tauto).
  simpl in Havg. injection Havg as Havg.
  by split_and!.
Qed.

Lemma summaries_no_results (clock : str) (rows : list row)
    (complex_ids trade_types : list str) (ss : list ComplexSummary.t) :
  summaries clock ∅ rows complex_ids trade_types = Ok ss →
  Forall (λ s, blank (Z.of_nat (size (yesterday_ids
                          (rows_of rows (ComplexSummary.complex_id s)
                             (ComplexSummary.trade_type s))))) s) ss.
Proof.
  intros Hss. apply summaries_Ok in Hss as (sss & Hsss & ->).
  induction Hsss as [|complex_id ss' rest sss Hss' _ IH]; [constructor|].
  simpl. apply Forall_app. split; [|done].
  apply summaries_of_complex_pairs in Hss' as [_ Hall].
  eapply Forall_impl; [exact Hall|]. intros s Hs.
  exact (summary_of_no_results _ _ _ _ _ Hs).
Qed.

(** X18.  A run without the scrape.  With [--notion-only] or
    [--sheets-only] (and without [--scrape-only]) the browser is not
    touched and the summaries are computed from no listing at all: every
    summary that reaches [write_summaries] has total_listings 0,
    new_listings 0, avg_price 0.0, min_price 0 and an empty
    lowest_listing, and counts every listing of yesterday's tab for its
    complex and trade type as removed. *)
Theorem run_without_scrape (fuel : nat) (config_ids config_types : list str)
    (max_listings : Z) (today clock : str) (rows : list row)
    (args : Args.t) (browser : nat → answer) (w : world) :
  Args.sheets_only args || Args.notion_only args = true →
  Args.scrape_only args = false →
  let complex_ids := or_list (Args.complex_ids args) config_ids in
  let trade_types := or_list (Args.trade_types args) config_types in
  run fuel config_ids config_types max_listings today clock rows args
    browser w
  = (ss ← summaries clock ∅ rows complex_ids trade_types;
     Ok (Some (Summaries ss)), w)
  ∧ ∀ ss,
      summaries clock ∅ rows complex_ids trade_types = Ok ss →
      len ss = len complex_ids * len trade_types
      ∧ Forall (λ s, blank (Z.of_nat (size (yesterday_ids
                              (rows_of rows (ComplexSummary.complex_id s)
                                 (ComplexSummary.trade_type s))))) s) ss.
Proof.
  intros Hflags Hscrape complex_ids trade_types. split.
  - unfold run. fold complex_ids trade_types.
    replace (negb (Args.sheets_only args) && negb (Args.notion_only args))
      with false by (by destruct (Args.sheets_only args),
                          (Args.notion_only args)).
    rewrite io_bind_eq. cbn [mret io_ret]. rewrite Hscrape.
    rewrite io_bind_eq. unfold lift.
    by destruct (summaries clock ∅ rows complex_ids trade_types).
  - intros ss Hss. split; [|exact (summaries_no_results _ _ _ _ _ Hss)].
    pose proof Hss as Hshape. apply summaries_Ok in Hshape as (sss & Hsss & ->).
    clear Hss. unfold len.
    induction Hsss as [|complex_id ss' rest sss Hss' _ IH]; [simpl; lia|].
    apply summaries_of_complex_pairs in Hss' as [Hm _].
    apply (f_equal length) in Hm. rewrite !length_map in Hm.
    simpl. rewrite length_app, Hm. lia.
Qed.

Lemma run_without_scrape_witness :
  ∃ ss,
    run 0 [py "8928"] [py "A1"] 200 (py "2024-05-02") (py "2024-05-02")
      (map written example_today)
      (Args.mk None None false false true) (λ _, Throws) (World 0 [])
    = (Ok (Some (Summaries ss)), World 0 [])
    ∧ Forall (λ s, ComplexSummary.total_listings s = 0) ss.
Proof.
  destruct (run_without_scrape 0 [py "8928"] [py "A1"] 200 (py "2024-05-02")
              (py "2024-05-02") (map written example_today)
              (Args.mk None None false false true) (λ _, Throws)
              (World 0 []) eq_refl eq_refl) as [Hrun Hblank].
  cbv zeta in Hrun, Hblank. cbn [Args.complex_ids Args.trade_types or_list]
    in Hrun, Hblank.
  destruct (summaries (py "2024-05-02") ∅ (map written example_today)
              [py "8928"] [py "A1"]) as [ss|e] eqn:Hss;
    [|by vm_compute in Hss].
  exists ss. split; [exact Hrun|].
  destruct (Hblank ss eq_refl) as [_ Hall].
  eapply Forall_impl; [exact Hall|]. by intros s (Htotal & _).
Defined.

(** X19.  A full run never gets to the spreadsheet or to Notion.
    Without [--sheets-only] and [--notion-only], [run] calls
    [run_scraper], which raises AttributeError, and nothing in [run]
    catches it: the run raises before a page is visited, before
    [write_listings] and before the summaries, also with
    [--scrape-only].  So a run that ends without an exception is one with
    [--sheets-only] or [--notion-only]. *)
Theorem full_run_raises (fuel : nat) (config_ids config_types : list str)
    (max_listings : Z) (today clock : str) (rows : list row)
    (args : Args.t) (browser : nat → answer) (w : world) :
  (Args.sheets_only args = false → Args.notion_only args = false →
   run fuel config_ids config_types max_listings today clock rows args
     browser w = (Raise AttributeError, w))
  ∧ (∀ r w',
       run fuel config_ids config_types max_listings today clock rows args
         browser w = (Ok r, w') →
       Args.sheets_only args || Args.notion_only args = true).
Proof.
  assert (Hfull : Args.sheets_only args = false →
                  Args.notion_only args = false →
                  run fuel config_ids config_types max_listings today clock
                    rows args browser w = (Raise AttributeError, w)).
  { intros Hsheets Hnotion. unfold run. rewrite Hsheets, Hnotion.
    cbn [negb andb]. rewrite io_bind_eq. by rewrite run_scraper_raises. }
  split; [exact Hfull|].
  intros r w' Hrun.
  destruct (Args.sheets_only args) eqn:Hsheets; [done|].
  destruct (Args.notion_only args) eqn:Hnotion; [done|].
  by rewrite Hfull in Hrun.
Qed.

Lemma full_run_raises_witness :
  run 201 [py "8928"] [py "A1"; py "B1"] 200 (py "2024-05-02")
    (py "2024-05-02") example_yesterday
    (Args.mk None None false false false)
    (always (example_page (example_article (VInt 7) (py "9,500")) false))
    (World 0 []) = (Raise AttributeError, World 0 []).
Proof.
  destruct (full_run_raises 201 [py "8928"] [py "A1"; py "B1"] 200
              (py "2024-05-02") (py "2024-05-02") example_yesterday
              (Args.mk None None false false false)
              (always (example_page (example_article (VInt 7) (py "9,500"))
                         false))
              (World 0 [])) as [Hfull _].
  apply Hfull; reflexivity.
Defined.
